(** * Smart sprayer controllers: a shallow embedding

    The repository holds three Flask scripts that drive a pump from a
    Raspberry Pi:

    - [Rover]         : [cc.py], lines 1-169   (motor rover with a spray route);
    - [SmartSprayer]  : [raspi_smart_sprayer.py] (camera thread, Keras or
                        placeholder detector, pump behind [pump_lock]);
    - [PlantSprayer]  : [cc.py], lines 172-378 (per-plant models, stored
                        analysis result that gates the pump).

    Modelling conventions.
    - Python [int] is [Z]; Python [float] is the rational it denotes ([Q]);
      comparisons against literals are the comparisons the code makes,
      rounding is not modelled.  A float that arrives with a request may
      also be infinite or NaN ([pyfloat]).
    - Module-level globals are fields of a [world] record threaded through a
      state-and-exception monad; GPIO pins are a finite map from pin number
      to the last level written.
    - Everything outside the repository (OpenCV colour conversion, the Keras
      [predict], [load_model]) is a parameter.
    - Calls that matter to an observer (pin writes, sleeps, prints, thread
      starts, detector calls) are appended to the [out] trace of the world.
    - Handlers that may run at once (the pump threads of both sprayers, the
      routes of the threaded rover) are moved one statement at a time by an
      executable step function; a schedule is a list of labels. *)

From Stdlib Require Import ZArith QArith Qminmax List String Bool Lia Lqa DecimalString.
From stdpp Require Import base option gmap strings.
Import ListNotations.

Local Open Scope string_scope.

(* ------------------------------------------------------------------ *)
(** ** Python-level vocabulary shared by the three scripts *)

Module Py.

(** Exceptions the scripts can meet.  [KeyboardInterrupt] is the one
    [BaseException] here that [except Exception] does not catch. *)
Inductive exn : Type :=
| ValueError
| TypeError
| AttributeError
| OverflowError
| IndexError
| KeyError
| ZeroDivisionError
| OSError
| BackendError (what : string)
| HTTPException (code : Z)
| KeyboardInterrupt.

Definition is_Exception (e : exn) : bool :=
  match e with
  | KeyboardInterrupt => false
  | _ => true
  end.

(** Result of a pure, fallible computation. *)
Inductive result (A : Type) : Type :=
| Ok (a : A)
| Err (e : exn).
Arguments Ok {A} a.
Arguments Err {A} e.

(** Outcome of a statement run against a world: it returns, it raises, or
    it waits forever on a lock that nobody releases. *)
Inductive outcome (A : Type) : Type :=
| Returns (a : A)
| Raises (e : exn)
| Blocks.
Arguments Returns {A} a.
Arguments Raises {A} e.
Arguments Blocks {A}.

Definition M (W A : Type) : Type := W -> outcome A * W.

Definition ret {W A} (a : A) : M W A := fun w => (Returns a, w).

Definition raise {W A} (e : exn) : M W A := fun w => (Raises e, w).

Definition bind {W A B} (m : M W A) (k : A -> M W B) : M W B :=
  fun w =>
    match m w with
    | (Returns a, w1) => k a w1
    | (Raises e, w1) => (Raises e, w1)
    | (Blocks, w1) => (Blocks, w1)
    end.

Definition lift {W A} (r : result A) : M W A :=
  match r with
  | Ok a => ret a
  | Err e => raise e
  end.

Definition gets {W A} (f : W -> A) : M W A := fun w => (Returns (f w), w).

Definition modify {W} (f : W -> W) : M W unit := fun w => (Returns tt, f w).

(** [try: body finally: fin] where the [finally] block ends in a [return]:
    the block always runs, and its [return] replaces whatever the body
    did, a pending exception included. *)
Definition try_finally_return {W A B} (body : M W A) (fin : M W B) : M W B :=
  fun w =>
    match body w with
    | (Blocks, w1) => (Blocks, w1)
    | (_, w1) => fin w1
    end.

(** GPIO levels: [GPIO.HIGH] is [True], [GPIO.LOW] is [False]. *)
Definition HIGH : bool := true.
Definition LOW : bool := false.

(** A Python [float] that may come from outside: the rational it
    denotes, or one of the three values that denote none. *)
Inductive pyfloat : Type :=
| Finite (q : Q)
| PlusInfinity
| MinusInfinity
| NaN.

Coercion Finite : Q >-> pyfloat.
Bind Scope Q_scope with pyfloat.

(** What an observer of the process can see.  A [Sleep] is a hold that
    has begun: its length is one [time.sleep] accepts. *)
Inductive event : Type :=
| GpioOutput (pin : Z) (level : bool)
| ChangeDutyCycle (channel : Z) (duty : Z)
| Sleep (seconds : Q)
| Printed (text : string)
| ThreadStart (target : string) (args : list pyfloat)
| Called (fn : string).

(** Comparison of floats, on the rationals they denote. *)
Definition Qltb (x y : Q) : bool := negb (Qle_bool y x).

(** The longest hold [time.sleep] takes: the length is first converted to
    a signed 64-bit count of nanoseconds. *)
Definition SLEEP_MAX : Q := 9223372036854775807 # 1000000000.

(** What [time.sleep(secs)] makes of its argument before it waits:
    [ValueError] for NaN, [OverflowError] for a length that does not fit
    the nanosecond count (the infinities included), then [ValueError] for
    a negative length. *)
Definition sleep_length (secs : pyfloat) : result Q :=
  match secs with
  | NaN => Err ValueError
  | PlusInfinity | MinusInfinity => Err OverflowError
  | Finite q =>
      if Qltb SLEEP_MAX q || Qltb q (- SLEEP_MAX) then Err OverflowError
      else if Qltb q 0 then Err ValueError
      else Ok q
  end.

(** Python's [min(a, b)]: [b] when [b < a], else [a]. *)
Definition py_min (a b : Q) : Q := if Qltb b a then b else a.

(** [str(n)] for an [int]. *)
Definition str (n : Z) : string := NilZero.string_of_int (Z.to_int n).

(** [np.argmax] on a vector: index of the first maximum; [ValueError] on
    an empty one. *)
Fixpoint argmax_from (best : nat) (bestv : Q) (i : nat) (l : list Q) : nat :=
  match l with
  | [] => best
  | x :: tl =>
      if Qltb bestv x then argmax_from i x (S i) tl
      else argmax_from best bestv (S i) tl
  end.

Definition argmax (l : list Q) : result nat :=
  match l with
  | [] => Err ValueError
  | x :: tl => Ok (argmax_from 0%nat x 1%nat tl)
  end.

(** A captured image: [shape[0]] rows, [shape[1]] columns, and the BGR
    pixels in row-major order. *)
Definition pixel : Type := Z * Z * Z.

Record Frame : Type := mkFrame {
  shape0 : nat;
  shape1 : nat;
  pixels : list pixel
}.

(** What [model.predict] hands back: a vector or a batch of vectors. *)
Inductive ndarray : Type :=
| Arr1 (v : list Q)
| Arr2 (rows : list (list Q)).

(** A loaded Keras model, together with the resizing and scaling the
    scripts apply to the frame before [predict]. *)
Definition Model : Type := Frame -> result ndarray.

End Py.

Import Py.

Declare Scope py_scope.
Delimit Scope py_scope with py.
Notation "'let!' x ':=' m 'in' k" := (Py.bind m (fun x => k))
  (at level 10, x name, m at level 100, k at level 200) : py_scope.
Notation "'do!' m 'in' k" := (Py.bind m (fun _ => k))
  (at level 10, m at level 100, k at level 200) : py_scope.

(* ------------------------------------------------------------------ *)
(** ** [cc.py], lines 1-169: the rover *)

Module Rover.

Definition PUMP_PIN : Z := 37.
Definition ENA : Z := 32.
Definition ENB : Z := 36.

Record world : Type := mkWorld {
  motor_speed : Z;
  pwm_a : Z;
  pwm_b : Z;
  gpio : gmap Z bool;
  out : list event
}.

Definition emit (e : event) : M world unit :=
  modify (fun w => mkWorld (motor_speed w) (pwm_a w) (pwm_b w) (gpio w) (out w ++ [e])).

(** [pwm.ChangeDutyCycle(dc)]: RPi.GPIO rejects a duty cycle outside
    0..100 with [ValueError]. *)
Definition pwm_a_ChangeDutyCycle (dc : Z) : M world unit :=
  if ((dc <? 0) || (100 <? dc))%Z then raise ValueError
  else (do! modify (fun w => mkWorld (motor_speed w) dc (pwm_b w) (gpio w) (out w)) in
        emit (ChangeDutyCycle ENA dc))%py.

Definition pwm_b_ChangeDutyCycle (dc : Z) : M world unit :=
  if ((dc <? 0) || (100 <? dc))%Z then raise ValueError
  else (do! modify (fun w => mkWorld (motor_speed w) (pwm_a w) dc (gpio w) (out w)) in
        emit (ChangeDutyCycle ENB dc))%py.

Definition set_motor_speed (speed : Z) : M world unit :=
  (do! pwm_a_ChangeDutyCycle speed in pwm_b_ChangeDutyCycle speed)%py.

Definition GPIO_output (pin : Z) (level : bool) : M world unit :=
  (do! modify (fun w => mkWorld (motor_speed w) (pwm_a w) (pwm_b w)
                          (<[pin := level]> (gpio w)) (out w)) in
   emit (GpioOutput pin level))%py.

(** [time.sleep(secs)] for the literal length the script passes (3):
    [ValueError] on a negative length; otherwise the hold either elapses
    ([interrupt = None]) or is cut short by the exception [interrupt]
    carries. *)
Definition time_sleep (interrupt : option exn) (secs : Q) : M world unit :=
  if Qltb secs 0 then raise ValueError
  else (do! emit (Sleep secs) in
        match interrupt with
        | None => ret tt
        | Some e => raise e
        end)%py.

Definition set_global_motor_speed (v : Z) : M world unit :=
  modify (fun w => mkWorld v (pwm_a w) (pwm_b w) (gpio w) (out w)).

(** [/speed/<int:speed>] *)
Definition set_speed (speed : Z) : M world string :=
  (do! set_global_motor_speed (Z.max 0 (Z.min 100 speed)) in
   let! v := gets motor_speed in
   do! set_motor_speed v in
   let! v' := gets motor_speed in
   ret ("Speed set to " ++ str v' ++ "%"))%py.

(** [/spray]: the page it renders is the constant template. *)
Definition spray (interrupt : option exn) : M world string :=
  (do! GPIO_output PUMP_PIN true in
   do! time_sleep interrupt 3 in
   do! GPIO_output PUMP_PIN false in
   ret "temp.html")%py.

(** State after the module body has run (lines 8-53). *)
Definition init : world :=
  mkWorld 50 50 50
    (<[PUMP_PIN := false]> (<[35%Z := false]> (<[33%Z := false]>
       (<[31%Z := false]> (<[29%Z := false]> ∅))))) [].

Definition Motor_In1 : Z := 29.
Definition Motor_In2 : Z := 31.
Definition Motor_In3 : Z := 33.
Definition Motor_In4 : Z := 35.

(** The four direction pins, written in the order the routes write them. *)
Definition drive_pins (in1 in2 in3 in4 : bool) : M world unit :=
  (do! GPIO_output Motor_In1 in1 in
   do! GPIO_output Motor_In2 in2 in
   do! GPIO_output Motor_In3 in3 in
   GPIO_output Motor_In4 in4)%py.

(** [/Forward], lines 95-102. *)
Definition forward : M world string :=
  (let! v := gets motor_speed in
   do! set_motor_speed v in
   do! drive_pins true false true false in
   ret "temp.html")%py.

(** [/Backward], lines 104-111. *)
Definition backward : M world string :=
  (let! v := gets motor_speed in
   do! set_motor_speed v in
   do! drive_pins false true false true in
   ret "temp.html")%py.

(** [/left], lines 113-120. *)
Definition left : M world string :=
  (let! v := gets motor_speed in
   do! set_motor_speed v in
   do! drive_pins true false false true in
   ret "temp.html")%py.

(** [/right], lines 122-129. *)
Definition right : M world string :=
  (let! v := gets motor_speed in
   do! set_motor_speed v in
   do! drive_pins false true true false in
   ret "temp.html")%py.

(** [/stop], lines 131-138. *)
Definition stop : M world string :=
  (do! set_motor_speed 0 in
   do! drive_pins false false false false in
   ret "temp.html")%py.

(** The routes of the rover, as requests. *)
Inductive request : Type :=
| Forward
| Backward
| Left
| Right
| Stop
| Speed (speed : Z)
| Spray (interrupt : option exn).

Definition handle (r : request) : M world string :=
  match r with
  | Forward => forward
  | Backward => backward
  | Left => left
  | Right => right
  | Stop => stop
  | Speed speed => set_speed speed
  | Spray interrupt => spray interrupt
  end.

(** Requests that do not overlap: each handler has ended before the
    next request arrives.  A request that raises is answered with an
    error page and the globals stay as it left them. *)
Fixpoint serve (rs : list request) (w : world) : world :=
  match rs with
  | [] => w
  | r :: tl => serve tl (snd (handle r w))
  end.

(** *** Requests that overlap

    The server runs with [threaded=True] (line 167): every request is
    handled on a thread of its own and the script holds no lock, so the
    handlers of two requests may be under way at once.  A handler then
    moves one access to a shared object at a time: a read or a write of
    the global [motor_speed], one [ChangeDutyCycle], one [GPIO.output],
    the sleep.  What it has evaluated so far is its own. *)

Inductive instr : Type :=
| LoadSpeed                     (* evaluate the global [motor_speed] *)
| LoadConst (v : Z)             (* evaluate a literal *)
| StoreSpeed (v : Z)            (* [motor_speed = v] *)
| ChangeA                       (* [pwm_a.ChangeDutyCycle(speed)] *)
| ChangeB                       (* [pwm_b.ChangeDutyCycle(speed)] *)
| Output (pin : Z) (level : bool)
| Hold (interrupt : option exn) (secs : Q).

(** One access; [speed] is the value the handler evaluated last, the
    result is the value it holds afterwards. *)
Definition instr_step (i : instr) (speed : Z) : M world Z :=
  match i with
  | LoadSpeed => gets motor_speed
  | LoadConst v => ret v
  | StoreSpeed v => (do! set_global_motor_speed v in ret speed)%py
  | ChangeA => (do! pwm_a_ChangeDutyCycle speed in ret speed)%py
  | ChangeB => (do! pwm_b_ChangeDutyCycle speed in ret speed)%py
  | Output pin level => (do! GPIO_output pin level in ret speed)%py
  | Hold interrupt secs => (do! time_sleep interrupt secs in ret speed)%py
  end.

Definition write_pins (in1 in2 in3 in4 : bool) : list instr :=
  [Output Motor_In1 in1; Output Motor_In2 in2; Output Motor_In3 in3; Output Motor_In4 in4].

(** The accesses of each route, in the order of lines 95-154.  The last
    access of [/speed] is the read of [motor_speed] for the message. *)
Definition program (r : request) : list instr :=
  match r with
  | Forward => LoadSpeed :: ChangeA :: ChangeB :: write_pins true false true false
  | Backward => LoadSpeed :: ChangeA :: ChangeB :: write_pins false true false true
  | Left => LoadSpeed :: ChangeA :: ChangeB :: write_pins true false false true
  | Right => LoadSpeed :: ChangeA :: ChangeB :: write_pins false true true false
  | Stop => LoadConst 0 :: ChangeA :: ChangeB :: write_pins false false false false
  | Speed speed =>
      [StoreSpeed (Z.max 0 (Z.min 100 speed)); LoadSpeed; ChangeA; ChangeB; LoadSpeed]
  | Spray interrupt => [Output PUMP_PIN true; Hold interrupt 3; Output PUMP_PIN false]
  end.

(** A handler under way: the accesses still to make, the value it
    evaluated last (0 before the first), and the exception that ended
    it, if one did. *)
Record thread : Type := mkThread {
  route : request;
  code : list instr;
  held : Z;
  failed : option exn
}.

Definition start (r : request) : thread := mkThread r (program r) 0 None.

Definition thread_step (t : thread) (w : world) : option (thread * world) :=
  match failed t, code t with
  | None, i :: rest =>
      match instr_step i (held t) w with
      | (Returns v, w1) => Some (mkThread (route t) rest v None, w1)
      | (Raises e, w1) => Some (mkThread (route t) [] (held t) (Some e), w1)
      | (Blocks, _) => None
      end
  | _, _ => None
  end.

(** What a handler that has made all its accesses answers; for the
    routes that render it, the page is the constant template. *)
Definition answer (t : thread) : outcome string :=
  match failed t, route t with
  | Some e, _ => Raises e
  | None, Speed _ => Returns ("Speed set to " ++ str (held t) ++ "%")
  | None, _ => Returns "temp.html"
  end.

(** A handler left to itself for [n] accesses. *)
Fixpoint alone (n : nat) (t : thread) (w : world) : thread * world :=
  match n with
  | O => (t, w)
  | S k =>
      match thread_step t w with
      | Some (t1, w1) => alone k t1 w1
      | None => (t, w)
      end
  end.

Record system : Type := mkSystem {
  shared : world;
  threads : list thread
}.

(** What can happen next: a request arrives, or the handler of request
    number [tid] makes its next access. *)
Inductive label : Type :=
| Arrives (r : request)
| Moves (tid : nat).

Definition exec (l : label) (s : system) : option system :=
  match l with
  | Arrives r => Some (mkSystem (shared s) (threads s ++ [start r]))
  | Moves tid =>
      match threads s !! tid with
      | None => None
      | Some t =>
          match thread_step t (shared s) with
          | None => None
          | Some (t1, w1) => Some (mkSystem w1 (<[tid := t1]> (threads s)))
          end
      end
  end.

Fixpoint run (ls : list label) (s : system) : option system :=
  match ls with
  | [] => Some s
  | l :: tl =>
      match exec l s with
      | Some s1 => run tl s1
      | None => None
      end
  end.

Definition idle : system := mkSystem init [].

End Rover.

(* ------------------------------------------------------------------ *)
(** ** [raspi_smart_sprayer.py] *)

Module SmartSprayer.

Definition PUMP_GPIO_PIN : Z := 18.
Definition PUMP_DEFAULT_DURATION : Q := 5.
Definition CLASS_NAMES : list string :=
  ["Healthy"; "Disease_A"; "Disease_B"; "Disease_C"].

(** Severity levels as the script numbers them (line 144), and the names
    the page gives them (lines 290-293). *)
Inductive Severity : Type := SevNone | Low | Medium | High.

Definition severity_name (level : Z) : option Severity :=
  if (level =? 0)%Z then Some SevNone
  else if (level =? 1)%Z then Some Low
  else if (level =? 2)%Z then Some Medium
  else if (level =? 3)%Z then Some High
  else None.

Record world : Type := mkWorld {
  latest_frame : option Frame;
  gpio : gmap Z bool;
  pump_lock : bool;            (* [true] while some thread holds it *)
  out : list event
}.

Definition emit (e : event) : M world unit :=
  modify (fun w => mkWorld (latest_frame w) (gpio w) (pump_lock w) (out w ++ [e])).

Definition GPIO_output (pin : Z) (level : bool) : M world unit :=
  (do! modify (fun w => mkWorld (latest_frame w) (<[pin := level]> (gpio w))
                          (pump_lock w) (out w)) in
   emit (GpioOutput pin level))%py.

Definition print (text : string) : M world unit := emit (Printed text).

(** [time.sleep(secs)], where [secs] comes from the request: a length
    that [sleep_length] rejects raises at once, before any waiting;
    otherwise the hold either elapses ([interrupt = None]) or is cut
    short by the exception [interrupt] carries. *)
Definition time_sleep (interrupt : option exn) (secs : pyfloat) : M world unit :=
  match sleep_length secs with
  | Err e => raise e
  | Ok q =>
      (do! emit (Sleep q) in
       match interrupt with
       | None => ret tt
       | Some e => raise e
       end)%py
  end.

Definition set_lock (b : bool) : M world unit :=
  modify (fun w => mkWorld (latest_frame w) (gpio w) b (out w)).

(** [with pump_lock: body]: the caller waits while the lock is held; the
    lock is released however the body ends. *)
Definition with_pump_lock {A} (body : M world A) : M world A :=
  fun w =>
    if pump_lock w then (Blocks, w)
    else
      match body (mkWorld (latest_frame w) (gpio w) true (out w)) with
      | (r, w1) => (r, mkWorld (latest_frame w1) (gpio w1) false (out w1))
      end.

(** [CameraThread.get_frame] *)
Definition get_frame : M world (option Frame) := gets latest_frame.

(** One successful iteration of [CameraThread.run] (lines 95-96). *)
Definition publish (frame : Frame) : M world unit :=
  modify (fun w => mkWorld (Some frame) (gpio w) (pump_lock w) (out w)).

(** The JSON bodies the routes answer with. *)
Inductive response : Type :=
| DetectJson (label : string) (confidence : Q) (severity : Z) (log : string)
| ErrorJson (error message : string) (status : Z)
| SprayJson (status : string) (duration : pyfloat).

(** [CameraThread.run], lines 77-97.  [opened] is what [cap.isOpened()]
    answers; each element of [reads] is what one [cap.read()] gives
    ([None] when [ret] is false).  The loop goes on while [running]; a
    list of reads is a prefix of it. *)
Definition camera_iteration (read : option Frame) : M world unit :=
  match read with
  | None => emit (Sleep 0.1)
  | Some frame => (do! publish frame in emit (Sleep 0.02))%py
  end.

Fixpoint camera_loop (reads : list (option Frame)) : M world unit :=
  match reads with
  | [] => ret tt
  | r :: tl => (do! camera_iteration r in camera_loop tl)%py
  end.

Definition CameraThread_run (opened : bool) (reads : list (option Frame))
  : M world unit :=
  if opened then camera_loop reads
  else emit (Printed "Error: Camera not opened. Check camera index or connections.").

Section Program.

(** Fixed when the process starts. *)
Variable USE_GPIO : bool.
Variable PUMP_ACTIVE_HIGH : bool.
Variable keras_model : option Model.
(** [cv2.cvtColor(frame, cv2.COLOR_BGR2HSV)], pixel by pixel. *)
Variable cvtColor_BGR2HSV : pixel -> pixel.

(** [cv2.inRange] for one pixel (bounds inclusive). *)
Definition inRange (lower upper p : pixel) : bool :=
  match lower, upper, p with
  | (l0, l1, l2), (u0, u1, u2), (h, s, v) =>
      ((l0 <=? h) && (h <=? u0) && (l1 <=? s) && (s <=? u1)
       && (l2 <=? v) && (v <=? u2))%Z
  end.

Definition count_nonzero (mask : list bool) : Z :=
  Z.of_nat (length (List.filter (fun b : bool => b) mask)).

Definition mask_of (frame : Frame) : list bool :=
  map (fun p => inRange (5, 50, 50)%Z (30, 255, 255)%Z (cvtColor_BGR2HSV p))
      (pixels frame).

(** Line 153: the fraction of pixels in the band. *)
Definition cover_of (frame : Frame) : result Q :=
  let area := (Z.of_nat (shape0 frame) * Z.of_nat (shape1 frame))%Z in
  if (area =? 0)%Z then Err ZeroDivisionError
  else Ok (inject_Z (count_nonzero (mask_of frame)) / inject_Z area)%Q.

(** Lines 155-162. *)
Definition severity_of_cover (cover : Q) : string * Q * Z :=
  if Qltb cover 0.003 then ("Healthy", (1.0 - cover)%Q, 0%Z)
  else if Qltb cover 0.02 then ("Possible Leaf Spot", py_min 0.9 (cover * 50), 1%Z)
  else if Qltb cover 0.08 then ("Infected: Leaf Spot", py_min 0.95 (cover * 10), 2%Z)
  else ("Severe Infection", py_min 0.99 (cover * 5), 3%Z).

Definition placeholder_detector (frame : Frame) : result (string * Q * Z) :=
  match cover_of frame with
  | Ok cover => Ok (severity_of_cover cover)
  | Err e => Err e
  end.

(** Lines 187-195. *)
Definition severity_of_prediction (label : string) (confidence : Q) : Z :=
  if (label =? "Healthy")%string then
    (if Qltb 0.6 confidence then 0%Z else 1%Z)
  else if Qltb confidence 0.5 then 1%Z
  else if Qltb confidence 0.8 then 2%Z
  else 3%Z.

Definition class_label (idx : nat) : string :=
  if (idx <? length CLASS_NAMES)%nat then nth idx CLASS_NAMES EmptyString
  else "Class " ++ str (Z.of_nat idx).

Definition keras_detector (model : Model) (frame : Frame)
  : result (string * Q * Z) :=
  match model frame with
  | Err e => Err e
  | Ok preds =>
      let probs :=
        match preds with
        | Arr2 rows => match rows with r :: _ => Ok r | [] => Err IndexError end
        | Arr1 v => Ok v
        end in
      match probs with
      | Err e => Err e
      | Ok probs =>
          match argmax probs with
          | Err e => Err e
          | Ok idx =>
              let label := class_label idx in
              let confidence := nth idx probs 0%Q in
              Ok (label, confidence, severity_of_prediction label confidence)
          end
      end
  end.

Definition active_level : bool := if PUMP_ACTIVE_HIGH then HIGH else LOW.
Definition inactive_level : bool := if PUMP_ACTIVE_HIGH then LOW else HIGH.

(** Lines 201-222.  [interrupt] says how the hold ends, see
    [time_sleep]. *)
Definition activate_pump (interrupt : option exn) (duration : pyfloat) : M world bool :=
  with_pump_lock
    (if USE_GPIO then
       try_finally_return
         (do! GPIO_output PUMP_GPIO_PIN active_level in
          time_sleep interrupt duration)%py
         (do! GPIO_output PUMP_GPIO_PIN inactive_level in
          ret true)%py
     else
       (do! print "[SIMULATION] Activating pump" in
        do! time_sleep interrupt duration in
        do! print "[SIMULATION] Pump deactivated" in
        ret true)%py).

(** [/detect], lines 334-352. *)
Definition detect : M world response :=
  (let! frame := get_frame in
   match frame with
   | None => ret (ErrorJson "no_frame" "No camera frame available." 503)
   | Some frame =>
       let! answered :=
         match keras_model with
         | Some model =>
             do! emit (Called "keras_detector") in
             match keras_detector model frame with
             | Ok (label, conf, severity) =>
                 ret (Some (DetectJson label conf severity "Used Keras model."))
             | Err e =>
                 if is_Exception e then
                   do! print "Keras detection failed:" in ret None
                 else raise e
             end
         | None => ret None
         end in
       match answered with
       | Some r => ret r
       | None =>
           do! emit (Called "placeholder_detector") in
           let! t := lift (placeholder_detector frame) in
           match t with
           | (label, conf, severity) =>
               ret (DetectJson label conf severity "Used placeholder detector.")
           end
       end
   end)%py.

(** The value stored under ["duration"], by what [float] makes of it. *)
Inductive field : Type :=
| Reads (x : pyfloat)   (* a number, a bool, or a string that [float] reads *)
| Unreadable            (* any other string: [ValueError] *)
| NotNumeric            (* [null], a list, an object: [TypeError] *)
| TooLarge.             (* an integer beyond the floats: [OverflowError] *)

Definition float (v : field) : result pyfloat :=
  match v with
  | Reads x => Ok x
  | Unreadable => Err ValueError
  | NotNumeric => Err TypeError
  | TooLarge => Err OverflowError
  end.

(** The body of a request to [/spray], by what lines 356-357 make of
    it. *)
Inductive posted : Type :=
| NoJson (code : Z)     (* [get_json] raises: 415 without a JSON content
                           type, 400 on malformed JSON *)
| Falsy                 (* [null], [false], [0], an empty string, list or
                           object: replaced by the empty dict *)
| NotAnObject           (* any other value that is not an object: it has
                           no [get] *)
| Object (duration : option field).

(** Lines 356-357: [request.get_json() or {}], then
    [float(body.get('duration', PUMP_DEFAULT_DURATION))]. *)
Definition posted_duration (body : posted) : result pyfloat :=
  match body with
  | NoJson code => Err (HTTPException code)
  | Falsy => Ok (Finite PUMP_DEFAULT_DURATION)
  | NotAnObject => Err AttributeError
  | Object None => Ok (Finite PUMP_DEFAULT_DURATION)
  | Object (Some v) => float v
  end.

(** [/spray], lines 354-361.  A request whose body makes line 356 or 357
    raise ends there: no thread is started. *)
Definition spray (body : posted) : M world response :=
  (let! duration := lift (posted_duration body) in
   do! emit (ThreadStart "activate_pump" [duration]) in
   ret (SprayJson "activated" duration))%py.

(** *** Requests and pump threads, interleaved

    A [/spray] request whose body is accepted starts a thread that runs
    [activate_pump]; one whose handler raises is answered with the error
    (400, 415 or 500) and starts none.  The request handler itself
    touches no shared variable.  A thread is at
    one of the program points below, and moves one statement at a
    time; any thread that can move may be the next to move. *)

Inductive pc : Type :=
| AtLock                       (* waiting to enter [with pump_lock] *)
| AtAssert                     (* lock held; next: write the active level *)
| AtHold                       (* next: [time.sleep(duration)] *)
| AtFinally                    (* next: write the inactive level, [return True] *)
| AtSimulate                   (* lock held; next: the simulated drive *)
| AtRelease (r : outcome bool) (* next: leave the [with] block *)
| Finished (r : outcome bool).

Record thread : Type := mkThread { duration : pyfloat; at_pc : pc }.

(** [answers] are the JSON bodies of the requests whose handler
    returned, [refused] the exceptions of those whose handler raised. *)
Record system : Type := mkSystem {
  shared : world;
  threads : list thread;
  answers : list response;
  refused : list exn
}.

Definition thread_step (interrupt : option exn) (t : thread) (w : world)
  : option (pc * world) :=
  match at_pc t with
  | AtLock =>
      if pump_lock w then None
      else Some (if USE_GPIO then AtAssert else AtSimulate, snd (set_lock true w))
  | AtAssert => Some (AtHold, snd (GPIO_output PUMP_GPIO_PIN active_level w))
  | AtHold => Some (AtFinally, snd (time_sleep interrupt (duration t) w))
  | AtFinally =>
      Some (AtRelease (Returns true), snd (GPIO_output PUMP_GPIO_PIN inactive_level w))
  | AtSimulate =>
      match (do! print "[SIMULATION] Activating pump" in
             do! time_sleep interrupt (duration t) in
             do! print "[SIMULATION] Pump deactivated" in
             ret true)%py w with
      | (r, w1) => Some (AtRelease r, w1)
      end
  | AtRelease r => Some (Finished r, snd (set_lock false w))
  | Finished _ => None
  end.

(** What can happen next: a request arrives, or thread [tid] moves. *)
Inductive label : Type :=
| Request (body : posted)
| Run (tid : nat) (interrupt : option exn).

Definition exec (l : label) (s : system) : option system :=
  match l with
  | Request body =>
      match spray body (shared s) with
      | (Returns (SprayJson status d), w1) =>
          Some (mkSystem w1 (threads s ++ [mkThread d AtLock])
                         (answers s ++ [SprayJson status d]) (refused s))
      | (Raises e, w1) =>
          Some (mkSystem w1 (threads s) (answers s) (refused s ++ [e]))
      | _ => None
      end
  | Run tid interrupt =>
      match threads s !! tid with
      | None => None
      | Some t =>
          match thread_step interrupt t (shared s) with
          | None => None
          | Some (p, w1) =>
              Some (mkSystem w1 (<[tid := mkThread (duration t) p]> (threads s))
                             (answers s) (refused s))
          end
      end
  end.

Fixpoint run (ls : list label) (s : system) : option system :=
  match ls with
  | [] => Some s
  | l :: tl =>
      match exec l s with
      | Some s1 => run tl s1
      | None => None
      end
  end.

(** A thread is inside its drive sequence from the moment it has the
    lock until it has given it back. *)
Definition in_drive (t : thread) : bool :=
  match at_pc t with
  | AtAssert | AtHold | AtFinally | AtSimulate | AtRelease _ => true
  | AtLock | Finished _ => false
  end.

(** ... and has the pin asserted between the two pin writes. *)
Definition asserting (t : thread) : bool :=
  match at_pc t with
  | AtHold | AtFinally => true
  | _ => false
  end.

Definition activated (r : response) : bool :=
  match r with
  | SprayJson status _ => (status =? "activated")%string
  | _ => false
  end.

(** Lines 116-126: at start-up the pin is driven to its off level
    (when there is a pin), nobody holds the lock, no frame is there. *)
Definition init : world :=
  mkWorld None
    (if USE_GPIO then <[PUMP_GPIO_PIN := inactive_level]> ∅ else ∅) false [].

Definition idle : system := mkSystem init [] [] [].

End Program.

End SmartSprayer.

(* ------------------------------------------------------------------ *)
(** ** [cc.py], lines 172-378: the per-plant sprayer *)

Module PlantSprayer.

Definition PUMP_GPIO_PIN : Z := 18.
Definition PUMP_DEFAULT_DURATION : Q := 5.

(** [PLANT_MODELS]: plant name to (model path, class names). *)
Definition PLANT_MODELS : gmap string (string * list string) :=
  <["wheat" := ("models/wheat_model.h5", ["Healthy"; "Rust"; "Blight"])]>
  (<["rice" := ("models/rice_model.h5", ["Healthy"; "Brown Spot"; "Leaf Blast"])]>
  (<["cotton" := ("models/cotton_model.h5", ["Healthy"; "Wilt"; "Leaf Curl"])]> ∅)).

(** The text shown for an analysis: either the formatted
    [f"{label} ({confidence:.2f})"], kept as its two parts, or a fixed
    sentence. *)
Inductive result_text : Type :=
| Labelled (label : string) (confidence : Q)
| Sentence (text : string).

Record world : Type := mkWorld {
  current_frame : option Frame;
  analysis_result : option (result_text * string);
  models_cache : gmap string (option Model);
  gpio : gmap Z bool;
  out : list event
}.

Definition emit (e : event) : M world unit :=
  modify (fun w => mkWorld (current_frame w) (analysis_result w) (models_cache w)
                     (gpio w) (out w ++ [e])).

Definition GPIO_output (pin : Z) (level : bool) : M world unit :=
  (do! modify (fun w => mkWorld (current_frame w) (analysis_result w) (models_cache w)
                          (<[pin := level]> (gpio w)) (out w)) in
   emit (GpioOutput pin level))%py.

(** [time.sleep(secs)] for the literal length the script passes
    ([PUMP_DEFAULT_DURATION]), as in the rover. *)
Definition time_sleep (interrupt : option exn) (secs : Q) : M world unit :=
  if Qltb secs 0 then raise ValueError
  else (do! emit (Sleep secs) in
        match interrupt with
        | None => ret tt
        | Some e => raise e
        end)%py.

Definition set_models_cache (c : gmap string (option Model)) : M world unit :=
  modify (fun w => mkWorld (current_frame w) (analysis_result w) c (gpio w) (out w)).

Definition set_analysis_result (r : option (result_text * string)) : M world unit :=
  modify (fun w => mkWorld (current_frame w) r (models_cache w) (gpio w) (out w)).

(** One pass of the generator in [video_feed] (line 350). *)
Definition publish (frame : Frame) : M world unit :=
  modify (fun w => mkWorld (Some frame) (analysis_result w) (models_cache w)
                     (gpio w) (out w)).

(** The JSON bodies the routes answer with. *)
Inductive response : Type :=
| CheckJson (result : result_text) (severity : string)
| MessageJson (message : string).

Section Program.

Variable RPI_ENV : bool.
Variable PUMP_ACTIVE_HIGH : bool.
(** [tensorflow.keras.models.load_model], which may raise. *)
Variable load_model : string -> result Model.

(** Lines 284-292.  The bare [except] turns any failure to load into a
    cached [None]. *)
Definition load_plant_model (plant : string)
  : M world (option Model * list string) :=
  match PLANT_MODELS !! plant with
  | None => ret (None, [])
  | Some (path, classes) =>
      (let! cache := gets models_cache in
       do! match cache !! plant with
           | Some _ => ret tt
           | None =>
               set_models_cache
                 (<[plant := match load_model path with
                             | Ok m => Some m
                             | Err _ => None
                             end]> cache)
           end in
       let! cache := gets models_cache in
       match cache !! plant with
       | Some model => ret (model, classes)
       | None => raise KeyError
       end)%py
  end.

(** [model.predict(img)[0]]: the first row of a batch; indexing then
    fails on anything that is not a batch of vectors. *)
Definition predict_first (model : Model) (frame : Frame) : result (list Q) :=
  match model frame with
  | Err e => Err e
  | Ok (Arr2 (r :: _)) => Ok r
  | Ok _ => Err IndexError
  end.

(** Lines 304-311. *)
Definition severity_of_prediction (label : string) (confidence : Q) : string :=
  if negb (label =? "Healthy")%string then
    (if Qltb 0.8 confidence then "High"
     else if Qltb 0.5 confidence then "Medium"
     else "Low")
  else "None".

(** Lines 294-314. *)
Definition analyze_frame (frame : Frame) (plant : string)
  : M world (result_text * string) :=
  (let! mc := load_plant_model plant in
   match mc with
   | (Some model, classes) =>
       do! emit (Called "predict") in
       let! preds := lift (predict_first model frame) in
       let! idx := lift (argmax preds) in
       let confidence := nth idx preds 0%Q in
       let! label := lift (match classes !! idx with
                           | Some l => Ok l
                           | None => Err IndexError
                           end) in
       ret (Labelled label confidence, severity_of_prediction label confidence)
   | (None, _) => ret (Sentence "Mock: Possible infection detected", "Medium")
   end)%py.

(** Lines 316-322.  [interrupt] says how the hold ends, see
    [time_sleep]. *)
Definition trigger_pump (interrupt : option exn) : M world unit :=
  if RPI_ENV then
    (do! GPIO_output PUMP_GPIO_PIN PUMP_ACTIVE_HIGH in
     do! time_sleep interrupt PUMP_DEFAULT_DURATION in
     GPIO_output PUMP_GPIO_PIN (negb PUMP_ACTIVE_HIGH))%py
  else emit (Printed "[SIM] Pump activated for 5 seconds").

(** [not plant] for what [session.get("plant", None)] gives. *)
Definition no_plant (plant : option string) : bool :=
  match plant with
  | None => true
  | Some p => (p =? EmptyString)%string
  end.

(** [/check], lines 356-364.  The guard [not plant or current_frame is
    None] is the first branch of the [if] together with the last case of
    the [match]. *)
Definition check (plant : option string) : M world response :=
  (let! frame := gets current_frame in
   match plant, frame with
   | Some p, Some f =>
       if no_plant plant then ret (CheckJson (Sentence "No frame available") "None")
       else
         let! rs := analyze_frame f p in
         do! set_analysis_result (Some rs) in
         ret (CheckJson (fst rs) (snd rs))
   | _, _ => ret (CheckJson (Sentence "No frame available") "None")
   end)%py.

(** [/spray], lines 366-375. *)
Definition spray : M world response :=
  (let! stored := gets analysis_result in
   match stored with
   | None => ret (MessageJson "No analysis result yet")
   | Some (_, severity) =>
       if existsb (String.eqb severity) ["Medium"; "High"] then
         do! emit (ThreadStart "trigger_pump" []) in
         ret (MessageJson "Pump activated!")
       else ret (MessageJson "Spray not needed.")
   end)%py.

(** Lines 214-225: the pin is driven off at start-up, nothing is stored. *)
Definition init : world :=
  mkWorld None None ∅
    (if RPI_ENV then <[PUMP_GPIO_PIN := negb PUMP_ACTIVE_HIGH]> ∅ else ∅) [].

(** *** Requests and pump threads, interleaved

    [/spray] starts [trigger_pump] on a thread of its own; the threads
    share the pin and nothing else. *)

Inductive pc : Type :=
| AtAssert                      (* next: write the active level, or the print *)
| AtHold                        (* next: [time.sleep(PUMP_DEFAULT_DURATION)] *)
| AtDeassert                    (* next: write the inactive level *)
| Finished (r : outcome unit).

Record system : Type := mkSystem {
  shared : world;
  threads : list pc;
  answers : list response
}.

Definition thread_step (interrupt : option exn) (p : pc) (w : world)
  : option (pc * world) :=
  match p with
  | AtAssert =>
      if RPI_ENV then Some (AtHold, snd (GPIO_output PUMP_GPIO_PIN PUMP_ACTIVE_HIGH w))
      else Some (Finished (Returns tt),
                 snd (emit (Printed "[SIM] Pump activated for 5 seconds") w))
  | AtHold =>
      match time_sleep interrupt PUMP_DEFAULT_DURATION w with
      | (Returns _, w1) => Some (AtDeassert, w1)
      | (r, w1) => Some (Finished r, w1)
      end
  | AtDeassert =>
      Some (Finished (Returns tt),
            snd (GPIO_output PUMP_GPIO_PIN (negb PUMP_ACTIVE_HIGH) w))
  | Finished _ => None
  end.

(** What can happen next: a [/spray] request arrives, or thread [tid]
    moves. *)
Inductive label : Type :=
| Request
| Run (tid : nat) (interrupt : option exn).

Definition exec (l : label) (s : system) : option system :=
  match l with
  | Request =>
      match spray (shared s) with
      | (Returns r, w1) =>
          let started :=
            match r with
            | MessageJson m => if (m =? "Pump activated!")%string then [AtAssert] else []
            | _ => []
            end in
          Some (mkSystem w1 (threads s ++ started) (answers s ++ [r]))
      | _ => None
      end
  | Run tid interrupt =>
      match threads s !! tid with
      | None => None
      | Some p =>
          match thread_step interrupt p (shared s) with
          | None => None
          | Some (p', w1) => Some (mkSystem w1 (<[tid := p']> (threads s)) (answers s))
          end
      end
  end.

Fixpoint run (ls : list label) (s : system) : option system :=
  match ls with
  | [] => Some s
  | l :: tl =>
      match exec l s with
      | Some s1 => run tl s1
      | None => None
      end
  end.

(** A thread is inside its drive sequence between its two pin writes. *)
Definition in_drive (p : pc) : bool :=
  match p with
  | AtHold | AtDeassert => true
  | AtAssert | Finished _ => false
  end.

End Program.

End PlantSprayer.

(* ------------------------------------------------------------------ *)
(** ** Observations on a running system, and worlds to run the code on *)

Definition driving (s : SmartSprayer.system) : nat :=
  length (List.filter SmartSprayer.in_drive (SmartSprayer.threads s)).

Definition holding_pin (s : SmartSprayer.system) : nat :=
  length (List.filter SmartSprayer.asserting (SmartSprayer.threads s)).

Definition lock_held (s : SmartSprayer.system) : bool :=
  SmartSprayer.pump_lock (SmartSprayer.shared s).

Definition pin_level (s : SmartSprayer.system) : option bool :=
  SmartSprayer.gpio (SmartSprayer.shared s) !! SmartSprayer.PUMP_GPIO_PIN.

(** The lock is held exactly while one thread is inside its drive. *)
Definition lock_counts (s : SmartSprayer.system) : Prop :=
  driving s = if lock_held s then 1%nat else 0%nat.

(** With no thread between its two pin writes, the pin is off. *)
Definition pin_off_when_free (USE_GPIO active_high : bool)
  (s : SmartSprayer.system) : Prop :=
  USE_GPIO = true -> holding_pin s = 0%nat ->
  pin_level s = Some (SmartSprayer.inactive_level active_high).

Definition all_activated (s : SmartSprayer.system) : Prop :=
  Forall (fun r => SmartSprayer.activated r = true) (SmartSprayer.answers s) /\
  length (SmartSprayer.answers s) = length (SmartSprayer.threads s).

(** What the rover keeps true between requests: the stored speed is a
    legal duty cycle, and both PWM channels carry either it or zero. *)
Definition rover_ok (w : Rover.world) : Prop :=
  (0 <= Rover.motor_speed w <= 100)%Z /\
  Rover.pwm_a w = Rover.pwm_b w /\
  (Rover.pwm_a w = Rover.motor_speed w \/ Rover.pwm_a w = 0%Z).

(** The levels last written to the four direction pins. *)
Definition bridge (w : Rover.world) : list (option bool) :=
  [Rover.gpio w !! Rover.Motor_In1; Rover.gpio w !! Rover.Motor_In2;
   Rover.gpio w !! Rover.Motor_In3; Rover.gpio w !! Rover.Motor_In4].

(** The five patterns the routes write. *)
Definition bridge_patterns : list (list (option bool)) :=
  [[Some true; Some false; Some true; Some false];
   [Some false; Some true; Some false; Some true];
   [Some true; Some false; Some false; Some true];
   [Some false; Some true; Some true; Some false];
   [Some false; Some false; Some false; Some false]].

Definition interrupted (r : Rover.request) : bool :=
  match r with
  | Rover.Spray (Some _) => true
  | _ => false
  end.

Definition is_spray (r : Rover.request) : bool :=
  match r with
  | Rover.Spray _ => true
  | _ => false
  end.

Definition is_direction (r : Rover.request) : bool :=
  match r with
  | Rover.Forward | Rover.Backward | Rover.Left | Rover.Right => true
  | _ => false
  end.

(** A duty cycle [ChangeDutyCycle] takes. *)
Definition duty (v : Z) : Prop := (0 <= v <= 100)%Z.

(** An access of the handler of route [r] that hands neither
    [ChangeDutyCycle] nor [time.sleep] a literal they reject. *)
Definition instr_safe (r : Rover.request) (i : Rover.instr) : Prop :=
  match i with
  | Rover.LoadConst v | Rover.StoreSpeed v => duty v
  | Rover.Hold interrupt secs => r = Rover.Spray interrupt /\ Qltb secs 0 = false
  | _ => True
  end.

Definition thread_safe (t : Rover.thread) : Prop :=
  duty (Rover.held t) /\
  Forall (instr_safe (Rover.route t)) (Rover.code t) /\
  (forall e, Rover.failed t = Some e ->
     Rover.route t = Rover.Spray (Some e) /\ Rover.code t = []).

(** What the rover keeps true at every moment, overlapping requests
    included. *)
Definition rover_safe (s : Rover.system) : Prop :=
  duty (Rover.motor_speed (Rover.shared s)) /\
  duty (Rover.pwm_a (Rover.shared s)) /\
  duty (Rover.pwm_b (Rover.shared s)) /\
  Forall thread_safe (Rover.threads s).

(** The handler has made all its accesses, or has been ended by an
    exception. *)
Definition handler_done (t : Rover.thread) : bool :=
  match Rover.code t with
  | [] => true
  | _ => false
  end.

(** Two [/speed] requests at once: the first stores its speed and reads
    it back, then the second does; then their four [ChangeDutyCycle]
    calls cross, and each reads the speed for its message. *)
Definition crossing_speeds : list Rover.label :=
  [Rover.Arrives (Rover.Speed 30); Rover.Arrives (Rover.Speed 80);
   Rover.Moves 0; Rover.Moves 0; Rover.Moves 1; Rover.Moves 1;
   Rover.Moves 0; Rover.Moves 1; Rover.Moves 1; Rover.Moves 0;
   Rover.Moves 0; Rover.Moves 1].

(** [/Backward] and [/Forward] at once, their pin writes taking turns
    two by two. *)
Definition crossing_directions : list Rover.label :=
  [Rover.Arrives Rover.Backward; Rover.Arrives Rover.Forward;
   Rover.Moves 0; Rover.Moves 0; Rover.Moves 0;
   Rover.Moves 1; Rover.Moves 1; Rover.Moves 1;
   Rover.Moves 0; Rover.Moves 1; Rover.Moves 1; Rover.Moves 0;
   Rover.Moves 0; Rover.Moves 1; Rover.Moves 1; Rover.Moves 0].

(** Events that only record a call or a line of output. *)
Definition is_note (e : event) : bool :=
  match e with
  | Called _ | Printed _ => true
  | _ => false
  end.

Definition is_run (l : SmartSprayer.label) : bool :=
  match l with
  | SmartSprayer.Run _ _ => true
  | SmartSprayer.Request _ => false
  end.

(** How many of the steps are requests. *)
Definition requests (ls : list SmartSprayer.label) : nat :=
  length (List.filter (fun l => negb (is_run l)) ls).

Definition finished (t : SmartSprayer.thread) : bool :=
  match SmartSprayer.at_pc t with
  | SmartSprayer.Finished _ => true
  | _ => false
  end.

(** How many statements a thread still has to run. *)
Definition remaining (t : SmartSprayer.thread) : nat :=
  match SmartSprayer.at_pc t with
  | SmartSprayer.AtLock => 5
  | SmartSprayer.AtAssert => 4
  | SmartSprayer.AtHold => 3
  | SmartSprayer.AtFinally => 2
  | SmartSprayer.AtSimulate => 2
  | SmartSprayer.AtRelease _ => 1
  | SmartSprayer.Finished _ => 0
  end.

Definition work_left (s : SmartSprayer.system) : nat :=
  list_sum (map remaining (SmartSprayer.threads s)).

(** A thread that has the lock but not the pin. *)
Definition beside_pin (t : SmartSprayer.thread) : bool :=
  SmartSprayer.in_drive t && negb (SmartSprayer.asserting t).

(** Reading the trace from the left: the pump is on or off, a write of the
    active level is in turn only when it is off, a write of the other
    level only when it is on.  [None]: some write came out of turn. *)
Definition pump_after (active : bool) (st : option bool) (e : event) : option bool :=
  match st, e with
  | Some on, GpioOutput pin level =>
      if (pin =? SmartSprayer.PUMP_GPIO_PIN)%Z then
        if Bool.eqb level active then (if on then None else Some true)
        else (if on then Some false else None)
      else Some on
  | _, _ => st
  end.

Definition pump_history (active : bool) (trace : list event) : option bool :=
  fold_left (pump_after active) trace (Some false).

(** The history of the pin agrees with the threads: the pump is on
    exactly while a thread is between its two pin writes. *)
Definition pin_in_turn (active_high : bool) (s : SmartSprayer.system) : Prop :=
  pump_history (SmartSprayer.active_level active_high)
    (SmartSprayer.out (SmartSprayer.shared s))
  = Some (0 <? holding_pin s)%nat.

(** [n] requests to [/spray] of [cc.py] in a row: the answers, and the
    world they leave. *)
Fixpoint spray_times (n : nat) (w : PlantSprayer.world)
  : list (outcome PlantSprayer.response) * PlantSprayer.world :=
  match n with
  | O => ([], w)
  | S k =>
      match PlantSprayer.spray w with
      | (r, w1) =>
          match spray_times k w1 with
          | (rs, w2) => (r :: rs, w2)
          end
      end
  end.

(** A model that answers the same batch for every frame. *)
Definition constant_model (probs : list Q) : Model := fun _ => Ok (Arr2 [probs]).

Definition blank_frame : Frame := mkFrame 1 1 [(0, 0, 0)%Z].

Definition wheat_loader (probs : list Q) : string -> result Model :=
  fun _ => Ok (constant_model probs).

Definition plant_world : PlantSprayer.world :=
  PlantSprayer.mkWorld (Some blank_frame) None ∅ ∅ [].

(** Test frames: [n] pixels of which the first [k] are in the band, for a
    camera whose colour conversion is the identity on these two colours. *)
Definition in_band : pixel := (20, 200, 200)%Z.

Definition off_band : pixel := (90, 200, 200)%Z.

Definition striped_frame (rows cols k : nat) : Frame :=
  mkFrame rows cols (repeat in_band k ++ repeat off_band (rows * cols - k)).

Definition same_pixel : pixel -> pixel := fun p => p.

(** A model whose [predict] fails on every frame. *)
Definition failing_model : Model := fun _ => Err (BackendError "shape mismatch").

Definition failing_loader : string -> result Model := fun _ => Err (BackendError "no file").

Definition camera_world : SmartSprayer.world :=
  SmartSprayer.mkWorld (Some (striped_frame 10 10 9))
    (<[SmartSprayer.PUMP_GPIO_PIN := false]> ∅) false [].

(** A world whose last successful check found a severe infection, and
    whose frame buffer is empty. *)
Definition after_high : PlantSprayer.world :=
  PlantSprayer.mkWorld None (Some (PlantSprayer.Labelled "Rust" 0.9%Q, "High")) ∅
    (<[PlantSprayer.PUMP_GPIO_PIN := false]> ∅) [].

Definition after_low : PlantSprayer.world :=
  PlantSprayer.mkWorld None (Some (PlantSprayer.Labelled "Rust" 0.4%Q, "Low")) ∅
    (<[PlantSprayer.PUMP_GPIO_PIN := false]> ∅) [].

(** The severity kept by the last successful [/check], if any. *)
Definition stored_severity (w : PlantSprayer.world) : option string :=
  match PlantSprayer.analysis_result w with
  | Some (_, severity) => Some severity
  | None => None
  end.

Definition with_event (w : PlantSprayer.world) (e : event) : PlantSprayer.world :=
  PlantSprayer.mkWorld (PlantSprayer.current_frame w) (PlantSprayer.analysis_result w)
    (PlantSprayer.models_cache w) (PlantSprayer.gpio w) (PlantSprayer.out w ++ [e]).

(** Two requests in a row, then the first thread takes the lock and
    asserts the pin: the second thread is waiting at the lock. *)
Definition first_drives : list SmartSprayer.label :=
  [SmartSprayer.Request SmartSprayer.Falsy;
   SmartSprayer.Request (SmartSprayer.Object (Some (SmartSprayer.Reads 2%Q)));
   SmartSprayer.Run 0 None; SmartSprayer.Run 0 None].

(** The two requests, then the first thread to its end, then the second. *)
Definition one_after_the_other : list SmartSprayer.label :=
  first_drives
  ++ [SmartSprayer.Run 0 None; SmartSprayer.Run 0 None; SmartSprayer.Run 0 None]
  ++ [SmartSprayer.Run 1 None; SmartSprayer.Run 1 None; SmartSprayer.Run 1 None;
      SmartSprayer.Run 1 None; SmartSprayer.Run 1 None].

(* ------------------------------------------------------------------ *)
(** * Properties *)

(** C9. For every integer [speed], [set_speed] returns normally, stores
    exactly [max(0, min(100, speed))] as the motor speed (hence a value in
    0..100), programs both PWM channels with it, and its message reports
    that clamped value, not the raw argument. *)
Theorem set_speed_clamps (speed : Z) (w : Rover.world) :
  let v := Z.max 0 (Z.min 100 speed) in
  exists w',
    Rover.set_speed speed w = (Returns ("Speed set to " ++ str v ++ "%"), w') /\
    Rover.motor_speed w' = v /\
    (0 <= Rover.motor_speed w' <= 100)%Z /\
    Rover.pwm_a w' = v /\ Rover.pwm_b w' = v /\
    Rover.gpio w' = Rover.gpio w.
Proof.
  intros v.
  assert (Hv : (0 <= v <= 100)%Z) by (unfold v; lia).
  unfold Rover.set_speed, Rover.set_motor_speed, Rover.pwm_a_ChangeDutyCycle,
    Rover.pwm_b_ChangeDutyCycle, Rover.set_global_motor_speed, Rover.emit,
    bind, modify, gets, ret, raise; cbn.
  fold v.
  assert (Hg : ((v <? 0) || (100 <? v))%Z = false).
  { apply orb_false_iff; split; apply Z.ltb_ge; lia. }
  rewrite Hg; cbn.
  eexists; split; [reflexivity|]; cbn.
  repeat split; lia.
Qed.

Example set_speed_250 :
  fst (Rover.set_speed 250 Rover.init) = Returns "Speed set to 100%" /\
  Rover.motor_speed (snd (Rover.set_speed 250 Rover.init)) = 100%Z.
Proof. split; reflexivity. Qed.

Example set_speed_negative :
  fst (Rover.set_speed (-7) Rover.init) = Returns "Speed set to 0%" /\
  Rover.motor_speed (snd (Rover.set_speed (-7) Rover.init)) = 0%Z.
Proof. split; reflexivity. Qed.

(* ------------------------------------------------------------------ *)
(** ** Comparisons on [Q] *)

Lemma Qltb_lt (x y : Q) : Qltb x y = true <-> (x < y)%Q.
Proof.
  unfold Qltb. rewrite negb_true_iff. split.
  - intros H. apply Qnot_le_lt. intros Hle.
    apply Qle_bool_iff in Hle. congruence.
  - intros H. destruct (Qle_bool y x) eqn:E; [|reflexivity].
    apply Qle_bool_iff in E. exfalso. exact (Qlt_not_le _ _ H E).
Qed.

Lemma Qltb_ge (x y : Q) : Qltb x y = false <-> (y <= x)%Q.
Proof.
  unfold Qltb. rewrite negb_false_iff. apply Qle_bool_iff.
Qed.

Ltac q_cases :=
  repeat match goal with
    | |- context [Qltb ?a ?b] =>
        let E := fresh "E" in
        destruct (Qltb a b) eqn:E;
        [apply Qltb_lt in E | apply Qltb_ge in E]
    end.

Lemma py_min_le_l (a b : Q) : (py_min a b <= a)%Q.
Proof.
  unfold py_min. destruct (Qltb b a) eqn:E.
  - apply Qltb_lt in E. lra.
  - lra.
Qed.

(* ------------------------------------------------------------------ *)
(** ** The model-backed detectors *)

Lemma keras_detector_severity model frame label confidence severity :
  SmartSprayer.keras_detector model frame = Ok (label, confidence, severity) ->
  severity = SmartSprayer.severity_of_prediction label confidence.
Proof.
  unfold SmartSprayer.keras_detector.
  destruct (model frame) as [preds|e]; [|discriminate].
  destruct preds as [v|[|r rows]]; try discriminate.
  - destruct (argmax v); [|discriminate]. intros H; injection H as <- <- <-. reflexivity.
  - destruct (argmax r); [|discriminate]. intros H; injection H as <- <- <-. reflexivity.
Qed.

Lemma analyze_frame_severity load_model frame plant w label confidence severity w' :
  PlantSprayer.analyze_frame load_model frame plant w
    = (Returns (PlantSprayer.Labelled label confidence, severity), w') ->
  severity = PlantSprayer.severity_of_prediction label confidence.
Proof.
  unfold PlantSprayer.analyze_frame, bind.
  destruct (PlantSprayer.load_plant_model load_model plant w) as [[[m classes]|e|] w1];
    try discriminate.
  destruct m as [model|]; [|discriminate].
  cbn. destruct (PlantSprayer.predict_first model frame) as [preds|e]; cbn; [|discriminate].
  destruct (argmax preds) as [idx|e]; cbn; [|discriminate].
  destruct (classes !! idx) as [l|]; cbn; [|discriminate].
  intros H; injection H as <- <- <- _. reflexivity.
Qed.

(** C4 (as amended).  For a label other than "Healthy":
    [keras_detector] of [raspi_smart_sprayer.py] gives Low below 0.5,
    Medium on [0.5, 0.8) and High from 0.8 on, so 0.5 is Medium and 0.8 is
    High; [analyze_frame] of [cc.py] compares with [>] and gives Low up to
    and including 0.5, Medium on (0.5, 0.8] and High only above 0.8. *)
Theorem model_severity_thresholds :
  (forall model frame label confidence severity,
      SmartSprayer.keras_detector model frame = Ok (label, confidence, severity) ->
      label <> "Healthy" ->
      ((confidence < 0.5)%Q ->
         SmartSprayer.severity_name severity = Some SmartSprayer.Low) /\
      ((0.5 <= confidence)%Q -> (confidence < 0.8)%Q ->
         SmartSprayer.severity_name severity = Some SmartSprayer.Medium) /\
      ((0.8 <= confidence)%Q ->
         SmartSprayer.severity_name severity = Some SmartSprayer.High)) /\
  (forall load_model frame plant w label confidence severity w',
      PlantSprayer.analyze_frame load_model frame plant w
        = (Returns (PlantSprayer.Labelled label confidence, severity), w') ->
      label <> "Healthy" ->
      ((confidence <= 0.5)%Q -> severity = "Low") /\
      ((0.5 < confidence)%Q -> (confidence <= 0.8)%Q -> severity = "Medium") /\
      ((0.8 < confidence)%Q -> severity = "High")).
Proof.
  split.
  - intros model frame label confidence severity Hrun Hl.
    apply keras_detector_severity in Hrun. subst severity.
    unfold SmartSprayer.severity_of_prediction.
    apply String.eqb_neq in Hl. rewrite Hl.
    repeat split; intros; q_cases; try reflexivity; lra.
  - intros load_model frame plant w label confidence severity w' Hrun Hl.
    apply analyze_frame_severity in Hrun. subst severity.
    unfold PlantSprayer.severity_of_prediction.
    apply String.eqb_neq in Hl. rewrite Hl. cbn [negb].
    repeat split; intros; q_cases; try reflexivity; lra.
Qed.

(** With probabilities 0.25, 0.5, 0.25 the arg-max is class 1 at confidence
    exactly 0.5: "Disease_A" is Medium in [raspi_smart_sprayer.py], "Rust"
    is Low in [cc.py]. *)

Lemma model_severity_thresholds_witness :
  SmartSprayer.severity_name 2 = Some SmartSprayer.Medium /\ "Low" = "Low".
Proof.
  split.
  - refine (proj1 (proj2 (proj1 model_severity_thresholds
              (constant_model [0.25; 0.5; 0.25]%Q) blank_frame "Disease_A" 0.5%Q 2%Z
              _ _)) _ _).
    + vm_compute; reflexivity.
    + discriminate.
    + vm_compute; congruence.
    + vm_compute; reflexivity.
  - refine (proj1 (proj2 model_severity_thresholds
              (wheat_loader [0.25; 0.5; 0.25]%Q) blank_frame "wheat" plant_world
              "Rust" 0.5%Q "Low"
              (snd (PlantSprayer.analyze_frame (wheat_loader [0.25; 0.5; 0.25]%Q)
                      blank_frame "wheat" plant_world)) _ _) _).
    + vm_compute; reflexivity.
    + discriminate.
    + vm_compute; congruence.
Defined.

(** C4, the claim as written fails on [cc.py]: at confidence exactly 0.5
    with a non-healthy arg-max, [analyze_frame] answers "Low", not
    "Medium". *)
Lemma analyze_frame_half_is_low :
  exists w',
    PlantSprayer.analyze_frame (wheat_loader [0.25; 0.5; 0.25]%Q)
      blank_frame "wheat" plant_world
    = (Returns (PlantSprayer.Labelled "Rust" 0.5%Q, "Low"), w') /\
    "Low" <> "Medium".
Proof.
  eexists. split; [vm_compute; reflexivity | discriminate].
Qed.

(* ------------------------------------------------------------------ *)
(** ** The placeholder detector *)

Lemma count_nonzero_nonneg (mask : list bool) : (0 <= SmartSprayer.count_nonzero mask)%Z.
Proof. unfold SmartSprayer.count_nonzero. lia. Qed.

(** The cover of a frame is a quotient [n / area] with [0 <= n], [0 < area]. *)
Lemma cover_of_quotient cvt frame cover :
  SmartSprayer.cover_of cvt frame = Ok cover ->
  exists area : Z,
    (0 < area)%Z /\
    cover = (inject_Z (SmartSprayer.count_nonzero (SmartSprayer.mask_of cvt frame))
             / inject_Z area)%Q.
Proof.
  unfold SmartSprayer.cover_of.
  destruct (Z.eqb_spec (Z.of_nat (shape0 frame) * Z.of_nat (shape1 frame)) 0) as [|Hne];
    [discriminate|].
  intros H; injection H as <-.
  eexists; split; [|reflexivity]. lia.
Qed.

Lemma quotient_nonneg (n area : Z) :
  (0 <= n)%Z -> (0 < area)%Z -> (0 <= inject_Z n / inject_Z area)%Q.
Proof.
  intros Hn Ha. apply Qle_shift_div_l.
  - change 0%Q with (inject_Z 0). rewrite <- Zlt_Qlt. exact Ha.
  - rewrite Qmult_0_l. change 0%Q with (inject_Z 0). rewrite <- Zle_Qle. exact Hn.
Qed.

Lemma quotient_zero (n area : Z) :
  (0 < area)%Z -> (inject_Z n / inject_Z area == 0)%Q <-> n = 0%Z.
Proof.
  intros Ha.
  assert (Hq : ~ (inject_Z area == 0)%Q).
  { change 0%Q with (inject_Z 0). rewrite inject_Z_injective. lia. }
  split.
  - intros H.
    assert (H1 : (inject_Z n == 0)%Q).
    { rewrite <- (Qmult_div_r (inject_Z n) (inject_Z area) Hq).
      unfold Qdiv in H |- *. rewrite H. ring. }
    change 0%Q with (inject_Z 0) in H1. rewrite inject_Z_injective in H1. exact H1.
  - intros ->. unfold Qdiv. change (inject_Z 0) with 0%Q. ring.
Qed.

(** C7. The placeholder detector maps the cover fraction through the
    breakpoints 0.003, 0.02 and 0.08 to None, Low, Medium and High; a frame
    with 9% of its pixels in the band is High, one with 0.1% is None. *)
Theorem placeholder_breakpoints cvt frame cover :
  SmartSprayer.cover_of cvt frame = Ok cover ->
  exists label confidence severity,
    SmartSprayer.placeholder_detector cvt frame = Ok (label, confidence, severity) /\
    ((cover < 0.003)%Q ->
       SmartSprayer.severity_name severity = Some SmartSprayer.SevNone) /\
    ((0.003 <= cover)%Q -> (cover < 0.02)%Q ->
       SmartSprayer.severity_name severity = Some SmartSprayer.Low) /\
    ((0.02 <= cover)%Q -> (cover < 0.08)%Q ->
       SmartSprayer.severity_name severity = Some SmartSprayer.Medium) /\
    ((0.08 <= cover)%Q ->
       SmartSprayer.severity_name severity = Some SmartSprayer.High) /\
    ((cover == 0.09)%Q ->
       SmartSprayer.severity_name severity = Some SmartSprayer.High) /\
    ((cover == 0.001)%Q ->
       SmartSprayer.severity_name severity = Some SmartSprayer.SevNone).
Proof.
  intros Hc. unfold SmartSprayer.placeholder_detector. rewrite Hc.
  unfold SmartSprayer.severity_of_cover.
  destruct (Qltb cover 0.003) eqn:E1; [apply Qltb_lt in E1 | apply Qltb_ge in E1].
  { do 3 eexists; split; [reflexivity|].
    repeat split; intros; try reflexivity; exfalso; lra. }
  destruct (Qltb cover 0.02) eqn:E2; [apply Qltb_lt in E2 | apply Qltb_ge in E2].
  { do 3 eexists; split; [reflexivity|].
    repeat split; intros; try reflexivity; exfalso; lra. }
  destruct (Qltb cover 0.08) eqn:E3; [apply Qltb_lt in E3 | apply Qltb_ge in E3].
  { do 3 eexists; split; [reflexivity|].
    repeat split; intros; try reflexivity; exfalso; lra. }
  do 3 eexists; split; [reflexivity|].
  repeat split; intros; try reflexivity; exfalso; lra.
Qed.

Example striped_9_percent :
  SmartSprayer.placeholder_detector same_pixel (striped_frame 10 10 9)
    = Ok ("Severe Infection", 0.45%Q, 3%Z).
Proof. vm_compute; reflexivity. Qed.

(** [1.0 - 0.001], unreduced. *)
Example striped_01_percent :
  SmartSprayer.placeholder_detector same_pixel (striped_frame 25 40 1)
    = Ok ("Healthy", 0.9990%Q, 0%Z).
Proof. vm_compute; reflexivity. Qed.

Lemma placeholder_breakpoints_witness :
  (exists label confidence severity,
      SmartSprayer.placeholder_detector same_pixel (striped_frame 10 10 9)
        = Ok (label, confidence, severity) /\
      SmartSprayer.severity_name severity = Some SmartSprayer.High) /\
  (exists label confidence severity,
      SmartSprayer.placeholder_detector same_pixel (striped_frame 25 40 1)
        = Ok (label, confidence, severity) /\
      SmartSprayer.severity_name severity = Some SmartSprayer.SevNone).
Proof.
  split.
  - destruct (placeholder_breakpoints same_pixel (striped_frame 10 10 9) 0.09%Q)
      as (l & c & s & Hrun & _ & _ & _ & _ & H9 & _).
    + vm_compute; reflexivity.
    + exists l, c, s. split; [exact Hrun | apply H9; reflexivity].
  - destruct (placeholder_breakpoints same_pixel (striped_frame 25 40 1) 0.001%Q)
      as (l & c & s & Hrun & _ & _ & _ & _ & _ & H1).
    + vm_compute; reflexivity.
    + exists l, c, s. split; [exact Hrun | apply H1; reflexivity].
Defined.

(** C8 (as amended).  The confidence of the placeholder detector never
    exceeds 1.0, and is strictly below 1.0 exactly when at least one pixel
    lies in the band: the "Healthy" branch answers [1.0 - cover], which is
    1.0 on a frame with no pixel in the band.  The three other branches are
    capped at 0.9, 0.95 and 0.99. *)
Theorem placeholder_confidence_bound cvt frame label confidence severity :
  SmartSprayer.placeholder_detector cvt frame = Ok (label, confidence, severity) ->
  (confidence <= 1)%Q /\
  ((confidence < 1)%Q <->
     SmartSprayer.count_nonzero (SmartSprayer.mask_of cvt frame) <> 0%Z) /\
  (severity <> 0%Z -> (confidence <= 0.99)%Q).
Proof.
  unfold SmartSprayer.placeholder_detector.
  destruct (SmartSprayer.cover_of cvt frame) as [cover|e] eqn:Hc; [|discriminate].
  destruct (cover_of_quotient _ _ _ Hc) as (area & Ha & Hq).
  set (n := SmartSprayer.count_nonzero (SmartSprayer.mask_of cvt frame)) in *.
  assert (Hn : (0 <= n)%Z) by apply count_nonzero_nonneg.
  assert (H0 : (0 <= cover)%Q) by (subst cover; apply quotient_nonneg; assumption).
  assert (Hz : (cover == 0)%Q <-> n = 0%Z) by (subst cover; apply quotient_zero; assumption).
  clear Hq Hc.
  unfold SmartSprayer.severity_of_cover.
  destruct (Qltb cover 0.003) eqn:E1; [apply Qltb_lt in E1 | apply Qltb_ge in E1].
  { intros H; injection H as <- <- <-.
    split; [lra|]. split; [|intros H; exfalso; apply H; reflexivity].
    split.
    - intros Hlt Hn0. apply Hz in Hn0. lra.
    - intros Hne. destruct (Qlt_le_dec 0 cover) as [Hpos|Hle]; [lra|].
      exfalso. apply Hne, Hz. lra. }
  assert (Hnz : n <> 0%Z) by (intros Hn0; apply Hz in Hn0; lra).
  destruct (Qltb cover 0.02) eqn:E2;
    [|destruct (Qltb cover 0.08) eqn:E3];
    intros H; injection H as <- <- <-.
  - pose proof (py_min_le_l 0.9 (cover * 50)).
    split; [lra|]. split; [split; [intros _; exact Hnz | intros _; lra] | intros _; lra].
  - pose proof (py_min_le_l 0.95 (cover * 10)).
    split; [lra|]. split; [split; [intros _; exact Hnz | intros _; lra] | intros _; lra].
  - pose proof (py_min_le_l 0.99 (cover * 5)).
    split; [lra|]. split; [split; [intros _; exact Hnz | intros _; lra] | intros _; lra].
Qed.

Lemma placeholder_confidence_bound_witness :
  (0.45 <= 1)%Q /\
  ((0.45 < 1)%Q <->
     SmartSprayer.count_nonzero
       (SmartSprayer.mask_of same_pixel (striped_frame 10 10 9)) <> 0%Z) /\
  (3%Z <> 0%Z -> (0.45 <= 0.99)%Q).
Proof.
  apply (placeholder_confidence_bound same_pixel (striped_frame 10 10 9)
           "Severe Infection" 0.45%Q 3%Z).
  vm_compute; reflexivity.
Defined.

(** C8, the claim as written fails: a frame without a single pixel in the
    band is "Healthy" with confidence [1.0 - 0], which is not below 1.0. *)
Lemma placeholder_confidence_can_be_one :
  exists label confidence severity,
    SmartSprayer.placeholder_detector same_pixel (striped_frame 10 10 0)
      = Ok (label, confidence, severity) /\
    (confidence == 1)%Q /\ ~ (confidence < 1)%Q.
Proof.
  do 3 eexists. split; [vm_compute; reflexivity|].
  split; [reflexivity | intros H; vm_compute in H; discriminate].
Qed.

(* ------------------------------------------------------------------ *)
(** ** Detection requests *)

Lemma analyze_frame_text load_model frame plant w t severity w' :
  PlantSprayer.analyze_frame load_model frame plant w = (Returns (t, severity), w') ->
  (exists label confidence, t = PlantSprayer.Labelled label confidence) \/
  t = PlantSprayer.Sentence "Mock: Possible infection detected".
Proof.
  unfold PlantSprayer.analyze_frame, bind.
  destruct (PlantSprayer.load_plant_model load_model plant w) as [[[m classes]|e|] w1];
    try discriminate.
  destruct m as [model|].
  - cbn. destruct (PlantSprayer.predict_first model frame) as [preds|e]; cbn; [|discriminate].
    destruct (argmax preds) as [idx|e]; cbn; [|discriminate].
    destruct (classes !! idx) as [l|]; cbn; [|discriminate].
    intros H; injection H as <- _ _. left; eauto.
  - cbn. intros H; injection H as <- _ _. right; reflexivity.
Qed.

(** C5. While no frame has been published, [/detect] of
    [raspi_smart_sprayer.py] answers the [no_frame] error (status 503) and
    [/check] of [cc.py] answers "No frame available"; neither touches the
    world, so no detector is called and nothing is stored; and no analysis
    ever produces the "No frame available" text. *)
Theorem detect_without_frame :
  (forall keras_model cvt w,
      SmartSprayer.latest_frame w = None ->
      SmartSprayer.detect keras_model cvt w
        = (Returns (SmartSprayer.ErrorJson "no_frame" "No camera frame available." 503), w)) /\
  (forall load_model plant w,
      PlantSprayer.current_frame w = None ->
      PlantSprayer.check load_model plant w
        = (Returns (PlantSprayer.CheckJson
                      (PlantSprayer.Sentence "No frame available") "None"), w)) /\
  (forall load_model frame plant w t severity w',
      PlantSprayer.analyze_frame load_model frame plant w = (Returns (t, severity), w') ->
      t <> PlantSprayer.Sentence "No frame available").
Proof.
  split; [|split].
  - intros keras_model cvt w H.
    unfold SmartSprayer.detect, SmartSprayer.get_frame, bind, gets. rewrite H. reflexivity.
  - intros load_model plant w H.
    unfold PlantSprayer.check, bind, gets. rewrite H. destruct plant; reflexivity.
  - intros load_model frame plant w t severity w' H.
    destruct (analyze_frame_text _ _ _ _ _ _ _ H) as [(l & c & ->)| ->]; discriminate.
Qed.

Lemma detect_without_frame_witness :
  SmartSprayer.detect (Some (constant_model [0.1; 0.9]%Q)) same_pixel
      (SmartSprayer.init true true)
    = (Returns (SmartSprayer.ErrorJson "no_frame" "No camera frame available." 503),
       SmartSprayer.init true true) /\
  PlantSprayer.check (wheat_loader [0.1; 0.9]%Q) (Some "wheat")
      (PlantSprayer.init true true)
    = (Returns (PlantSprayer.CheckJson
                  (PlantSprayer.Sentence "No frame available") "None"),
       PlantSprayer.init true true).
Proof.
  split.
  - apply (proj1 detect_without_frame). reflexivity.
  - apply (proj1 (proj2 detect_without_frame)). reflexivity.
Defined.

(** C10. When [/check] answers "No frame available" (no plant selected,
    or no frame captured yet) the world is left as it was: the stored
    analysis result is untouched, and a following [/spray] decides exactly
    as it would have before the check. *)
Theorem check_failure_keeps_result load_model plant w :
  PlantSprayer.no_plant plant = true \/ PlantSprayer.current_frame w = None ->
  PlantSprayer.check load_model plant w
    = (Returns (PlantSprayer.CheckJson
                  (PlantSprayer.Sentence "No frame available") "None"), w) /\
  PlantSprayer.analysis_result (snd (PlantSprayer.check load_model plant w))
    = PlantSprayer.analysis_result w /\
  PlantSprayer.spray (snd (PlantSprayer.check load_model plant w))
    = PlantSprayer.spray w.
Proof.
  intros H.
  assert (E : PlantSprayer.check load_model plant w
              = (Returns (PlantSprayer.CheckJson
                            (PlantSprayer.Sentence "No frame available") "None"), w)).
  { unfold PlantSprayer.check, bind, gets.
    destruct plant as [p|], (PlantSprayer.current_frame w) as [f|]; try reflexivity.
    destruct H as [H|H]; [|discriminate]. rewrite H. reflexivity. }
  rewrite E. repeat split.
Qed.

Lemma check_failure_keeps_result_witness :
  PlantSprayer.analysis_result
    (snd (PlantSprayer.check (wheat_loader [0.1; 0.9]%Q) (Some "wheat") after_high))
    = Some (PlantSprayer.Labelled "Rust" 0.9%Q, "High") /\
  fst (PlantSprayer.spray
         (snd (PlantSprayer.check (wheat_loader [0.1; 0.9]%Q) (Some "wheat") after_high)))
    = Returns (PlantSprayer.MessageJson "Pump activated!").
Proof.
  destruct (check_failure_keeps_result (wheat_loader [0.1; 0.9]%Q) (Some "wheat") after_high)
    as (_ & Hr & Hs).
  - right; reflexivity.
  - split; [rewrite Hr; reflexivity | rewrite Hs; reflexivity].
Defined.

Lemma placeholder_total cvt frame :
  (shape0 frame * shape1 frame)%nat <> 0%nat ->
  exists label confidence severity,
    SmartSprayer.placeholder_detector cvt frame = Ok (label, confidence, severity).
Proof.
  intros Hne. unfold SmartSprayer.placeholder_detector, SmartSprayer.cover_of.
  destruct (Z.eqb_spec (Z.of_nat (shape0 frame) * Z.of_nat (shape1 frame)) 0) as [E|_].
  - exfalso. apply Hne. lia.
  - match goal with
    | |- context [SmartSprayer.severity_of_cover ?c] =>
        destruct (SmartSprayer.severity_of_cover c) as [[l c'] s]
    end.
    exists l, c', s. reflexivity.
Qed.

(** C6 (as amended).  In [raspi_smart_sprayer.py], when [keras_detector]
    raises an [Exception] on the frame, [/detect] logs the failure, runs
    the placeholder detector on that same frame and answers with its
    result; no error reaches the caller.  [cc.py] has no heuristic
    detector: [analyze_frame] answers its fixed mock result when there is
    no model for the plant (unknown plant, or a model that failed to load). *)
Theorem inference_failure_falls_back :
  (forall model cvt frame w e,
      SmartSprayer.latest_frame w = Some frame ->
      (shape0 frame * shape1 frame)%nat <> 0%nat ->
      SmartSprayer.keras_detector model frame = Err e ->
      is_Exception e = true ->
      exists label confidence severity w',
        SmartSprayer.placeholder_detector cvt frame = Ok (label, confidence, severity) /\
        SmartSprayer.detect (Some model) cvt w
          = (Returns (SmartSprayer.DetectJson label confidence severity
                        "Used placeholder detector."), w') /\
        SmartSprayer.out w'
          = (SmartSprayer.out w ++ [Called "keras_detector";
                                    Printed "Keras detection failed:";
                                    Called "placeholder_detector"])%list /\
        SmartSprayer.gpio w' = SmartSprayer.gpio w) /\
  (forall load_model frame plant w classes w1,
      PlantSprayer.load_plant_model load_model plant w = (Returns (None, classes), w1) ->
      PlantSprayer.analyze_frame load_model frame plant w
        = (Returns (PlantSprayer.Sentence "Mock: Possible infection detected", "Medium"),
           w1)).
Proof.
  split.
  - intros model cvt frame w e Hf Harea Hk He.
    destruct (placeholder_total cvt frame Harea) as (l & c & s & Hp).
    exists l, c, s. eexists. split; [exact Hp|].
    unfold SmartSprayer.detect, SmartSprayer.get_frame, bind, gets.
    rewrite Hf. cbn. rewrite Hk, He. cbn. rewrite Hp. cbn.
    split; [reflexivity|]. split; [|reflexivity].
    cbn. rewrite <- !app_assoc. reflexivity.
  - intros load_model frame plant w classes w1 H.
    unfold PlantSprayer.analyze_frame, bind. rewrite H. reflexivity.
Qed.

Lemma inference_failure_falls_back_witness :
  (exists label confidence severity w',
      SmartSprayer.placeholder_detector same_pixel (striped_frame 10 10 9)
        = Ok (label, confidence, severity) /\
      SmartSprayer.detect (Some failing_model) same_pixel camera_world
        = (Returns (SmartSprayer.DetectJson label confidence severity
                      "Used placeholder detector."), w') /\
      SmartSprayer.out w'
        = (SmartSprayer.out camera_world ++ [Called "keras_detector";
                                             Printed "Keras detection failed:";
                                             Called "placeholder_detector"])%list /\
      SmartSprayer.gpio w' = SmartSprayer.gpio camera_world) /\
  fst (PlantSprayer.analyze_frame failing_loader blank_frame "wheat" plant_world)
    = Returns (PlantSprayer.Sentence "Mock: Possible infection detected", "Medium").
Proof.
  split.
  - apply (proj1 inference_failure_falls_back failing_model same_pixel
             (striped_frame 10 10 9) camera_world (BackendError "shape mismatch")).
    + reflexivity.
    + vm_compute; discriminate.
    + reflexivity.
    + reflexivity.
  - rewrite (proj2 inference_failure_falls_back failing_loader blank_frame "wheat"
               plant_world ["Healthy"; "Rust"; "Blight"]
               (snd (PlantSprayer.load_plant_model failing_loader "wheat" plant_world))).
    + reflexivity.
    + vm_compute; reflexivity.
Defined.

(** C6, the claim as written fails on [cc.py]: with a model that loads
    but whose [predict] raises, [/check] raises too (the caller gets the
    error), and nothing is stored. *)
Lemma check_surfaces_inference_error :
  exists w',
    PlantSprayer.check (fun _ => Ok failing_model) (Some "wheat") plant_world
      = (Raises (BackendError "shape mismatch"), w') /\
    PlantSprayer.analysis_result w' = None.
Proof.
  eexists. split; [vm_compute; reflexivity | reflexivity].
Qed.

(* ------------------------------------------------------------------ *)
(** ** Spray requests *)

Lemma check_records load_model plant w r severity w' :
  PlantSprayer.check load_model plant w
    = (Returns (PlantSprayer.CheckJson r severity), w') ->
  PlantSprayer.no_plant plant = false ->
  PlantSprayer.current_frame w <> None ->
  PlantSprayer.analysis_result w' = Some (r, severity).
Proof.
  unfold PlantSprayer.check, bind, gets. intros H Hp Hf.
  destruct plant as [p|]; [|discriminate].
  destruct (PlantSprayer.current_frame w) as [f|]; [|congruence].
  rewrite Hp in H.
  destruct (PlantSprayer.analyze_frame load_model f p w) as [[[t sv]|e|] w1];
    cbn in H; try discriminate.
  injection H as <- <- <-. reflexivity.
Qed.

(** C1 (as amended).  [/spray] of [cc.py] looks at the stored analysis
    result first: it starts the pump thread exactly when the stored
    severity is "Medium" or "High"; with nothing stored it answers "No
    analysis result yet", with any other severity "Spray not needed.", and
    in both cases the world (pins and trace) is left untouched.  The stored
    severity is the one the last successful [/check] answered.  [/spray]
    of [raspi_smart_sprayer.py] keeps no detection result and consults
    none; what it does depends on the posted body alone.  When lines
    356-357 get a duration out of the body (the default when the body is
    falsy or has no such key), the request starts the pump thread with it
    and answers "activated", in whatever state the process is; when
    [get_json], [get] or [float] raises, the request ends with that
    exception, no thread is started and nothing is changed. *)
Theorem spray_gate :
  (forall load_model plant w r severity w',
      PlantSprayer.check load_model plant w
        = (Returns (PlantSprayer.CheckJson r severity), w') ->
      PlantSprayer.no_plant plant = false ->
      PlantSprayer.current_frame w <> None ->
      stored_severity w' = Some severity) /\
  (forall w,
      (stored_severity w = None ->
         PlantSprayer.spray w
           = (Returns (PlantSprayer.MessageJson "No analysis result yet"), w)) /\
      (forall severity,
          stored_severity w = Some severity ->
          severity = "Medium" \/ severity = "High" ->
          PlantSprayer.spray w
            = (Returns (PlantSprayer.MessageJson "Pump activated!"),
               with_event w (ThreadStart "trigger_pump" []))) /\
      (forall severity,
          stored_severity w = Some severity ->
          severity <> "Medium" -> severity <> "High" ->
          PlantSprayer.spray w
            = (Returns (PlantSprayer.MessageJson "Spray not needed."), w))) /\
  (forall body w,
      match SmartSprayer.posted_duration body with
      | Ok duration =>
          SmartSprayer.spray body w
            = (Returns (SmartSprayer.SprayJson "activated" duration),
               SmartSprayer.mkWorld (SmartSprayer.latest_frame w) (SmartSprayer.gpio w)
                 (SmartSprayer.pump_lock w)
                 (SmartSprayer.out w ++ [ThreadStart "activate_pump" [duration]]))
      | Err e => SmartSprayer.spray body w = (Raises e, w)
      end).
Proof.
  split; [|split].
  - intros load_model plant w r severity w' H Hp Hf.
    unfold stored_severity. rewrite (check_records _ _ _ _ _ _ H Hp Hf). reflexivity.
  - intros w. unfold stored_severity, PlantSprayer.spray, bind, gets.
    destruct (PlantSprayer.analysis_result w) as [[t s]|]; repeat split.
    + discriminate.
    + intros severity H [-> | ->]; injection H as ->; reflexivity.
    + intros severity H Hm Hh. injection H as ->. cbn.
      apply String.eqb_neq in Hm, Hh. rewrite Hm, Hh. reflexivity.
    + intros; discriminate.
    + intros; discriminate.
  - intros body w. unfold SmartSprayer.spray, bind, lift.
    destruct (SmartSprayer.posted_duration body); reflexivity.
Qed.

Lemma spray_gate_witness :
  PlantSprayer.spray (PlantSprayer.init true true)
    = (Returns (PlantSprayer.MessageJson "No analysis result yet"),
       PlantSprayer.init true true) /\
  PlantSprayer.spray after_high
    = (Returns (PlantSprayer.MessageJson "Pump activated!"),
       with_event after_high (ThreadStart "trigger_pump" [])) /\
  PlantSprayer.spray after_low
    = (Returns (PlantSprayer.MessageJson "Spray not needed."), after_low) /\
  SmartSprayer.spray (SmartSprayer.Object (Some SmartSprayer.Unreadable)) camera_world
    = (Raises ValueError, camera_world).
Proof.
  split; [|split; [|split]].
  - apply (proj1 (proj1 (proj2 spray_gate) (PlantSprayer.init true true))). reflexivity.
  - apply (proj1 (proj2 (proj1 (proj2 spray_gate) after_high)) "High");
      [reflexivity | right; reflexivity].
  - apply (proj2 (proj2 (proj1 (proj2 spray_gate) after_low)) "Low");
      [reflexivity | discriminate | discriminate].
  - exact (proj2 (proj2 spray_gate)
             (SmartSprayer.Object (Some SmartSprayer.Unreadable)) camera_world).
Defined.

(** C1, the claim as written fails on [raspi_smart_sprayer.py]: right
    after start-up, with no detection ever made, [/spray] answers
    "activated" and starts the pump thread, which asserts the pin. *)
Lemma spray_without_detection :
  SmartSprayer.spray SmartSprayer.Falsy (SmartSprayer.init true true)
    = (Returns (SmartSprayer.SprayJson "activated" 5),
       SmartSprayer.mkWorld None (SmartSprayer.gpio (SmartSprayer.init true true)) false
         [ThreadStart "activate_pump" [Finite 5]]) /\
  In (GpioOutput SmartSprayer.PUMP_GPIO_PIN HIGH)
     (SmartSprayer.out
        (snd (SmartSprayer.activate_pump true true None 5 (SmartSprayer.init true true)))).
Proof.
  split; [reflexivity | vm_compute; left; reflexivity].
Qed.

(* ------------------------------------------------------------------ *)
(** ** The drive sequence *)

(** C3 (as amended).  [activate_pump] of [raspi_smart_sprayer.py],
    entered with the lock free, ends with the lock free however the hold
    ends; with a GPIO it returns [True] and leaves the pin at the inactive
    level (the [finally] block), without one it touches no pin.
    [trigger_pump] and the rover's [/spray] of [cc.py] leave the pin at the
    inactive level when the hold elapses. *)
Theorem drive_ends_inactive :
  (forall USE_GPIO active_high interrupt duration w,
      SmartSprayer.pump_lock w = false ->
      let r := fst (SmartSprayer.activate_pump USE_GPIO active_high interrupt duration w) in
      let w' := snd (SmartSprayer.activate_pump USE_GPIO active_high interrupt duration w) in
      r <> Blocks /\
      SmartSprayer.pump_lock w' = false /\
      (USE_GPIO = true ->
         r = Returns true /\
         SmartSprayer.gpio w' !! SmartSprayer.PUMP_GPIO_PIN
           = Some (SmartSprayer.inactive_level active_high)) /\
      (USE_GPIO = false -> SmartSprayer.gpio w' = SmartSprayer.gpio w)) /\
  (forall active_high w,
      exists w',
        PlantSprayer.trigger_pump true active_high None w = (Returns tt, w') /\
        PlantSprayer.gpio w' !! PlantSprayer.PUMP_GPIO_PIN = Some (negb active_high)) /\
  (forall w,
      exists w',
        Rover.spray None w = (Returns "temp.html", w') /\
        Rover.gpio w' !! Rover.PUMP_PIN = Some false).
Proof.
  split; [|split].
  - intros USE_GPIO active_high interrupt duration w Hl r w'. subst r w'.
    unfold SmartSprayer.activate_pump, SmartSprayer.with_pump_lock. rewrite Hl.
    destruct USE_GPIO.
    + unfold try_finally_return, SmartSprayer.GPIO_output, SmartSprayer.time_sleep,
        SmartSprayer.emit, bind, modify, ret, raise; cbn.
      destruct (sleep_length duration) as [q|e]; cbn;
        [destruct interrupt; cbn|];
        (split; [discriminate|]; split; [reflexivity|]; split;
         [intros _; split; [reflexivity | apply lookup_insert_eq] | discriminate]).
    + unfold SmartSprayer.print, SmartSprayer.time_sleep, SmartSprayer.emit,
        bind, modify, ret, raise; cbn.
      destruct (sleep_length duration) as [q|e]; cbn;
        [destruct interrupt; cbn|];
        (split; [discriminate|]; split; [reflexivity|]; split;
         [discriminate | reflexivity]).
  - intros active_high w. eexists. split; [reflexivity|]. cbn. apply lookup_insert_eq.
  - intros w. eexists. split; [reflexivity|]. cbn. apply lookup_insert_eq.
Qed.

(** A negative duration in the request body makes [time.sleep] raise. *)
Lemma drive_ends_inactive_witness :
  fst (SmartSprayer.activate_pump true true None (-1) (SmartSprayer.init true true))
    = Returns true /\
  SmartSprayer.gpio
    (snd (SmartSprayer.activate_pump true true None (-1) (SmartSprayer.init true true)))
    !! SmartSprayer.PUMP_GPIO_PIN = Some LOW /\
  SmartSprayer.pump_lock
    (snd (SmartSprayer.activate_pump true true (Some KeyboardInterrupt) 5
            (SmartSprayer.init true true))) = false.
Proof.
  destruct (proj1 drive_ends_inactive true true None (-1)%Q (SmartSprayer.init true true)
              eq_refl) as (_ & _ & Hg & _).
  destruct (Hg eq_refl) as [Hr Hp].
  destruct (proj1 drive_ends_inactive true true (Some KeyboardInterrupt) 5%Q
              (SmartSprayer.init true true) eq_refl) as (_ & Hl & _).
  split; [exact Hr | split; [exact Hp | exact Hl]].
Defined.

(** C3, the claim as written fails on [cc.py]: [trigger_pump] has no
    [finally]; when the hold is cut short by an exception, the call raises
    and the pin stays at the active level. *)
Lemma trigger_pump_interrupted_stays_on :
  exists w',
    PlantSprayer.trigger_pump true true (Some OSError)
        (PlantSprayer.init true true)
      = (Raises OSError, w') /\
    PlantSprayer.gpio w' !! PlantSprayer.PUMP_GPIO_PIN = Some HIGH /\
    HIGH <> negb true.
Proof.
  eexists. split; [reflexivity|]. split; [vm_compute; reflexivity | discriminate].
Qed.

(* ------------------------------------------------------------------ *)
(** ** Concurrent spray requests in [raspi_smart_sprayer.py] *)

Section Interleaving.

Variable USE_GPIO : bool.
Variable active_high : bool.

Abbreviation exec := (SmartSprayer.exec USE_GPIO active_high).
Abbreviation run := (SmartSprayer.run USE_GPIO active_high).
Abbreviation thread_step := (SmartSprayer.thread_step USE_GPIO active_high).
Abbreviation idle := (SmartSprayer.idle USE_GPIO active_high).

Lemma filter_insert_count {A} (P : A -> bool) (l : list A) (i : nat) (x y : A) :
  l !! i = Some x ->
  (length (List.filter P (<[i := y]> l)) + (if P x then 1 else 0)
   = length (List.filter P l) + (if P y then 1 else 0))%nat.
Proof.
  revert i. induction l as [|a l IH]; intros i H; [discriminate|].
  destruct i as [|i].
  - injection H as ->. cbn. destruct (P x), (P y); cbn [length]; lia.
  - specialize (IH i H).
    change (<[S i := y]> (a :: l)) with (a :: <[i := y]> l).
    simpl List.filter. destruct (P a); cbn [length]; lia.
Qed.

Lemma time_sleep_frame interrupt d w :
  SmartSprayer.pump_lock (snd (SmartSprayer.time_sleep interrupt d w))
    = SmartSprayer.pump_lock w /\
  SmartSprayer.gpio (snd (SmartSprayer.time_sleep interrupt d w))
    = SmartSprayer.gpio w.
Proof.
  unfold SmartSprayer.time_sleep.
  destruct (sleep_length d) as [q|e]; [|split; reflexivity].
  destruct interrupt; split; reflexivity.
Qed.

Lemma simulate_frame interrupt d w :
  let m := (do! SmartSprayer.print "[SIMULATION] Activating pump" in
            do! SmartSprayer.time_sleep interrupt d in
            do! SmartSprayer.print "[SIMULATION] Pump deactivated" in
            ret true)%py in
  SmartSprayer.pump_lock (snd (m w)) = SmartSprayer.pump_lock w /\
  SmartSprayer.gpio (snd (m w)) = SmartSprayer.gpio w.
Proof.
  cbn. unfold SmartSprayer.time_sleep, SmartSprayer.print, SmartSprayer.emit,
    bind, modify, ret, raise; cbn.
  destruct (sleep_length d) as [q|e]; cbn; [|split; reflexivity].
  destruct interrupt; split; reflexivity.
Qed.

(** What a request does to the system, by what lines 356-357 make of
    its body. *)
Lemma exec_request body s :
  exec (SmartSprayer.Request body) s
  = match SmartSprayer.posted_duration body with
    | Ok d =>
        Some (SmartSprayer.mkSystem
                (snd (SmartSprayer.emit (ThreadStart "activate_pump" [d])
                        (SmartSprayer.shared s)))
                (SmartSprayer.threads s ++ [SmartSprayer.mkThread d SmartSprayer.AtLock])
                (SmartSprayer.answers s ++ [SmartSprayer.SprayJson "activated" d])
                (SmartSprayer.refused s))
    | Err e =>
        Some (SmartSprayer.mkSystem (SmartSprayer.shared s) (SmartSprayer.threads s)
                (SmartSprayer.answers s) (SmartSprayer.refused s ++ [e]))
    end.
Proof.
  unfold SmartSprayer.exec, SmartSprayer.spray, bind, lift.
  destruct (SmartSprayer.posted_duration body); reflexivity.
Qed.

(** What one move of a thread does to the lock and to its own place. *)
Lemma thread_step_lock interrupt t w p w1 :
  thread_step interrupt t w = Some (p, w1) ->
  let t' := SmartSprayer.mkThread (SmartSprayer.duration t) p in
  match SmartSprayer.at_pc t with
  | SmartSprayer.AtLock =>
      SmartSprayer.pump_lock w = false /\ SmartSprayer.pump_lock w1 = true /\
      SmartSprayer.in_drive t' = true
  | SmartSprayer.AtRelease _ =>
      SmartSprayer.pump_lock w1 = false /\ SmartSprayer.in_drive t' = false
  | _ =>
      SmartSprayer.pump_lock w1 = SmartSprayer.pump_lock w /\
      SmartSprayer.in_drive t' = SmartSprayer.in_drive t
  end.
Proof.
  unfold SmartSprayer.thread_step. destruct t as [d [| | | | |r|r]]; cbn.
  - destruct (SmartSprayer.pump_lock w) eqn:E; [discriminate|].
    intros H; injection H as <- <-. destruct USE_GPIO; repeat split.
  - intros H; injection H as <- <-. split; reflexivity.
  - intros H; injection H as <- <-. split; [apply time_sleep_frame | reflexivity].
  - intros H; injection H as <- <-. split; reflexivity.
  - pose proof (simulate_frame interrupt d w) as Hf. cbn in Hf.
    match goal with
    | |- context [match ?m with (_, _) => _ end] => destruct m as [r w2] eqn:Em
    end.
    intros H; injection H as <- <-. cbn in Hf. split; [apply Hf | reflexivity].
  - intros H; injection H as <- <-. split; reflexivity.
  - discriminate.
Qed.

Lemma exec_lock_counts l s s' :
  exec l s = Some s' -> lock_counts s -> lock_counts s'.
Proof.
  unfold lock_counts, driving, lock_held. destruct l as [body|tid interrupt].
  - rewrite exec_request.
    destruct (SmartSprayer.posted_duration body) as [d|e];
      intros H; injection H as <-; cbn; [|auto].
    rewrite List.filter_app, length_app. cbn. lia.
  - cbn.
    destruct (SmartSprayer.threads s !! tid) as [t|] eqn:Ht; [|discriminate].
    destruct (thread_step interrupt t (SmartSprayer.shared s)) as [[p w1]|] eqn:Hs;
      [|discriminate].
    intros H; injection H as <-. cbn. intros Hinv.
    pose proof (filter_insert_count SmartSprayer.in_drive _ _ _
                  (SmartSprayer.mkThread (SmartSprayer.duration t) p) Ht) as Hc.
    pose proof (thread_step_lock _ _ _ _ _ Hs) as Hl. cbn in Hl.
    destruct t as [d pc0]; cbn in *.
    destruct pc0; cbn in *;
      repeat match goal with
        | H : _ /\ _ |- _ => destruct H
        end;
      repeat match goal with
        | H : SmartSprayer.pump_lock _ = _ |- _ => rewrite H in *
        | H : SmartSprayer.in_drive _ = _ |- _ => rewrite H in *
        end;
      try (destruct (SmartSprayer.pump_lock (SmartSprayer.shared s)); lia).
Qed.

(** What one move of a thread does to the pin and to its hold on it. *)
Lemma thread_step_pin interrupt t w p w1 :
  thread_step interrupt t w = Some (p, w1) ->
  let t' := SmartSprayer.mkThread (SmartSprayer.duration t) p in
  match SmartSprayer.at_pc t with
  | SmartSprayer.AtAssert => SmartSprayer.asserting t' = true
  | SmartSprayer.AtFinally =>
      SmartSprayer.gpio w1 !! SmartSprayer.PUMP_GPIO_PIN
        = Some (SmartSprayer.inactive_level active_high)
  | _ =>
      SmartSprayer.gpio w1 = SmartSprayer.gpio w /\
      SmartSprayer.asserting t' = SmartSprayer.asserting t
  end.
Proof.
  unfold SmartSprayer.thread_step. destruct t as [d [| | | | |r|r]]; cbn.
  - destruct (SmartSprayer.pump_lock w) eqn:E; [discriminate|].
    intros H; injection H as <- <-. destruct USE_GPIO; repeat split.
  - intros H; injection H as <- <-. reflexivity.
  - intros H; injection H as <- <-. split; [apply time_sleep_frame | reflexivity].
  - intros H; injection H as <- <-. apply lookup_insert_eq.
  - pose proof (simulate_frame interrupt d w) as Hf. cbn in Hf.
    match goal with
    | |- context [match ?m with (_, _) => _ end] => destruct m as [r w2] eqn:Em
    end.
    intros H; injection H as <- <-. cbn in Hf. split; [apply Hf | reflexivity].
  - intros H; injection H as <- <-. split; reflexivity.
  - discriminate.
Qed.

Ltac unchanged_pin :=
  match goal with
  | Hp : _ = _ /\ _ = _, Hinv : _ -> _ -> _ |- _ =>
      let Hg := fresh in let Ha := fresh in
      destruct Hp as [Hg Ha]; rewrite Hg; try rewrite Ha in *;
      apply Hinv; [assumption|]; lia
  end.

Lemma exec_pin_off_when_free l s s' :
  exec l s = Some s' -> pin_off_when_free USE_GPIO active_high s -> pin_off_when_free USE_GPIO active_high s'.
Proof.
  unfold pin_off_when_free, holding_pin, pin_level.
  destruct l as [body|tid interrupt].
  - rewrite exec_request.
    destruct (SmartSprayer.posted_duration body) as [d|e];
      intros H; injection H as <-; cbn; [|auto].
    rewrite List.filter_app, length_app. cbn. rewrite Nat.add_0_r. auto.
  - cbn.
    destruct (SmartSprayer.threads s !! tid) as [t|] eqn:Ht; [|discriminate].
    destruct (thread_step interrupt t (SmartSprayer.shared s)) as [[p w1]|] eqn:Hs;
      [|discriminate].
    intros H; injection H as <-. cbn. intros Hinv Hu Hfree.
    pose proof (filter_insert_count SmartSprayer.asserting _ _ _
                  (SmartSprayer.mkThread (SmartSprayer.duration t) p) Ht) as Hc.
    pose proof (thread_step_pin _ _ _ _ _ Hs) as Hp. cbn in Hp.
    destruct t as [d pc0]; cbn in *.
    destruct pc0; cbn in *;
      [ unchanged_pin | rewrite Hp in Hc; lia | unchanged_pin | exact Hp
      | unchanged_pin | unchanged_pin | unchanged_pin ].
Qed.

Lemma exec_all_activated l s s' :
  exec l s = Some s' -> all_activated s -> all_activated s'.
Proof.
  unfold all_activated. destruct l as [body|tid interrupt].
  - rewrite exec_request.
    destruct (SmartSprayer.posted_duration body) as [d|e];
      intros H; injection H as <-; cbn; [|auto].
    intros [Hf Hlen]. split.
    + apply Forall_app. split; [exact Hf|]. constructor; [reflexivity|constructor].
    + rewrite !length_app. cbn. lia.
  - cbn.
    destruct (SmartSprayer.threads s !! tid) as [t|] eqn:Ht; [|discriminate].
    destruct (thread_step interrupt t (SmartSprayer.shared s)) as [[p w1]|];
      [|discriminate].
    intros H; injection H as <-. cbn. rewrite length_insert. auto.
Qed.

(** Every request ends in one of the two lists, whatever the threads
    do in between. *)
Lemma run_counts_requests ls s s' :
  run ls s = Some s' ->
  (length (SmartSprayer.answers s') + length (SmartSprayer.refused s')
   = length (SmartSprayer.answers s) + length (SmartSprayer.refused s) + requests ls)%nat.
Proof.
  unfold requests. revert s. induction ls as [|l ls IH]; intros s; cbn [SmartSprayer.run].
  - intros H; injection H as <-. cbn. lia.
  - destruct (exec l s) as [s1|] eqn:He; [|discriminate].
    intros Hr. rewrite (IH s1 Hr). clear IH Hr.
    destruct l as [body|tid interrupt].
    + rewrite exec_request in He.
      destruct (SmartSprayer.posted_duration body) as [d|e];
        injection He as <-; cbn; rewrite !length_app; cbn; lia.
    + cbn in He.
      destruct (SmartSprayer.threads s !! tid) as [t|]; [|discriminate].
      destruct (thread_step interrupt t (SmartSprayer.shared s)) as [[p w1]|];
        [|discriminate].
      injection He as <-. cbn. lia.
Qed.

Lemma run_invariants ls s s' :
  run ls s = Some s' ->
  lock_counts s /\ pin_off_when_free USE_GPIO active_high s /\ all_activated s ->
  lock_counts s' /\ pin_off_when_free USE_GPIO active_high s' /\ all_activated s'.
Proof.
  revert s. induction ls as [|l ls IH]; intros s; cbn.
  - intros H; injection H as <-. auto.
  - destruct (exec l s) as [s1|] eqn:He; [|discriminate].
    intros Hr (H1 & H2 & H3). apply (IH s1 Hr).
    split; [|split];
      [eapply exec_lock_counts | eapply exec_pin_off_when_free
      | eapply exec_all_activated]; eassumption.
Qed.

Lemma idle_invariants :
  lock_counts idle /\ pin_off_when_free USE_GPIO active_high idle /\ all_activated idle.
Proof.
  split; [reflexivity|]. split.
  - intros Hu _. unfold pin_level; cbn. rewrite Hu. apply lookup_insert_eq.
  - split; [constructor | reflexivity].
Qed.

(** A thread waiting for the lock cannot move while the lock is held, and
    can as soon as it is free. *)
Lemma waiting_thread_moves_iff_free s tid t interrupt :
  SmartSprayer.threads s !! tid = Some t ->
  SmartSprayer.at_pc t = SmartSprayer.AtLock ->
  (exec (SmartSprayer.Run tid interrupt) s = None <-> lock_held s = true).
Proof.
  intros Ht Hpc. unfold lock_held. cbn. rewrite Ht.
  unfold SmartSprayer.thread_step. rewrite Hpc.
  destruct (SmartSprayer.pump_lock (SmartSprayer.shared s)); split;
    intros H; try reflexivity; discriminate.
Qed.

End Interleaving.

(** Run alone, a thread does what [activate_pump] does as a function. *)
Lemma lone_thread_is_activate_pump USE_GPIO active_high interrupt d w :
  SmartSprayer.pump_lock w = false ->
  SmartSprayer.run USE_GPIO active_high
    (if USE_GPIO
     then [SmartSprayer.Run 0 None; SmartSprayer.Run 0 None;
           SmartSprayer.Run 0 interrupt; SmartSprayer.Run 0 None;
           SmartSprayer.Run 0 None]
     else [SmartSprayer.Run 0 None; SmartSprayer.Run 0 interrupt;
           SmartSprayer.Run 0 None])
    (SmartSprayer.mkSystem w [SmartSprayer.mkThread d SmartSprayer.AtLock] [] [])
  = Some (SmartSprayer.mkSystem
            (snd (SmartSprayer.activate_pump USE_GPIO active_high interrupt d w))
            [SmartSprayer.mkThread d
               (SmartSprayer.Finished
                  (fst (SmartSprayer.activate_pump USE_GPIO active_high interrupt d w)))]
            [] []).
Proof.
  destruct w as [f g l o]; cbn. intros ->.
  unfold SmartSprayer.activate_pump, SmartSprayer.with_pump_lock; cbn.
  destruct USE_GPIO; cbn.
  - unfold SmartSprayer.thread_step, try_finally_return, SmartSprayer.GPIO_output,
      SmartSprayer.time_sleep, SmartSprayer.emit, bind, modify, ret, raise; cbn.
    destruct (sleep_length d) as [q|e]; cbn; [|reflexivity].
    destruct interrupt; reflexivity.
  - unfold SmartSprayer.thread_step, SmartSprayer.print,
      SmartSprayer.time_sleep, SmartSprayer.emit, bind, modify, ret, raise; cbn.
    destruct (sleep_length d) as [q|e]; cbn; [|reflexivity].
    destruct interrupt; reflexivity.
Qed.

(** [cc.py] has no lock around [trigger_pump]: after a severe finding, two
    [/spray] requests start two threads that hold the pin at once. *)
Lemma trigger_pump_threads_overlap :
  exists s,
    PlantSprayer.run true true
      [PlantSprayer.Request; PlantSprayer.Request;
       PlantSprayer.Run 0 None; PlantSprayer.Run 1 None]
      (PlantSprayer.mkSystem after_high [] []) = Some s /\
    PlantSprayer.threads s = [PlantSprayer.AtHold; PlantSprayer.AtHold] /\
    PlantSprayer.answers s
      = [PlantSprayer.MessageJson "Pump activated!";
         PlantSprayer.MessageJson "Pump activated!"].
Proof.
  eexists. split; [vm_compute; reflexivity|]. split; reflexivity.
Qed.

(** What a request does in a given state depends on its body alone. *)
Lemma request_outcomes USE_GPIO active_high s :
  (forall body d,
      SmartSprayer.posted_duration body = Ok d ->
      exists s1,
        SmartSprayer.exec USE_GPIO active_high (SmartSprayer.Request body) s = Some s1 /\
        SmartSprayer.answers s1
          = (SmartSprayer.answers s ++ [SmartSprayer.SprayJson "activated" d])%list /\
        SmartSprayer.threads s1
          = (SmartSprayer.threads s ++ [SmartSprayer.mkThread d SmartSprayer.AtLock])%list /\
        SmartSprayer.refused s1 = SmartSprayer.refused s) /\
  (forall body e,
      SmartSprayer.posted_duration body = Err e ->
      exists s1,
        SmartSprayer.exec USE_GPIO active_high (SmartSprayer.Request body) s = Some s1 /\
        SmartSprayer.answers s1 = SmartSprayer.answers s /\
        SmartSprayer.threads s1 = SmartSprayer.threads s /\
        SmartSprayer.shared s1 = SmartSprayer.shared s /\
        SmartSprayer.refused s1 = (SmartSprayer.refused s ++ [e])%list).
Proof.
  split; intros body x H; rewrite exec_request, H; eexists;
    (split; [reflexivity|]); repeat split.
Qed.

(** C2 (as amended).  In [raspi_smart_sprayer.py], in every state the
    server can reach from start-up, whatever the interleaving of requests
    and pump threads:
    - every [/spray] request made so far either was answered "activated"
      or ended with the exception its body raised at lines 356-357, and
      there is one pump thread for each "activated" answer, none for the
      others;
    - a further request is never turned away because a drive is in
      progress: with a body that lines 356-357 accept it is answered
      "activated" and adds one thread waiting for the lock, with any
      other body it raises, starts no thread and leaves the shared state
      alone;
    - at most one thread is inside its drive sequence, and one is exactly
      when [pump_lock] is held, so drive sequences never overlap;
    - while no thread is between its two pin writes the pin is at the
      inactive level;
    - a thread that finds the lock held is not turned away: it cannot move
      while the lock is held, and can take the lock once it is free.
    [cc.py] has no lock: there two threads started by two [/spray]
    requests can be between their two pin writes at once. *)
Theorem pump_lock_serialises :
  (forall USE_GPIO active_high ls s,
      SmartSprayer.run USE_GPIO active_high ls (SmartSprayer.idle USE_GPIO active_high)
        = Some s ->
      (length (SmartSprayer.answers s) + length (SmartSprayer.refused s))%nat
        = requests ls /\
      Forall (fun r => SmartSprayer.activated r = true) (SmartSprayer.answers s) /\
      length (SmartSprayer.answers s) = length (SmartSprayer.threads s) /\
      (forall body d,
          SmartSprayer.posted_duration body = Ok d ->
          exists s1,
            SmartSprayer.exec USE_GPIO active_high (SmartSprayer.Request body) s = Some s1 /\
            SmartSprayer.answers s1
              = (SmartSprayer.answers s ++ [SmartSprayer.SprayJson "activated" d])%list /\
            SmartSprayer.threads s1
              = (SmartSprayer.threads s ++ [SmartSprayer.mkThread d SmartSprayer.AtLock])%list /\
            SmartSprayer.refused s1 = SmartSprayer.refused s) /\
      (forall body e,
          SmartSprayer.posted_duration body = Err e ->
          exists s1,
            SmartSprayer.exec USE_GPIO active_high (SmartSprayer.Request body) s = Some s1 /\
            SmartSprayer.answers s1 = SmartSprayer.answers s /\
            SmartSprayer.threads s1 = SmartSprayer.threads s /\
            SmartSprayer.shared s1 = SmartSprayer.shared s /\
            SmartSprayer.refused s1 = (SmartSprayer.refused s ++ [e])%list) /\
      (driving s <= 1)%nat /\
      (driving s = 1%nat <-> lock_held s = true) /\
      (USE_GPIO = true -> holding_pin s = 0%nat ->
         pin_level s = Some (SmartSprayer.inactive_level active_high)) /\
      (forall tid t interrupt,
          SmartSprayer.threads s !! tid = Some t ->
          SmartSprayer.at_pc t = SmartSprayer.AtLock ->
          (SmartSprayer.exec USE_GPIO active_high (SmartSprayer.Run tid interrupt) s = None
           <-> lock_held s = true))) /\
  (exists s,
      PlantSprayer.run true true
        [PlantSprayer.Request; PlantSprayer.Request;
         PlantSprayer.Run 0 None; PlantSprayer.Run 1 None]
        (PlantSprayer.mkSystem after_high [] []) = Some s /\
      PlantSprayer.threads s = [PlantSprayer.AtHold; PlantSprayer.AtHold] /\
      PlantSprayer.answers s
        = [PlantSprayer.MessageJson "Pump activated!";
           PlantSprayer.MessageJson "Pump activated!"]).
Proof.
  split; [|exact trigger_pump_threads_overlap].
  intros USE_GPIO active_high ls s Hrun.
  destruct (run_invariants _ _ _ _ _ Hrun (idle_invariants USE_GPIO active_high))
    as (Hl & Hp & Ha & Hlen).
  pose proof (run_counts_requests _ _ _ _ _ Hrun) as Hc. cbn in Hc.
  unfold lock_counts in Hl.
  split; [exact Hc|].
  split; [exact Ha|]. split; [exact Hlen|].
  split; [apply request_outcomes|]. split; [apply request_outcomes|].
  split; [destruct (lock_held s); lia|].
  split; [destruct (lock_held s); split; intros; try reflexivity; try lia; discriminate|].
  split; [exact Hp|].
  intros tid t interrupt. apply waiting_thread_moves_iff_free.
Qed.

(** Two requests, one of them with a body that is no JSON object, and
    the first thread inside its drive: the second thread waits, and a
    third request would still be answered "activated". *)
Lemma pump_lock_serialises_witness :
  exists s,
    SmartSprayer.run true true (SmartSprayer.Request SmartSprayer.NotAnObject :: first_drives)
      (SmartSprayer.idle true true) = Some s /\
    SmartSprayer.refused s = [AttributeError] /\
    length (SmartSprayer.threads s) = 2%nat /\
    (driving s <= 1)%nat /\
    SmartSprayer.exec true true (SmartSprayer.Run 1 None) s = None /\
    (exists s1,
        SmartSprayer.exec true true (SmartSprayer.Request SmartSprayer.Falsy) s = Some s1 /\
        length (SmartSprayer.threads s1) = 3%nat) /\
    (exists s1,
        SmartSprayer.exec true true
          (SmartSprayer.Request (SmartSprayer.Object (Some SmartSprayer.NotNumeric))) s
        = Some s1 /\
        SmartSprayer.threads s1 = SmartSprayer.threads s).
Proof.
  assert (E : exists s,
             SmartSprayer.run true true
               (SmartSprayer.Request SmartSprayer.NotAnObject :: first_drives)
               (SmartSprayer.idle true true) = Some s)
    by (vm_compute; eexists; reflexivity).
  destruct E as [s E]. exists s. split; [exact E|].
  destruct (proj1 pump_lock_serialises true true _ s E)
    as (_ & _ & _ & Hok & Herr & Hd & _ & _ & Hw).
  destruct (Hok SmartSprayer.Falsy (Finite 5) eq_refl) as (s1 & He1 & _ & Ht1 & _).
  destruct (Herr (SmartSprayer.Object (Some SmartSprayer.NotNumeric)) TypeError eq_refl)
    as (s2 & He2 & _ & Ht2 & _).
  vm_compute in E. injection E as <-.
  split; [reflexivity|]. split; [reflexivity|]. split; [exact Hd|].
  split; [|split].
  - apply (Hw 1%nat (SmartSprayer.mkThread 2%Q SmartSprayer.AtLock) None).
    + reflexivity.
    + reflexivity.
    + reflexivity.
  - exists s1. split; [exact He1|]. rewrite Ht1. reflexivity.
  - exists s2. split; [exact He2 | exact Ht2].
Defined.

(** C2, the claim as written fails: two [/spray] requests arriving while
    the pump is idle are both answered "activated" (no refusal exists), and
    the second drive is queued behind the first: both run, one after the
    other. *)
Lemma two_sprays_both_activated :
  exists s,
    SmartSprayer.run true true one_after_the_other (SmartSprayer.idle true true) = Some s /\
    SmartSprayer.answers s
      = [SmartSprayer.SprayJson "activated" 5; SmartSprayer.SprayJson "activated" 2] /\
    length (List.filter SmartSprayer.activated (SmartSprayer.answers s)) = 2%nat /\
    SmartSprayer.threads s
      = [SmartSprayer.mkThread 5 (SmartSprayer.Finished (Returns true));
         SmartSprayer.mkThread 2 (SmartSprayer.Finished (Returns true))] /\
    SmartSprayer.out (SmartSprayer.shared s)
      = [ThreadStart "activate_pump" [Finite 5]; ThreadStart "activate_pump" [Finite 2];
         GpioOutput 18 HIGH; Sleep 5; GpioOutput 18 LOW;
         GpioOutput 18 HIGH; Sleep 2; GpioOutput 18 LOW].
Proof.
  eexists. split; [vm_compute; reflexivity|].
  repeat split.
Qed.

(* ------------------------------------------------------------------ *)
(** * Further properties of the code *)

(** ** The rover's routes *)

Ltac rover_run :=
  cbv beta iota zeta delta
    [Rover.handle Rover.forward Rover.backward Rover.left Rover.right
     Rover.stop Rover.set_speed Rover.spray Rover.drive_pins
     Rover.set_motor_speed Rover.pwm_a_ChangeDutyCycle Rover.pwm_b_ChangeDutyCycle
     Rover.set_global_motor_speed Rover.GPIO_output Rover.time_sleep Rover.emit
     Rover.motor_speed Rover.pwm_a Rover.pwm_b Rover.gpio Rover.out
     bind modify gets ret raise fst snd] in *.

Lemma hold_not_negative : Qltb 3 0 = false.
Proof. reflexivity. Qed.

Lemma duty_in_range (v : Z) :
  (0 <= v <= 100)%Z -> ((v <? 0) || (100 <? v))%Z = false.
Proof. intros H. apply orb_false_iff; split; apply Z.ltb_ge; lia. Qed.

Lemma handle_keeps_rover_ok r w :
  rover_ok w ->
  rover_ok (snd (Rover.handle r w)) /\
  (interrupted r = false -> exists page, fst (Rover.handle r w) = Returns page).
Proof.
  intros (Hs & Hab & Hp). destruct w as [ms pa pb g o].
  unfold rover_ok in *. rover_run.
  destruct r as [| | | | |speed|interrupt].
  1-4: rover_run; rewrite (duty_in_range ms Hs); rover_run;
       (split; [lia | intros _; eexists; reflexivity]).
  - rover_run. change ((0 <? 0)%Z || (100 <? 0)%Z) with false. rover_run.
    split; [lia | intros _; eexists; reflexivity].
  - rover_run.
    rewrite (duty_in_range (Z.max 0 (Z.min 100 speed))) by lia. rover_run.
    split; [lia | intros _; eexists; reflexivity].
  - rover_run. rewrite hold_not_negative. destruct interrupt as [e|]; rover_run.
    + split; [lia | discriminate].
    + split; [lia | intros _; eexists; reflexivity].
Qed.

Lemma serve_keeps_rover_ok rs w : rover_ok w -> rover_ok (Rover.serve rs w).
Proof.
  revert w. induction rs as [|r rs IH]; intros w H; cbn; [exact H|].
  apply IH, handle_keeps_rover_ok, H.
Qed.

Lemma init_rover_ok : rover_ok Rover.init.
Proof. unfold rover_ok; cbn. repeat split; auto; lia. Qed.

(** *** Overlapping requests *)

Lemma program_safe (r : Rover.request) : Forall (instr_safe r) (Rover.program r).
Proof.
  destruct r as [| | | | |speed|interrupt]; cbn [Rover.program Rover.write_pins];
    repeat constructor; unfold duty; lia.
Qed.

Lemma start_safe (r : Rover.request) : thread_safe (Rover.start r).
Proof.
  split; [unfold duty; cbn; lia|]. split; [apply program_safe|]. discriminate.
Qed.

Ltac thread_run :=
  cbn [Rover.thread_step Rover.instr_step Rover.route Rover.code Rover.held Rover.failed
       Rover.shared Rover.threads
       Rover.set_motor_speed Rover.pwm_a_ChangeDutyCycle Rover.pwm_b_ChangeDutyCycle
       Rover.set_global_motor_speed Rover.GPIO_output Rover.time_sleep Rover.emit
       Rover.motor_speed Rover.pwm_a Rover.pwm_b Rover.gpio Rover.out
       bind modify gets ret raise fst snd] in *.

Ltac keep_safe :=
  unfold duty in *;
  repeat match goal with |- _ /\ _ => split end;
  try lia; try assumption; try (intros ? ?; discriminate).

(** One access keeps the speeds legal, and fails only in a spray whose
    hold is interrupted. *)
Lemma thread_step_safe t w t1 w1 :
  Rover.thread_step t w = Some (t1, w1) ->
  thread_safe t ->
  duty (Rover.motor_speed w) -> duty (Rover.pwm_a w) -> duty (Rover.pwm_b w) ->
  thread_safe t1 /\
  duty (Rover.motor_speed w1) /\ duty (Rover.pwm_a w1) /\ duty (Rover.pwm_b w1).
Proof.
  destruct t as [r c v f], w as [ms pa pb g o].
  unfold thread_safe, Rover.thread_step. thread_run.
  intros H (Hv & Hc & Hf) Hms Hpa Hpb.
  destruct f as [e|]; [discriminate|].
  destruct c as [|i rest]; [discriminate|].
  apply Forall_cons in Hc as [Hi Hrest].
  destruct i as [ | k | k | | | pin level | interrupt secs];
    unfold Rover.instr_step in H; cbn [instr_safe] in Hi; thread_run.
  - injection H as <- <-. thread_run. keep_safe.
  - injection H as <- <-. thread_run. keep_safe.
  - injection H as <- <-. thread_run. keep_safe.
  - unfold Rover.pwm_a_ChangeDutyCycle in H. rewrite (duty_in_range v Hv) in H.
    thread_run. injection H as <- <-. thread_run. keep_safe.
  - unfold Rover.pwm_b_ChangeDutyCycle in H. rewrite (duty_in_range v Hv) in H.
    thread_run. injection H as <- <-. thread_run. keep_safe.
  - injection H as <- <-. thread_run. keep_safe.
  - destruct Hi as [Hr Hs]. unfold Rover.time_sleep in H. rewrite Hs in H. thread_run.
    destruct interrupt as [e|]; thread_run; injection H as <- <-; thread_run.
    + keep_safe; [constructor|].
      intros e0 Hx. injection Hx as <-. split; [exact Hr | reflexivity].
    + keep_safe.
Qed.

Lemma exec_rover_safe l s s' :
  Rover.exec l s = Some s' -> rover_safe s -> rover_safe s'.
Proof.
  unfold rover_safe. destruct s as [w ths]. destruct l as [r|tid]; cbn.
  - intros H; injection H as <-. cbn. intros (Hms & Hpa & Hpb & Hth).
    split; [exact Hms|]. split; [exact Hpa|]. split; [exact Hpb|].
    apply Forall_app. split; [exact Hth|]. constructor; [apply start_safe | constructor].
  - destruct (ths !! tid) as [t|] eqn:Ht; [|discriminate].
    destruct (Rover.thread_step t w) as [[t1 w1]|] eqn:Hs; [|discriminate].
    intros H; injection H as <-. cbn. intros (Hms & Hpa & Hpb & Hth).
    assert (Hsafe : thread_safe t).
    { rewrite List.Forall_forall in Hth. apply Hth.
      apply list_elem_of_In. eapply list_elem_of_lookup_2. exact Ht. }
    destruct (thread_step_safe _ _ _ _ Hs Hsafe Hms Hpa Hpb) as (H1 & H2 & H3 & H4).
    split; [exact H2|]. split; [exact H3|]. split; [exact H4|].
    apply Forall_insert; assumption.
Qed.

Lemma run_rover_safe ls s s' :
  Rover.run ls s = Some s' -> rover_safe s -> rover_safe s'.
Proof.
  revert s. induction ls as [|l ls IH]; intros s; cbn.
  - intros H; injection H as <-. auto.
  - destruct (Rover.exec l s) as [s1|] eqn:He; [|discriminate].
    intros Hr Hs. apply (IH s1 Hr). eapply exec_rover_safe; eassumption.
Qed.

Lemma idle_rover_safe : rover_safe Rover.idle.
Proof. unfold rover_safe, duty; cbn. repeat split; try lia. constructor. Qed.

(** A safe handler with accesses left can always make the next one. *)
Lemma safe_thread_moves t w :
  thread_safe t -> duty (Rover.motor_speed w) -> Rover.code t <> [] ->
  exists t1 w1, Rover.thread_step t w = Some (t1, w1).
Proof.
  destruct t as [r c v f], w as [ms pa pb g o].
  unfold thread_safe, Rover.thread_step. thread_run.
  intros (Hv & Hc & Hf) Hms Hne.
  destruct f as [e|]; [destruct (Hf e eq_refl) as [_ E]; contradiction|].
  destruct c as [|i rest]; [contradiction|].
  apply Forall_cons in Hc as [Hi Hrest].
  destruct i as [ | k | k | | | pin level | interrupt secs];
    unfold Rover.instr_step; cbn [instr_safe] in Hi; thread_run;
    try (do 2 eexists; reflexivity).
  - unfold Rover.pwm_a_ChangeDutyCycle. rewrite (duty_in_range v Hv). thread_run.
    do 2 eexists; reflexivity.
  - unfold Rover.pwm_b_ChangeDutyCycle. rewrite (duty_in_range v Hv). thread_run.
    do 2 eexists; reflexivity.
  - destruct Hi as [_ Hs]. unfold Rover.time_sleep. rewrite Hs. thread_run.
    destruct interrupt; thread_run; do 2 eexists; reflexivity.
Qed.

Ltac handler_run :=
  cbn [Rover.alone Rover.start Rover.program Rover.write_pins Rover.answer handler_done
       Rover.handle Rover.forward Rover.backward Rover.left Rover.right
       Rover.stop Rover.set_speed Rover.spray Rover.drive_pins
       Rover.thread_step Rover.instr_step Rover.route Rover.code Rover.held Rover.failed
       Rover.set_motor_speed Rover.pwm_a_ChangeDutyCycle Rover.pwm_b_ChangeDutyCycle
       Rover.set_global_motor_speed Rover.GPIO_output Rover.time_sleep Rover.emit
       Rover.motor_speed Rover.pwm_a Rover.pwm_b Rover.gpio Rover.out
       bind modify gets ret raise fst snd] in *.

(** Left to itself, a handler does what the route does as a function:
    requests that do not overlap are [Rover.serve]. *)
Lemma lone_handler_is_handle (r : Rover.request) (w : Rover.world) :
  snd (Rover.alone 8 (Rover.start r) w) = snd (Rover.handle r w) /\
  Rover.answer (fst (Rover.alone 8 (Rover.start r) w)) = fst (Rover.handle r w) /\
  handler_done (fst (Rover.alone 8 (Rover.start r) w)) = true.
Proof.
  destruct w as [ms pa pb g o].
  destruct r as [| | | | |speed|interrupt]; handler_run.
  1-4: destruct ((ms <? 0) || (100 <? ms))%Z eqn:E;
       repeat (progress (unfold Rover.set_motor_speed, Rover.pwm_a_ChangeDutyCycle,
                           Rover.pwm_b_ChangeDutyCycle; rewrite ?E; handler_run));
       repeat split.
  - assert (E : ((0 <? 0) || (100 <? 0))%Z = false) by reflexivity.
    repeat (progress (unfold Rover.set_motor_speed, Rover.pwm_a_ChangeDutyCycle,
                        Rover.pwm_b_ChangeDutyCycle; rewrite ?E; handler_run));
    repeat split.
  - pose proof (duty_in_range (Z.max 0 (Z.min 100 speed)) ltac:(lia)) as E.
    repeat (progress (unfold Rover.set_motor_speed, Rover.pwm_a_ChangeDutyCycle,
                        Rover.pwm_b_ChangeDutyCycle; rewrite ?E; handler_run));
    repeat split.
  - unfold Rover.time_sleep. rewrite hold_not_negative.
    destruct interrupt; handler_run; repeat split.
Qed.

(** X1. Whatever requests the rover has been sent since start-up, and
    however the threaded server has interleaved their handlers: the
    stored speed and the duty cycle of each PWM channel are within
    0..100, so no [ChangeDutyCycle] call has been rejected; the only
    handler that an exception has ended is a [/spray] whose hold was
    interrupted (the rendering of the page, after the last access, is
    not modelled); and every handler with accesses left can make the
    next one.  When requests do not overlap, both channels moreover carry the
    same duty cycle (the stored speed, or zero after a stop); when they
    do, the channels can be left apart: two [/speed] requests at once
    can leave channel A at 80 and channel B at 30, both answering "Speed
    set to 80%". *)
Theorem rover_requests_never_raise :
  (forall ls s,
      Rover.run ls Rover.idle = Some s ->
      duty (Rover.motor_speed (Rover.shared s)) /\
      duty (Rover.pwm_a (Rover.shared s)) /\
      duty (Rover.pwm_b (Rover.shared s)) /\
      (forall tid t e,
          Rover.threads s !! tid = Some t -> Rover.failed t = Some e ->
          Rover.route t = Rover.Spray (Some e)) /\
      (forall tid t,
          Rover.threads s !! tid = Some t -> handler_done t = false ->
          exists s1, Rover.exec (Rover.Moves tid) s = Some s1)) /\
  (forall rs, rover_ok (Rover.serve rs Rover.init)) /\
  (exists s,
      Rover.run crossing_speeds Rover.idle = Some s /\
      forallb handler_done (Rover.threads s) = true /\
      map Rover.answer (Rover.threads s)
        = [Returns "Speed set to 80%"; Returns "Speed set to 80%"] /\
      Rover.pwm_a (Rover.shared s) = 80%Z /\ Rover.pwm_b (Rover.shared s) = 30%Z).
Proof.
  split; [|split].
  - intros ls s Hrun.
    destruct (run_rover_safe _ _ _ Hrun idle_rover_safe) as (Hms & Hpa & Hpb & Hth).
    assert (Hsafe : forall tid t, Rover.threads s !! tid = Some t -> thread_safe t).
    { intros tid t Ht. rewrite List.Forall_forall in Hth. apply Hth.
      apply list_elem_of_In. eapply list_elem_of_lookup_2. exact Ht. }
    split; [exact Hms|]. split; [exact Hpa|]. split; [exact Hpb|]. split.
    + intros tid t e Ht Hf. destruct (Hsafe tid t Ht) as (_ & _ & Hfail).
      apply (Hfail e Hf).
    + intros tid t Ht Hd.
      destruct (safe_thread_moves t (Rover.shared s) (Hsafe tid t Ht) Hms)
        as (t1 & w1 & Hs).
      { unfold handler_done in Hd. destruct (Rover.code t); [discriminate | discriminate]. }
      cbn. rewrite Ht, Hs. eexists; reflexivity.
  - intros rs. apply serve_keeps_rover_ok, init_rover_ok.
  - eexists. split; [vm_compute; reflexivity|]. repeat split.
Qed.

Lemma rover_requests_never_raise_witness :
  exists s,
    Rover.run crossing_directions Rover.idle = Some s /\
    duty (Rover.pwm_a (Rover.shared s)) /\ duty (Rover.pwm_b (Rover.shared s)).
Proof.
  assert (E : exists s, Rover.run crossing_directions Rover.idle = Some s)
    by (vm_compute; eexists; reflexivity).
  destruct E as [s E]. exists s. split; [exact E|].
  destruct (proj1 rover_requests_never_raise crossing_directions s E)
    as (_ & Ha & Hb & _).
  split; [exact Ha | exact Hb].
Defined.

Ltac pin_lookups :=
  cbv beta iota delta
    [bridge Rover.gpio Rover.Motor_In1 Rover.Motor_In2 Rover.Motor_In3
     Rover.Motor_In4 Rover.PUMP_PIN] in *;
  repeat (rewrite lookup_insert_eq || rewrite lookup_insert_ne by lia).

Ltac pick_pattern :=
  unfold bridge_patterns, In; repeat (first [left; reflexivity | right]).

Lemma handle_keeps_bridge_pattern r w :
  In (bridge w) bridge_patterns -> In (bridge (snd (Rover.handle r w))) bridge_patterns.
Proof.
  intros H. destruct w as [ms pa pb g o].
  destruct r as [| | | | |speed|interrupt].
  1-4: rover_run; destruct ((ms <? 0) || (100 <? ms))%Z; rover_run; [exact H|];
       pin_lookups; pick_pattern.
  - rover_run. change ((0 <? 0)%Z || (100 <? 0)%Z) with false. rover_run.
    pin_lookups. pick_pattern.
  - rover_run.
    destruct ((Z.max 0 (Z.min 100 speed) <? 0) || (100 <? Z.max 0 (Z.min 100 speed)))%Z;
      rover_run; exact H.
  - rover_run. rewrite hold_not_negative. destruct interrupt as [e|]; rover_run;
      pin_lookups; exact H.
Qed.

(** X2. As long as requests do not overlap, the four direction pins
    show between requests one of the five patterns the routes write
    (forward, backward, left, right, all low), so the two inputs of a
    motor are never left high together.  Nothing in the script keeps
    requests from overlapping, and then this fails: a [/Backward] and a
    [/Forward] handled at once, their pin writes taking turns, leave all
    four inputs high after both handlers have made all their accesses,
    neither ended by an exception. *)
Theorem rover_bridge_patterns :
  (forall rs,
      In (bridge (Rover.serve rs Rover.init)) bridge_patterns /\
      exists in1 in2 in3 in4,
        bridge (Rover.serve rs Rover.init) = [Some in1; Some in2; Some in3; Some in4] /\
        in1 && in2 = false /\ in3 && in4 = false) /\
  (exists s,
      Rover.run crossing_directions Rover.idle = Some s /\
      map Rover.route (Rover.threads s) = [Rover.Backward; Rover.Forward] /\
      map Rover.failed (Rover.threads s) = [None; None] /\
      forallb handler_done (Rover.threads s) = true /\
      bridge (Rover.shared s) = [Some true; Some true; Some true; Some true]).
Proof.
  split.
  - intros rs.
    assert (H : In (bridge (Rover.serve rs Rover.init)) bridge_patterns).
    { generalize Rover.init, (or_intror (or_intror (or_intror (or_intror (or_introl eq_refl))))
          : In (bridge Rover.init) bridge_patterns).
      induction rs as [|r rs IH]; intros w Hw; cbn [Rover.serve]; [exact Hw|].
      apply IH, handle_keeps_bridge_pattern, Hw. }
    split; [exact H|].
    unfold bridge_patterns, In in H.
    destruct H as [H|[H|[H|[H|[H|[]]]]]]; rewrite <- H;
      do 4 eexists; repeat split.
  - eexists. split; [vm_compute; reflexivity|]. repeat split.
Qed.

(** X3. [/stop] zeroes both PWM channels but keeps the stored speed; the
    next direction request programs both channels with that speed again. *)
Theorem stop_keeps_speed (w : Rover.world) (r : Rover.request) :
  rover_ok w ->
  is_direction r = true ->
  let stopped := snd (Rover.stop w) in
  let moving := snd (Rover.handle r stopped) in
  Rover.motor_speed stopped = Rover.motor_speed w /\
  Rover.pwm_a stopped = 0%Z /\ Rover.pwm_b stopped = 0%Z /\
  Rover.motor_speed moving = Rover.motor_speed w /\
  Rover.pwm_a moving = Rover.motor_speed w /\
  Rover.pwm_b moving = Rover.motor_speed w.
Proof.
  intros (Hs & _) Hd. destruct w as [ms pa pb g o]. rover_run.
  destruct r; try discriminate; rover_run;
    change ((0 <? 0)%Z || (100 <? 0)%Z) with false; rover_run;
    rewrite (duty_in_range ms Hs); rover_run; repeat split.
Qed.

Lemma stop_keeps_speed_witness :
  Rover.pwm_a (snd (Rover.stop (Rover.serve [Rover.Speed 80] Rover.init))) = 0%Z /\
  Rover.pwm_a
    (snd (Rover.handle Rover.Left
            (snd (Rover.stop (Rover.serve [Rover.Speed 80] Rover.init))))) = 80%Z.
Proof.
  destruct (stop_keeps_speed (Rover.serve [Rover.Speed 80] Rover.init) Rover.Left)
    as (_ & Ha & _ & _ & Hm & _).
  - unfold rover_ok.
    split; [split; vm_compute; discriminate|].
    split; [vm_compute; reflexivity | left; vm_compute; reflexivity].
  - reflexivity.
  - split; [exact Ha | exact Hm].
Defined.

(** X4. The motor routes and the speed route never write the pump pin,
    whether they succeed or not; [/spray], however its hold ends, changes
    neither the stored speed, nor the PWM channels, nor a direction pin. *)
Theorem rover_pump_and_motors_apart (w : Rover.world) :
  (forall r, is_spray r = false ->
     Rover.gpio (snd (Rover.handle r w)) !! Rover.PUMP_PIN
       = Rover.gpio w !! Rover.PUMP_PIN) /\
  (forall interrupt,
     let w' := snd (Rover.spray interrupt w) in
     Rover.motor_speed w' = Rover.motor_speed w /\
     Rover.pwm_a w' = Rover.pwm_a w /\ Rover.pwm_b w' = Rover.pwm_b w /\
     bridge w' = bridge w).
Proof.
  destruct w as [ms pa pb g o]. split.
  - intros r Hr. destruct r as [| | | | |speed|interrupt]; try discriminate.
    1-4: rover_run; destruct ((ms <? 0) || (100 <? ms))%Z; rover_run; [reflexivity|];
         pin_lookups; reflexivity.
    + rover_run. change ((0 <? 0)%Z || (100 <? 0)%Z) with false. rover_run.
      pin_lookups. reflexivity.
    + rover_run.
      destruct ((Z.max 0 (Z.min 100 speed) <? 0) || (100 <? Z.max 0 (Z.min 100 speed)))%Z;
        reflexivity.
  - intros interrupt. rover_run. rewrite hold_not_negative.
    destruct interrupt as [e|]; rover_run; pin_lookups; repeat split.
Qed.

Lemma rover_pump_and_motors_apart_witness :
  Rover.gpio (snd (Rover.handle Rover.Forward Rover.init)) !! Rover.PUMP_PIN
    = Rover.gpio Rover.init !! Rover.PUMP_PIN.
Proof.
  apply (proj1 (rover_pump_and_motors_apart Rover.init) Rover.Forward).
  reflexivity.
Defined.

(* ------------------------------------------------------------------ *)
(** ** The arg-max and the labels *)

Lemma argmax_from_spec (l : list Q) :
  forall (pre : list Q) (best : nat) (bestv : Q),
    (best < length pre)%nat ->
    nth best (pre ++ l) 0%Q = bestv ->
    (forall j, (j < length pre)%nat -> (nth j (pre ++ l) 0 <= bestv)%Q) ->
    (forall j, (j < best)%nat -> (nth j (pre ++ l) 0 < bestv)%Q) ->
    let r := argmax_from best bestv (length pre) l in
    (r < length (pre ++ l))%nat /\
    (forall j, (j < length (pre ++ l))%nat ->
               (nth j (pre ++ l) 0 <= nth r (pre ++ l) 0)%Q) /\
    (forall j, (j < r)%nat -> (nth j (pre ++ l) 0 < nth r (pre ++ l) 0)%Q).
Proof.
  induction l as [|x tl IH]; intros pre best bestv Hb Hv Hmax Hfirst; cbn.
  - rewrite app_nil_r in *. rewrite Hv. auto.
  - assert (Happ : (pre ++ x :: tl = (pre ++ [x]) ++ tl)%list)
      by (rewrite <- app_assoc; reflexivity).
    assert (Hx : nth (length pre) (pre ++ x :: tl) 0%Q = x) by apply nth_middle.
    assert (Hlen : length (pre ++ [x]) = S (length pre))
      by (rewrite length_app; cbn; lia).
    destruct (Qltb bestv x) eqn:E; [apply Qltb_lt in E | apply Qltb_ge in E].
    + specialize (IH (pre ++ [x])%list (length pre) x).
      rewrite Hlen, <- Happ in IH. apply IH.
      * lia.
      * exact Hx.
      * intros j Hj. destruct (Nat.eq_dec j (length pre)) as [->|Hne].
        -- rewrite Hx. apply Qle_refl.
        -- apply Qlt_le_weak, Qle_lt_trans with bestv; [apply Hmax; lia | exact E].
      * intros j Hj. apply Qle_lt_trans with bestv; [apply Hmax; lia | exact E].
    + specialize (IH (pre ++ [x])%list best bestv).
      rewrite Hlen, <- Happ in IH. apply IH.
      * lia.
      * exact Hv.
      * intros j Hj. destruct (Nat.eq_dec j (length pre)) as [->|Hne].
        -- rewrite Hx. exact E.
        -- apply Hmax; lia.
      * exact Hfirst.
Qed.

Lemma argmax_spec (l : list Q) :
  l <> [] ->
  exists idx,
    argmax l = Ok idx /\
    (idx < length l)%nat /\
    (forall j, (j < length l)%nat -> (nth j l 0 <= nth idx l 0)%Q) /\
    (forall j, (j < idx)%nat -> (nth j l 0 < nth idx l 0)%Q).
Proof.
  destruct l as [|x tl]; [congruence|]. intros _.
  exists (argmax_from 0 x 1 tl). split; [reflexivity|].
  apply (argmax_from_spec tl [x] 0%nat x).
  - cbn; lia.
  - reflexivity.
  - intros j Hj. cbn in Hj. assert (j = 0%nat) as -> by lia. cbn. apply Qle_refl.
  - intros j Hj. lia.
Qed.

(** X5. Whenever the model hands [keras_detector] a batch whose first row
    is not empty, the detector answers: the confidence is the largest
    probability of that row, the label is the class of the first index
    that reaches it (so on a tie the lower class wins), and an index beyond
    the four class names is labelled "Class n" instead of failing. *)
Theorem keras_detector_takes_first_maximum model frame probs rest :
  model frame = Ok (Arr2 (probs :: rest)) ->
  probs <> [] ->
  exists idx,
    (idx < length probs)%nat /\
    SmartSprayer.keras_detector model frame
      = Ok (SmartSprayer.class_label idx, nth idx probs 0%Q,
            SmartSprayer.severity_of_prediction (SmartSprayer.class_label idx)
              (nth idx probs 0%Q)) /\
    (forall j, (j < length probs)%nat -> (nth j probs 0 <= nth idx probs 0)%Q) /\
    (forall j, (j < idx)%nat -> (nth j probs 0 < nth idx probs 0)%Q) /\
    ((4 <= idx)%nat ->
       SmartSprayer.class_label idx = "Class " ++ str (Z.of_nat idx)).
Proof.
  intros Hm Hne. destruct (argmax_spec probs Hne) as (idx & Ha & Hlt & Hmax & Hfirst).
  exists idx. split; [exact Hlt|]. split.
  - unfold SmartSprayer.keras_detector. rewrite Hm, Ha. reflexivity.
  - split; [exact Hmax|]. split; [exact Hfirst|].
    intros H4. unfold SmartSprayer.class_label.
    destruct (Nat.ltb_spec idx (length SmartSprayer.CLASS_NAMES)) as [Hlt4|_];
      [cbn in Hlt4; lia | reflexivity].
Qed.

(** A tie between "Healthy" and a disease is reported as "Healthy"; a model
    with six outputs gets "Class 5". *)
Example keras_tie_is_healthy :
  SmartSprayer.keras_detector (constant_model [0.5; 0.5]%Q) blank_frame
    = Ok ("Healthy", 0.5%Q, 1%Z).
Proof. vm_compute; reflexivity. Qed.

Example keras_sixth_class :
  SmartSprayer.keras_detector (constant_model [0; 0; 0; 0; 0.1; 0.9]%Q) blank_frame
    = Ok ("Class 5", 0.9%Q, 3%Z).
Proof. vm_compute; reflexivity. Qed.

Lemma keras_detector_takes_first_maximum_witness :
  exists idx,
    (idx < 2)%nat /\
    SmartSprayer.keras_detector (constant_model [0.5; 0.5]%Q) blank_frame
      = Ok (SmartSprayer.class_label idx, nth idx [0.5; 0.5]%Q 0%Q,
            SmartSprayer.severity_of_prediction (SmartSprayer.class_label idx)
              (nth idx [0.5; 0.5]%Q 0%Q)) /\
    (forall j, (j < idx)%nat -> (nth j [0.5; 0.5]%Q 0 < nth idx [0.5; 0.5]%Q 0)%Q).
Proof.
  destruct (keras_detector_takes_first_maximum (constant_model [0.5; 0.5]%Q)
              blank_frame [0.5; 0.5]%Q [] eq_refl ltac:(discriminate))
    as (idx & Hlt & Hrun & _ & Hfirst & _).
  exists idx. split; [exact Hlt | split; [exact Hrun | exact Hfirst]].
Defined.

(** X6. A "Healthy" arg-max is never rated Medium or High by
    [keras_detector]: it is None (0) above 0.6 confidence and Low (1) up to
    and including 0.6, so it never enables the spray button. *)
Theorem keras_healthy_stays_low model frame confidence severity :
  SmartSprayer.keras_detector model frame = Ok ("Healthy", confidence, severity) ->
  ((0.6 < confidence)%Q -> severity = 0%Z) /\
  ((confidence <= 0.6)%Q -> severity = 1%Z) /\
  (severity = 0%Z \/ severity = 1%Z).
Proof.
  intros H. apply keras_detector_severity in H. subst severity.
  unfold SmartSprayer.severity_of_prediction. cbn [String.eqb Ascii.eqb Bool.eqb].
  change ("Healthy" =? "Healthy")%string with true. cbn iota.
  destruct (Qltb 0.6 confidence) eqn:E; [apply Qltb_lt in E | apply Qltb_ge in E].
  - repeat split; auto. intros; lra.
  - repeat split; auto. intros; lra.
Qed.

Lemma keras_healthy_stays_low_witness :
  ((0.6 < 0.97)%Q -> 0%Z = 0%Z) /\
  ((0.97 <= 0.6)%Q -> 0%Z = 1%Z) /\
  (0%Z = 0%Z \/ 0%Z = 1%Z).
Proof.
  apply (keras_healthy_stays_low (constant_model [0.97; 0.03]%Q) blank_frame 0.97%Q 0%Z).
  vm_compute; reflexivity.
Defined.

(** X7. [analyze_frame] of [cc.py] indexes the class list with the
    arg-max and has no fallback label: when the model has more outputs
    than the plant has class names and the arg-max falls beyond them,
    [/check] raises [IndexError] and stores nothing. *)
Theorem check_class_index_out_of_range
  load_model plant frame w model classes w1 probs rest idx :
  PlantSprayer.current_frame w = Some frame ->
  PlantSprayer.no_plant (Some plant) = false ->
  PlantSprayer.load_plant_model load_model plant w
    = (Returns (Some model, classes), w1) ->
  model frame = Ok (Arr2 (probs :: rest)) ->
  argmax probs = Ok idx ->
  (length classes <= idx)%nat ->
  exists w',
    PlantSprayer.check load_model (Some plant) w = (Raises IndexError, w') /\
    PlantSprayer.analysis_result w' = PlantSprayer.analysis_result w1.
Proof.
  intros Hf Hp Hl Hm Ha Hlen.
  unfold PlantSprayer.check, bind, gets. rewrite Hf, Hp.
  unfold PlantSprayer.analyze_frame, bind. rewrite Hl. cbn.
  unfold PlantSprayer.predict_first. rewrite Hm. cbn. rewrite Ha. cbn.
  rewrite (proj2 (lookup_ge_None classes idx)) by lia. cbn.
  eexists. split; reflexivity.
Qed.

Lemma check_class_index_out_of_range_witness :
  exists w',
    PlantSprayer.check (wheat_loader [0.1; 0.1; 0.1; 0.7]%Q) (Some "wheat") plant_world
      = (Raises IndexError, w') /\
    PlantSprayer.analysis_result w' = None.
Proof.
  destruct (check_class_index_out_of_range
              (wheat_loader [0.1; 0.1; 0.1; 0.7]%Q) "wheat" blank_frame plant_world
              (constant_model [0.1; 0.1; 0.1; 0.7]%Q) ["Healthy"; "Rust"; "Blight"]
              (snd (PlantSprayer.load_plant_model
                      (wheat_loader [0.1; 0.1; 0.1; 0.7]%Q) "wheat" plant_world))
              [0.1; 0.1; 0.1; 0.7]%Q [] 3%nat) as (w' & Hc & Hr).
  - reflexivity.
  - reflexivity.
  - vm_compute; reflexivity.
  - reflexivity.
  - vm_compute; reflexivity.
  - cbn; lia.
  - exists w'. split; [exact Hc | rewrite Hr; reflexivity].
Defined.

(* ------------------------------------------------------------------ *)
(** ** More on the placeholder detector *)

Lemma py_min_ge (a b c : Q) : (c <= a)%Q -> (c <= b)%Q -> (c <= py_min a b)%Q.
Proof.
  intros Ha Hb. unfold py_min. destruct (Qltb b a); assumption.
Qed.

Lemma py_min_right (a b : Q) : (b < a)%Q -> py_min a b = b.
Proof.
  intros H. unfold py_min. apply Qltb_lt in H. rewrite H. reflexivity.
Qed.

(** X8. The confidence the placeholder detector reports lies in a band
    fixed by the severity: above 0.997 for None, in [0.15, 0.9] for Low,
    in [0.2, 0.8) for Medium (where it is ten times the cover: the 0.95
    cap is never reached) and in [0.4, 0.99] for High.  It is never below
    0.15. *)
Theorem placeholder_confidence_bands cvt frame label confidence severity :
  SmartSprayer.placeholder_detector cvt frame = Ok (label, confidence, severity) ->
  (severity = 0%Z -> (0.997 < confidence)%Q) /\
  (severity = 1%Z -> (0.15 <= confidence)%Q /\ (confidence <= 0.9)%Q) /\
  (severity = 2%Z ->
     (0.2 <= confidence)%Q /\ (confidence < 0.8)%Q /\
     exists cover, SmartSprayer.cover_of cvt frame = Ok cover /\
                   confidence = (cover * 10)%Q) /\
  (severity = 3%Z -> (0.4 <= confidence)%Q /\ (confidence <= 0.99)%Q) /\
  (0.15 <= confidence)%Q.
Proof.
  unfold SmartSprayer.placeholder_detector.
  destruct (SmartSprayer.cover_of cvt frame) as [cover|e] eqn:Hc; [|discriminate].
  unfold SmartSprayer.severity_of_cover.
  destruct (Qltb cover 0.003) eqn:E1; [apply Qltb_lt in E1 | apply Qltb_ge in E1].
  { intros H; injection H as <- <- <-.
    repeat split; intros; try discriminate; lra. }
  destruct (Qltb cover 0.02) eqn:E2; [apply Qltb_lt in E2 | apply Qltb_ge in E2].
  { intros H; injection H as <- <- <-.
    pose proof (py_min_le_l 0.9 (cover * 50)).
    assert ((0.15 <= py_min 0.9 (cover * 50))%Q) by (apply py_min_ge; lra).
    repeat split; intros; try discriminate; assumption. }
  destruct (Qltb cover 0.08) eqn:E3; [apply Qltb_lt in E3 | apply Qltb_ge in E3].
  { intros H; injection H as <- <- <-.
    rewrite (py_min_right 0.95 (cover * 10)) by lra.
    repeat split; intros; try discriminate; try lra.
    exists cover. split; reflexivity. }
  intros H; injection H as <- <- <-.
  pose proof (py_min_le_l 0.99 (cover * 5)).
  assert ((0.4 <= py_min 0.99 (cover * 5))%Q) by (apply py_min_ge; lra).
  repeat split; intros; try discriminate; try assumption; lra.
Qed.

Lemma placeholder_confidence_bands_witness :
  (0.4 <= 0.45)%Q /\ (0.45 <= 0.99)%Q.
Proof.
  destruct (placeholder_confidence_bands same_pixel (striped_frame 10 10 9)
              "Severe Infection" 0.45%Q 3%Z) as (_ & _ & _ & H & _).
  - vm_compute; reflexivity.
  - apply H. reflexivity.
Defined.

(** X9. More coverage never lowers the severity: of two frames, the one
    with the larger share of pixels in the band is rated at least as
    severe by the placeholder detector. *)
Theorem placeholder_severity_monotone cvt f1 f2 c1 c2 l1 l2 k1 k2 s1 s2 :
  SmartSprayer.cover_of cvt f1 = Ok c1 ->
  SmartSprayer.cover_of cvt f2 = Ok c2 ->
  (c1 <= c2)%Q ->
  SmartSprayer.placeholder_detector cvt f1 = Ok (l1, k1, s1) ->
  SmartSprayer.placeholder_detector cvt f2 = Ok (l2, k2, s2) ->
  (0 <= s1 <= s2)%Z /\ (s2 <= 3)%Z.
Proof.
  intros H1 H2 Hle. unfold SmartSprayer.placeholder_detector. rewrite H1, H2.
  unfold SmartSprayer.severity_of_cover.
  destruct (Qltb c1 0.003) eqn:A1; [apply Qltb_lt in A1 | apply Qltb_ge in A1];
  [|destruct (Qltb c1 0.02) eqn:A2; [apply Qltb_lt in A2 | apply Qltb_ge in A2];
    [|destruct (Qltb c1 0.08) eqn:A3; [apply Qltb_lt in A3 | apply Qltb_ge in A3]]];
  (destruct (Qltb c2 0.003) eqn:B1; [apply Qltb_lt in B1 | apply Qltb_ge in B1];
   [|destruct (Qltb c2 0.02) eqn:B2; [apply Qltb_lt in B2 | apply Qltb_ge in B2];
     [|destruct (Qltb c2 0.08) eqn:B3; [apply Qltb_lt in B3 | apply Qltb_ge in B3]]]);
  intros E1 E2; injection E1 as <- <- <-; injection E2 as <- <- <-;
  first [lia | exfalso; lra].
Qed.

Lemma placeholder_severity_monotone_witness : (0 <= 0 <= 3)%Z /\ (3 <= 3)%Z.
Proof.
  apply (placeholder_severity_monotone same_pixel
           (striped_frame 25 40 1) (striped_frame 10 10 9)
           (inject_Z 1 / inject_Z 1000)%Q (inject_Z 9 / inject_Z 100)%Q
           "Healthy" "Severe Infection" 0.9990%Q 0.45%Q 0%Z 3%Z).
  - vm_compute; reflexivity.
  - vm_compute; reflexivity.
  - vm_compute; discriminate.
  - vm_compute; reflexivity.
  - vm_compute; reflexivity.
Defined.

(* ------------------------------------------------------------------ *)
(** ** More on [/detect] and the camera thread *)

Ltac notes_done :=
  repeat (split; [reflexivity|]);
  first [ exists (@nil event); split; [symmetry; apply app_nil_r | reflexivity]
        | eexists; split; [rewrite <- ?app_assoc; reflexivity | reflexivity] ].

(** X10. [/detect] only looks: whatever it answers, and even when it
    raises, the frame buffer, the pins and the lock are as before; all it
    adds to the trace are detector calls and the failure line, never a pin
    write, a sleep or a thread start. *)
Theorem detect_only_looks keras_model cvt w :
  let w' := snd (SmartSprayer.detect keras_model cvt w) in
  SmartSprayer.latest_frame w' = SmartSprayer.latest_frame w /\
  SmartSprayer.gpio w' = SmartSprayer.gpio w /\
  SmartSprayer.pump_lock w' = SmartSprayer.pump_lock w /\
  exists notes,
    SmartSprayer.out w' = (SmartSprayer.out w ++ notes)%list /\
    forallb is_note notes = true.
Proof.
  destruct w as [lf g lk o].
  unfold SmartSprayer.detect, SmartSprayer.get_frame, SmartSprayer.print,
    SmartSprayer.emit, bind, gets, modify, ret, raise, lift; cbn.
  destruct lf as [frame|]; cbn; [|notes_done].
  destruct keras_model as [model|]; cbn.
  - destruct (SmartSprayer.keras_detector model frame) as [[[l c] sv]|e]; cbn.
    + notes_done.
    + destruct (is_Exception e); cbn.
      * destruct (SmartSprayer.placeholder_detector cvt frame) as [[[l c] sv]|e'];
          cbn; notes_done.
      * notes_done.
  - destruct (SmartSprayer.placeholder_detector cvt frame) as [[[l c] sv]|e'];
      cbn; notes_done.
Qed.

(** When the model answers, [/detect] passes its answer on with the
    log line "Used Keras model." and the placeholder detector is not run:
    the one call in the trace is the model's. *)
Theorem detect_prefers_model model cvt frame w label confidence severity :
  SmartSprayer.latest_frame w = Some frame ->
  SmartSprayer.keras_detector model frame = Ok (label, confidence, severity) ->
  exists w',
    SmartSprayer.detect (Some model) cvt w
      = (Returns (SmartSprayer.DetectJson label confidence severity "Used Keras model."),
         w') /\
    SmartSprayer.out w' = (SmartSprayer.out w ++ [Called "keras_detector"])%list.
Proof.
  intros Hf Hk.
  unfold SmartSprayer.detect, SmartSprayer.get_frame, bind, gets.
  rewrite Hf. cbn. rewrite Hk. cbn. eexists. split; reflexivity.
Qed.

Lemma detect_prefers_model_witness :
  exists w',
    SmartSprayer.detect (Some (constant_model [0.1; 0.9]%Q)) same_pixel camera_world
      = (Returns (SmartSprayer.DetectJson "Disease_A" 0.9%Q 3%Z "Used Keras model."), w') /\
    SmartSprayer.out w' = (SmartSprayer.out camera_world ++ [Called "keras_detector"])%list.
Proof.
  apply (detect_prefers_model (constant_model [0.1; 0.9]%Q) same_pixel
           (striped_frame 10 10 9) camera_world "Disease_A" 0.9%Q 3%Z).
  - reflexivity.
  - vm_compute; reflexivity.
Defined.

Lemma camera_loop_frame reads w :
  let w' := snd (SmartSprayer.camera_loop reads w) in
  fst (SmartSprayer.camera_loop reads w) = Returns tt /\
  SmartSprayer.gpio w' = SmartSprayer.gpio w /\
  SmartSprayer.pump_lock w' = SmartSprayer.pump_lock w.
Proof.
  revert w. induction reads as [|r reads IH]; intros w; cbn.
  - repeat split.
  - unfold bind. destruct r as [f|]; cbn;
      match goal with
      | |- context [SmartSprayer.camera_loop reads ?w1] =>
          destruct (IH w1) as (Hr & Hg & Hl); cbn in Hg, Hl;
          destruct (SmartSprayer.camera_loop reads w1) as [o w2]; cbn in *;
          subst o; repeat split; assumption
      end.
Qed.

Lemma camera_loop_failures reads w :
  Forall (fun r => r = None) reads ->
  SmartSprayer.latest_frame (snd (SmartSprayer.camera_loop reads w))
    = SmartSprayer.latest_frame w.
Proof.
  intros H. revert w. induction H as [|r reads Hr _ IH]; intros w; cbn.
  - reflexivity.
  - subst r. unfold bind; cbn.
    match goal with
    | |- context [SmartSprayer.camera_loop reads ?w1] =>
        pose proof (IH w1) as Hf; pose proof (camera_loop_frame reads w1) as (Hr & _);
        destruct (SmartSprayer.camera_loop reads w1) as [o w2]; cbn in *;
        subst o; exact Hf
    end.
Qed.

Lemma camera_loop_app r1 r2 w :
  snd (SmartSprayer.camera_loop (r1 ++ r2) w)
    = snd (SmartSprayer.camera_loop r2 (snd (SmartSprayer.camera_loop r1 w))).
Proof.
  revert w. induction r1 as [|r r1 IH]; intros w; cbn; [reflexivity|].
  unfold bind. destruct r as [f|]; cbn;
    match goal with
    | |- context [SmartSprayer.camera_loop r1 ?w1] =>
        pose proof (IH w1) as Hi; pose proof (camera_loop_frame r1 w1) as (Hr & _);
        pose proof (camera_loop_frame (r1 ++ r2) w1) as (Hr' & _);
        destruct (SmartSprayer.camera_loop r1 w1) as [o w2];
        destruct (SmartSprayer.camera_loop (r1 ++ r2) w1) as [o' w3]; cbn in *;
        subst o o'; exact Hi
    end.
Qed.
(** X11. The camera thread keeps the most recent frame that was read
    successfully: failed reads never empty the buffer, and after any run
    of reads whose last success is [frame], [get_frame] hands out [frame].
    When the camera cannot be opened the buffer is never written.  The
    thread touches neither the pins nor the lock. *)
Theorem camera_keeps_last_good_frame w :
  (forall reads,
      Forall (fun r => r = None) reads ->
      SmartSprayer.latest_frame (snd (SmartSprayer.CameraThread_run true reads w))
        = SmartSprayer.latest_frame w) /\
  (forall before frame after,
      Forall (fun r => r = None) after ->
      SmartSprayer.get_frame
        (snd (SmartSprayer.CameraThread_run true (before ++ Some frame :: after) w))
      = (Returns (Some frame),
         snd (SmartSprayer.CameraThread_run true (before ++ Some frame :: after) w))) /\
  (forall reads,
      SmartSprayer.latest_frame (snd (SmartSprayer.CameraThread_run false reads w))
        = SmartSprayer.latest_frame w) /\
  (forall opened reads,
      SmartSprayer.gpio (snd (SmartSprayer.CameraThread_run opened reads w))
        = SmartSprayer.gpio w /\
      SmartSprayer.pump_lock (snd (SmartSprayer.CameraThread_run opened reads w))
        = SmartSprayer.pump_lock w).
Proof.
  split; [|split; [|split]].
  - intros reads H. apply camera_loop_failures, H.
  - intros before frame after H.
    unfold SmartSprayer.get_frame, gets, SmartSprayer.CameraThread_run.
    f_equal. f_equal.
    rewrite camera_loop_app. cbn. unfold bind; cbn.
    rewrite camera_loop_failures by exact H. reflexivity.
  - intros reads. reflexivity.
  - intros [|] reads; cbn.
    + apply camera_loop_frame.
    + split; reflexivity.
Qed.

Lemma camera_keeps_last_good_frame_witness :
  SmartSprayer.get_frame
    (snd (SmartSprayer.CameraThread_run true
            ([None; Some blank_frame] ++ Some (striped_frame 10 10 9) :: [None; None])
            (SmartSprayer.init true true)))
  = (Returns (Some (striped_frame 10 10 9)),
     snd (SmartSprayer.CameraThread_run true
            ([None; Some blank_frame] ++ Some (striped_frame 10 10 9) :: [None; None])
            (SmartSprayer.init true true))).
Proof.
  apply (proj1 (proj2 (camera_keeps_last_good_frame (SmartSprayer.init true true)))).
  repeat constructor.
Defined.

(* ------------------------------------------------------------------ *)
(** ** More on the drive sequence of [raspi_smart_sprayer.py] *)

(** [time.sleep] takes the finite lengths from 0 to [SLEEP_MAX], and
    no other. *)
Lemma sleep_length_accepts (q : Q) :
  (0 <= q)%Q -> (q <= SLEEP_MAX)%Q -> sleep_length (Finite q) = Ok q.
Proof.
  intros H0 Hmax. unfold sleep_length.
  assert (E1 : Qltb SLEEP_MAX q = false) by (apply Qltb_ge; exact Hmax).
  assert (E2 : Qltb q (- SLEEP_MAX) = false).
  { apply Qltb_ge. apply Qle_trans with 0%Q; [|exact H0]. vm_compute; discriminate. }
  assert (E3 : Qltb q 0 = false) by (apply Qltb_ge; exact H0).
  rewrite E1, E2, E3. reflexivity.
Qed.

Lemma sleep_length_rejects (secs : pyfloat) :
  (forall q, secs = Finite q -> (q < 0)%Q \/ (SLEEP_MAX < q)%Q) ->
  exists e, sleep_length secs = Err e.
Proof.
  intros H. destruct secs as [q| | |]; cbn [sleep_length]; try (eexists; reflexivity).
  destruct (Qltb SLEEP_MAX q || Qltb q (- SLEEP_MAX)) eqn:E; [eexists; reflexivity|].
  apply orb_false_iff in E as [E1 E2]. apply Qltb_ge in E1.
  destruct (H q eq_refl) as [Hn|Hx].
  - apply Qltb_lt in Hn. rewrite Hn. eexists; reflexivity.
  - exfalso. exact (Qlt_not_le _ _ Hx E1).
Qed.

(** X12. With a GPIO, one call of [activate_pump] writes the pin exactly
    twice, the active level and then the inactive one, however the hold
    ends.  A hold of [duration] seconds begins in between when
    [duration] is a length [time.sleep] takes, a finite one from 0 to
    [SLEEP_MAX]; for every other value (negative, too large, infinite,
    NaN) [time.sleep] raises at once and the pin is merely pulsed. *)
Theorem activate_pump_trace active_high interrupt duration w :
  SmartSprayer.pump_lock w = false ->
  let w' := snd (SmartSprayer.activate_pump true active_high interrupt duration w) in
  (forall q, duration = Finite q -> (0 <= q)%Q -> (q <= SLEEP_MAX)%Q ->
     SmartSprayer.out w'
     = (SmartSprayer.out w
        ++ [GpioOutput SmartSprayer.PUMP_GPIO_PIN (SmartSprayer.active_level active_high);
            Sleep q;
            GpioOutput SmartSprayer.PUMP_GPIO_PIN (SmartSprayer.inactive_level active_high)])%list) /\
  ((forall q, duration = Finite q -> (q < 0)%Q \/ (SLEEP_MAX < q)%Q) ->
     SmartSprayer.out w'
     = (SmartSprayer.out w
        ++ [GpioOutput SmartSprayer.PUMP_GPIO_PIN (SmartSprayer.active_level active_high);
            GpioOutput SmartSprayer.PUMP_GPIO_PIN (SmartSprayer.inactive_level active_high)])%list) /\
  SmartSprayer.latest_frame w' = SmartSprayer.latest_frame w.
Proof.
  intros Hl. unfold SmartSprayer.activate_pump, SmartSprayer.with_pump_lock. rewrite Hl.
  unfold try_finally_return, SmartSprayer.GPIO_output, SmartSprayer.time_sleep,
    SmartSprayer.emit, bind, modify, ret, raise; cbn.
  split; [|split].
  - intros q -> H0 Hmax. rewrite (sleep_length_accepts q H0 Hmax).
    destruct interrupt; cbn; rewrite <- !app_assoc; reflexivity.
  - intros H. destruct (sleep_length_rejects duration H) as [e ->]. cbn.
    rewrite <- !app_assoc. reflexivity.
  - destruct (sleep_length duration) as [q|e]; [destruct interrupt|]; reflexivity.
Qed.

Lemma activate_pump_trace_witness :
  SmartSprayer.out
    (snd (SmartSprayer.activate_pump true true None (-1) (SmartSprayer.init true true)))
  = [GpioOutput 18 HIGH; GpioOutput 18 LOW] /\
  SmartSprayer.out
    (snd (SmartSprayer.activate_pump true true None PlusInfinity
            (SmartSprayer.init true true)))
  = [GpioOutput 18 HIGH; GpioOutput 18 LOW] /\
  SmartSprayer.out
    (snd (SmartSprayer.activate_pump true true (Some OSError) 2.5
            (SmartSprayer.init true true)))
  = [GpioOutput 18 HIGH; Sleep 2.5; GpioOutput 18 LOW].
Proof.
  split; [|split].
  - apply (proj1 (proj2 (activate_pump_trace true None (-1)%Q
                           (SmartSprayer.init true true) eq_refl))).
    intros q H. injection H as <-. left. reflexivity.
  - apply (proj1 (proj2 (activate_pump_trace true None PlusInfinity
                           (SmartSprayer.init true true) eq_refl))).
    intros q H. discriminate H.
  - apply (proj1 (activate_pump_trace true (Some OSError) 2.5%Q
                    (SmartSprayer.init true true) eq_refl) 2.5%Q eq_refl).
    + vm_compute; discriminate.
    + vm_compute; discriminate.
Defined.

(** *** Every queued drive gets its turn *)

Lemma filter_pos_lookup {A} (P : A -> bool) (l : list A) (i : nat) (x : A) :
  l !! i = Some x -> P x = true -> (1 <= length (List.filter P l))%nat.
Proof.
  revert i. induction l as [|a l IH]; intros i H Hp; [discriminate|].
  destruct i as [|i]; cbn in H |- *.
  - injection H as ->. rewrite Hp. cbn. lia.
  - specialize (IH i H Hp). destruct (P a); cbn; lia.
Qed.

Lemma filter_pos_exists {A} (P : A -> bool) (l : list A) :
  (1 <= length (List.filter P l))%nat -> exists i x, l !! i = Some x /\ P x = true.
Proof.
  induction l as [|a l IH]; cbn; [lia|].
  destruct (P a) eqn:E.
  - intros _. exists 0%nat, a. split; [reflexivity | exact E].
  - intros H. destruct (IH H) as (i & x & Hi & Hx). exists (S i), x. split; assumption.
Qed.

Lemma sum_insert {A} (f : A -> nat) (l : list A) (i : nat) (x y : A) :
  l !! i = Some x ->
  (list_sum (map f (<[i := y]> l)) + f x = list_sum (map f l) + f y)%nat.
Proof.
  revert i. induction l as [|a l IH]; intros i H; [discriminate|].
  destruct i as [|i].
  - injection H as ->. cbn. lia.
  - specialize (IH i H).
    change (<[S i := y]> (a :: l)) with (a :: <[i := y]> l).
    unfold list_sum in *. cbn [map fold_right]. lia.
Qed.

Lemma sum_pos_exists {A} (f : A -> nat) (l : list A) :
  (0 < list_sum (map f l))%nat -> exists i x, l !! i = Some x /\ (0 < f x)%nat.
Proof.
  unfold list_sum.
  induction l as [|a l IH]; cbn [map fold_right]; [lia|].
  destruct (f a) as [|n] eqn:E.
  - intros H. destruct (IH H) as (i & x & Hi & Hx). exists (S i), x. split; assumption.
  - intros _. exists 0%nat, a. split; [reflexivity | lia].
Qed.

Lemma sum_zero_all {A} (f : A -> nat) (l : list A) :
  list_sum (map f l) = 0%nat -> Forall (fun x => f x = 0%nat) l.
Proof.
  unfold list_sum.
  induction l as [|a l IH]; cbn [map fold_right]; intros H; [constructor|].
  constructor; [lia | apply IH; lia].
Qed.

Lemma thread_step_decreases USE_GPIO active_high interrupt t w p w1 :
  SmartSprayer.thread_step USE_GPIO active_high interrupt t w = Some (p, w1) ->
  (remaining (SmartSprayer.mkThread (SmartSprayer.duration t) p) < remaining t)%nat.
Proof.
  unfold SmartSprayer.thread_step, remaining. destruct t as [d [| | | | |r|r]]; cbn.
  - destruct (SmartSprayer.pump_lock w); [discriminate|].
    intros H; injection H as <- _. destruct USE_GPIO; cbn; lia.
  - intros H; injection H as <- _. cbn; lia.
  - intros H; injection H as <- _. cbn; lia.
  - intros H; injection H as <- _. cbn; lia.
  - match goal with
    | |- context [match ?m with (_, _) => _ end] => destruct m as [r w2]
    end.
    intros H; injection H as <- _. cbn; lia.
  - intros H; injection H as <- _. cbn; lia.
  - discriminate.
Qed.

Lemma in_drive_can_step USE_GPIO active_high t w :
  SmartSprayer.in_drive t = true ->
  exists p w1, SmartSprayer.thread_step USE_GPIO active_high None t w = Some (p, w1).
Proof.
  unfold SmartSprayer.thread_step, SmartSprayer.in_drive.
  destruct t as [d [| | | | |r|r]]; cbn; try discriminate; intros _;
    try (do 2 eexists; reflexivity).
  match goal with
  | |- context [match ?m with (_, _) => _ end] => destruct m as [r w2]
  end.
  do 2 eexists; reflexivity.
Qed.

(** As long as some thread has work left, some thread can move, and the
    work left shrinks. *)
Lemma some_thread_can_move USE_GPIO active_high s :
  lock_counts s ->
  (0 < work_left s)%nat ->
  exists tid s1,
    SmartSprayer.exec USE_GPIO active_high (SmartSprayer.Run tid None) s = Some s1 /\
    (work_left s1 < work_left s)%nat /\
    SmartSprayer.answers s1 = SmartSprayer.answers s /\
    length (SmartSprayer.threads s1) = length (SmartSprayer.threads s).
Proof.
  intros Hl Hw. unfold lock_counts, driving, lock_held in Hl.
  assert (Hmove : exists tid t p w1,
             SmartSprayer.threads s !! tid = Some t /\
             SmartSprayer.thread_step USE_GPIO active_high None t (SmartSprayer.shared s)
               = Some (p, w1)).
  { destruct (SmartSprayer.pump_lock (SmartSprayer.shared s)) eqn:Hlock.
    - destruct (filter_pos_exists SmartSprayer.in_drive (SmartSprayer.threads s))
        as (i & t & Hi & Ht); [lia|].
      destruct (in_drive_can_step USE_GPIO active_high t (SmartSprayer.shared s) Ht)
        as (p & w1 & Hs).
      exists i, t, p, w1. split; assumption.
    - destruct (sum_pos_exists remaining (SmartSprayer.threads s) Hw)
        as (i & t & Hi & Ht).
      destruct (SmartSprayer.in_drive t) eqn:Hd.
      + pose proof (filter_pos_lookup SmartSprayer.in_drive _ _ _ Hi Hd). lia.
      + assert (Hpc : SmartSprayer.at_pc t = SmartSprayer.AtLock).
        { unfold SmartSprayer.in_drive in Hd. unfold remaining in Ht.
          destruct (SmartSprayer.at_pc t); try discriminate; [reflexivity | lia]. }
        exists i, t. unfold SmartSprayer.thread_step. rewrite Hpc, Hlock.
        do 2 eexists. split; [exact Hi | reflexivity]. }
  destruct Hmove as (tid & t & p & w1 & Hi & Hs).
  exists tid. cbn. rewrite Hi, Hs. eexists. split; [reflexivity|].
  cbn [SmartSprayer.answers SmartSprayer.threads].
  split; [|split; [reflexivity | apply length_insert]].
  unfold work_left. cbn [SmartSprayer.threads].
  pose proof (sum_insert remaining _ _ _
                (SmartSprayer.mkThread (SmartSprayer.duration t) p) Hi).
  pose proof (thread_step_decreases _ _ _ _ _ _ _ Hs). lia.
Qed.

Lemma run_app USE_GPIO active_high l1 l2 s s1 :
  SmartSprayer.run USE_GPIO active_high l1 s = Some s1 ->
  SmartSprayer.run USE_GPIO active_high (l1 ++ l2) s
    = SmartSprayer.run USE_GPIO active_high l2 s1.
Proof.
  revert s. induction l1 as [|l l1 IH]; intros s; cbn.
  - intros H; injection H as <-. reflexivity.
  - destruct (SmartSprayer.exec USE_GPIO active_high l s) as [s'|]; [|discriminate].
    apply IH.
Qed.

Lemma drives_can_finish USE_GPIO active_high (n : nat) :
  forall s,
    lock_counts s ->
    (work_left s <= n)%nat ->
    exists ls s',
      SmartSprayer.run USE_GPIO active_high ls s = Some s' /\
      forallb is_run ls = true /\
      work_left s' = 0%nat /\
      SmartSprayer.answers s' = SmartSprayer.answers s /\
      length (SmartSprayer.threads s') = length (SmartSprayer.threads s).
Proof.
  induction n as [|n IH]; intros s Hl Hn.
  - exists [], s. repeat split. lia.
  - destruct (Nat.eq_dec (work_left s) 0) as [E|E].
    + exists [], s. repeat split. exact E.
    + destruct (some_thread_can_move USE_GPIO active_high s Hl ltac:(lia))
        as (tid & s1 & He & Hlt & Ha & Hlen).
      destruct (IH s1 (exec_lock_counts _ _ _ _ _ He Hl) ltac:(lia))
        as (ls & s' & Hr & Hruns & Hz & Ha' & Hlen').
      exists (SmartSprayer.Run tid None :: ls), s'.
      split; [cbn [SmartSprayer.run]; rewrite He; exact Hr|].
      split; [exact Hruns|]. split; [exact Hz|].
      split; congruence.
Qed.

Lemma filter_none {A} (P Q : A -> bool) (l : list A) :
  forallb Q l = true ->
  (forall t, Q t = true -> P t = false) ->
  length (List.filter P l) = 0%nat.
Proof.
  induction l as [|a l IH]; cbn; intros H HP; [reflexivity|].
  apply andb_true_iff in H as [Ha Hl]. rewrite (HP a Ha). apply IH; assumption.
Qed.

Lemma no_work_all_finished (l : list SmartSprayer.thread) :
  list_sum (map remaining l) = 0%nat -> forallb finished l = true.
Proof.
  unfold list_sum.
  induction l as [|t l IH]; cbn [map fold_right forallb]; intros H; [reflexivity|].
  apply andb_true_iff. split; [|apply IH; lia].
  unfold finished. unfold remaining in H.
  destruct (SmartSprayer.at_pc t); try reflexivity; lia.
Qed.

(** X13. No drive is ever lost or stuck: from every state the server can
    reach, the pump threads alone (no further request) can be run to the
    point where every thread has finished; then the lock is free, the pin
    (if there is one) is at the inactive level, and there is one finished
    thread for each request answered "activated". *)
Theorem every_drive_completes USE_GPIO active_high ls s :
  SmartSprayer.run USE_GPIO active_high ls (SmartSprayer.idle USE_GPIO active_high)
    = Some s ->
  exists ls' s',
    SmartSprayer.run USE_GPIO active_high ls' s = Some s' /\
    forallb is_run ls' = true /\
    forallb finished (SmartSprayer.threads s') = true /\
    length (SmartSprayer.threads s') = length (SmartSprayer.answers s) /\
    lock_held s' = false /\
    (USE_GPIO = true ->
       pin_level s' = Some (SmartSprayer.inactive_level active_high)).
Proof.
  intros Hrun.
  destruct (run_invariants _ _ _ _ _ Hrun (idle_invariants USE_GPIO active_high))
    as (Hl & Hp & Ha).
  destruct (drives_can_finish USE_GPIO active_high (work_left s) s Hl (Nat.le_refl _))
    as (ls' & s' & Hr & Hruns & Hz & Hans & Hlen).
  exists ls', s'. split; [exact Hr|]. split; [exact Hruns|].
  destruct (run_invariants _ _ _ _ _ Hr (conj Hl (conj Hp Ha))) as (Hl' & Hp' & _).
  pose proof (no_work_all_finished _ Hz) as Hfin.
  split; [exact Hfin|].
  split; [destruct Ha as [_ Ha]; lia|].
  split.
  - unfold lock_counts, driving in Hl'.
    rewrite (filter_none SmartSprayer.in_drive finished _ Hfin) in Hl'.
    + destruct (lock_held s'); [discriminate | reflexivity].
    + intros t. unfold finished, SmartSprayer.in_drive.
      destruct (SmartSprayer.at_pc t); try discriminate; reflexivity.
  - intros Hu. apply Hp'; [exact Hu|]. unfold holding_pin.
    apply (filter_none SmartSprayer.asserting finished _ Hfin).
    intros t. unfold finished, SmartSprayer.asserting.
    destruct (SmartSprayer.at_pc t); try discriminate; reflexivity.
Qed.

Lemma every_drive_completes_witness :
  exists ls' s',
    SmartSprayer.run true true ls'
      (SmartSprayer.mkSystem
         (SmartSprayer.mkWorld None (<[18%Z := true]> (<[18%Z := false]> ∅)) true
            [ThreadStart "activate_pump" [Finite 5]; ThreadStart "activate_pump" [Finite 2];
             GpioOutput 18 true])
         [SmartSprayer.mkThread 5 SmartSprayer.AtHold;
          SmartSprayer.mkThread 2 SmartSprayer.AtLock]
         [SmartSprayer.SprayJson "activated" 5; SmartSprayer.SprayJson "activated" 2]
         [])
      = Some s' /\
    forallb finished (SmartSprayer.threads s') = true /\
    lock_held s' = false.
Proof.
  destruct (every_drive_completes true true first_drives _ eq_refl)
    as (ls' & s' & Hr & _ & Hf & _ & Hl & _).
  exists ls', s'. split; [exact Hr | split; [exact Hf | exact Hl]].
Defined.

(** *** The pin writes in the trace take turns *)

Lemma drive_splits (l : list SmartSprayer.thread) :
  length (List.filter SmartSprayer.in_drive l)
  = (length (List.filter SmartSprayer.asserting l)
     + length (List.filter beside_pin l))%nat.
Proof.
  induction l as [|t l IH]; [reflexivity|].
  cbn [List.filter].
  assert (Ht : SmartSprayer.in_drive t
               = SmartSprayer.asserting t || beside_pin t).
  { unfold beside_pin, SmartSprayer.in_drive, SmartSprayer.asserting.
    destruct (SmartSprayer.at_pc t); reflexivity. }
  assert (Hx : SmartSprayer.asserting t && beside_pin t = false).
  { unfold beside_pin, SmartSprayer.in_drive, SmartSprayer.asserting.
    destruct (SmartSprayer.at_pc t); reflexivity. }
  rewrite Ht.
  destruct (SmartSprayer.asserting t), (beside_pin t); try discriminate;
    cbn [orb length]; lia.
Qed.

Lemma history_snoc active trace e :
  pump_history active (trace ++ [e]) = pump_after active (pump_history active trace) e.
Proof. unfold pump_history. rewrite fold_left_app. reflexivity. Qed.

Ltac sprayer_run :=
  cbv beta iota zeta delta
    [SmartSprayer.time_sleep SmartSprayer.print SmartSprayer.emit
     SmartSprayer.GPIO_output SmartSprayer.set_lock
     SmartSprayer.latest_frame SmartSprayer.gpio SmartSprayer.pump_lock
     SmartSprayer.out SmartSprayer.duration SmartSprayer.at_pc
     bind modify gets ret raise fst snd] in *.

Ltac same_history :=
  rewrite ?history_snoc;
  match goal with
  | |- context [pump_history ?a ?o] => destruct (pump_history a o) as [[|]|]
  end; reflexivity.

Lemma time_sleep_history active interrupt d w :
  pump_history active (SmartSprayer.out (snd (SmartSprayer.time_sleep interrupt d w)))
  = pump_history active (SmartSprayer.out w).
Proof.
  destruct w as [f g l o]. sprayer_run.
  destruct (sleep_length d) as [q|e]; sprayer_run; [|reflexivity].
  destruct interrupt; sprayer_run; same_history.
Qed.

Lemma simulate_history active interrupt d w :
  let m := (do! SmartSprayer.print "[SIMULATION] Activating pump" in
            do! SmartSprayer.time_sleep interrupt d in
            do! SmartSprayer.print "[SIMULATION] Pump deactivated" in
            ret true)%py in
  pump_history active (SmartSprayer.out (snd (m w)))
  = pump_history active (SmartSprayer.out w).
Proof.
  destruct w as [f g l o]. sprayer_run.
  destruct (sleep_length d) as [q|e]; sprayer_run; [|same_history].
  destruct interrupt; sprayer_run; same_history.
Qed.

(** What one move of a thread adds to the history of the pin. *)
Lemma thread_step_history USE_GPIO active_high interrupt t w p w1 :
  SmartSprayer.thread_step USE_GPIO active_high interrupt t w = Some (p, w1) ->
  let a := SmartSprayer.active_level active_high in
  match SmartSprayer.at_pc t with
  | SmartSprayer.AtAssert =>
      pump_history a (SmartSprayer.out w1)
      = match pump_history a (SmartSprayer.out w) with
        | Some false => Some true
        | _ => None
        end
  | SmartSprayer.AtFinally =>
      pump_history a (SmartSprayer.out w1)
      = match pump_history a (SmartSprayer.out w) with
        | Some true => Some false
        | _ => None
        end
  | _ => pump_history a (SmartSprayer.out w1) = pump_history a (SmartSprayer.out w)
  end.
Proof.
  unfold SmartSprayer.thread_step. destruct t as [d [| | | | |r|r]];
    cbv beta iota zeta delta [SmartSprayer.at_pc SmartSprayer.duration].
  - destruct (SmartSprayer.pump_lock w); [discriminate|].
    intros H; injection H as _ <-. reflexivity.
  - intros H; injection H as _ <-. destruct w as [f g l o]. sprayer_run.
    rewrite history_snoc.
    destruct (pump_history _ o) as [[|]|]; destruct active_high; reflexivity.
  - intros H; injection H as _ <-. apply time_sleep_history.
  - intros H; injection H as _ <-. destruct w as [f g l o]. sprayer_run.
    rewrite history_snoc.
    destruct (pump_history _ o) as [[|]|]; destruct active_high; reflexivity.
  - pose proof (simulate_history (SmartSprayer.active_level active_high) interrupt d w)
      as Hs. cbv zeta in Hs.
    match goal with
    | |- context [match ?m with (_, _) => _ end] => destruct m as [r w2]
    end.
    intros H; injection H as _ <-. exact Hs.
  - intros H; injection H as _ <-. reflexivity.
  - discriminate.
Qed.

Ltac system_run :=
  cbn [SmartSprayer.exec SmartSprayer.spray SmartSprayer.emit
       SmartSprayer.shared SmartSprayer.threads SmartSprayer.answers
       SmartSprayer.latest_frame SmartSprayer.gpio SmartSprayer.pump_lock
       SmartSprayer.out SmartSprayer.duration SmartSprayer.at_pc
       SmartSprayer.asserting
       bind modify gets ret raise fst snd] in *.

Lemma exec_pin_in_turn USE_GPIO active_high l s s' :
  SmartSprayer.exec USE_GPIO active_high l s = Some s' ->
  lock_counts s -> pin_in_turn active_high s -> pin_in_turn active_high s'.
Proof.
  destruct s as [[f g lk o] ths ans].
  unfold pin_in_turn, holding_pin, lock_counts, driving, lock_held.
  destruct l as [body|tid interrupt].
  - rewrite exec_request.
    destruct (SmartSprayer.posted_duration body) as [d|e];
      intros H; injection H as <-; unfold SmartSprayer.emit, modify; system_run;
      intros _ Hj; [|exact Hj].
    rewrite history_snoc, Hj, List.filter_app, length_app.
    match goal with
    | |- context [length (List.filter SmartSprayer.asserting [?t])] =>
        change (length (List.filter SmartSprayer.asserting [t])) with 0%nat
    end.
    rewrite Nat.add_0_r. reflexivity.
  - unfold SmartSprayer.exec. system_run.
    destruct (ths !! tid) as [t|] eqn:Ht; [|discriminate].
    destruct (SmartSprayer.thread_step USE_GPIO active_high interrupt t
                (SmartSprayer.mkWorld f g lk o)) as [[p w1]|] eqn:Hs; [|discriminate].
    intros H; injection H as <-. system_run. intros Hl Hj.
    rewrite drive_splits in Hl.
    pose proof (filter_insert_count SmartSprayer.asserting _ _ _
                  (SmartSprayer.mkThread (SmartSprayer.duration t) p) Ht) as Hc.
    pose proof (thread_step_history _ _ _ _ _ _ _ Hs) as Hh.
    pose proof (thread_step_pin _ _ _ _ _ _ _ Hs) as Hp.
    cbv zeta in Hh, Hp. system_run.
    assert (Hone : (length (List.filter SmartSprayer.asserting ths)
                    + length (List.filter beside_pin ths) <= 1)%nat)
      by (destruct lk; lia).
    destruct t as [d pc0]. system_run.
    destruct pc0; system_run.
    + destruct Hp as [_ Ha]. rewrite Ha in Hc. rewrite Hh, Hj.
      f_equal. f_equal. lia.
    + assert (Hb : (1 <= length (List.filter beside_pin ths))%nat)
        by (apply (filter_pos_lookup beside_pin _ _ _ Ht); reflexivity).
      rewrite Hp in Hc. rewrite Hh, Hj.
      assert (Hz : length (List.filter SmartSprayer.asserting ths) = 0%nat) by lia.
      rewrite Hz in *. change (0 <? 0)%nat with false. cbv iota.
      f_equal. symmetry. apply Nat.ltb_lt. lia.
    + destruct Hp as [_ Ha]. rewrite Ha in Hc. rewrite Hh, Hj.
      f_equal. f_equal. lia.
    + assert (Ha : (1 <= length (List.filter SmartSprayer.asserting ths))%nat)
        by (apply (filter_pos_lookup SmartSprayer.asserting _ _ _ Ht); reflexivity).
      unfold SmartSprayer.thread_step in Hs. system_run. injection Hs as <- _.
      system_run. rewrite Hh, Hj.
      assert (Hz : length (List.filter SmartSprayer.asserting ths) = 1%nat) by lia.
      rewrite Hz in *. change (0 <? 1)%nat with true. cbv iota.
      f_equal. symmetry. apply Nat.ltb_ge. lia.
    + destruct Hp as [_ Ha]. rewrite Ha in Hc. rewrite Hh, Hj.
      f_equal. f_equal. lia.
    + destruct Hp as [_ Ha]. rewrite Ha in Hc. rewrite Hh, Hj.
      f_equal. f_equal. lia.
    + unfold SmartSprayer.thread_step in Hs. discriminate.
Qed.

(** X14. Read from start-up, the pin writes in the trace strictly take
    turns: active, inactive, active, inactive, ...; no drive writes the
    active level before the previous drive has written the inactive one.
    The last write is the active one exactly while a thread is between its
    two pin writes, and there is never more than one such thread. *)
Theorem pin_writes_take_turns USE_GPIO active_high ls s :
  SmartSprayer.run USE_GPIO active_high ls (SmartSprayer.idle USE_GPIO active_high)
    = Some s ->
  pump_history (SmartSprayer.active_level active_high)
    (SmartSprayer.out (SmartSprayer.shared s))
  = Some (0 <? holding_pin s)%nat /\
  (holding_pin s <= 1)%nat.
Proof.
  intros Hrun.
  assert (H : lock_counts s /\ pin_in_turn active_high s).
  { revert Hrun.
    assert (H0 : lock_counts (SmartSprayer.idle USE_GPIO active_high)
                 /\ pin_in_turn active_high (SmartSprayer.idle USE_GPIO active_high))
      by (split; reflexivity).
    revert H0. generalize (SmartSprayer.idle USE_GPIO active_high).
    induction ls as [|l ls IH]; intros s0 [Hl Hj]; cbn.
    - intros H; injection H as <-. split; assumption.
    - destruct (SmartSprayer.exec USE_GPIO active_high l s0) as [s1|] eqn:He;
        [|discriminate].
      apply IH. split.
      + eapply exec_lock_counts; eassumption.
      + eapply exec_pin_in_turn; eassumption. }
  destruct H as [Hl Hj]. split; [exact Hj|].
  unfold lock_counts, driving in Hl. rewrite drive_splits in Hl.
  unfold holding_pin. destruct (lock_held s); lia.
Qed.

Lemma pin_writes_take_turns_witness :
  pump_history true
    [ThreadStart "activate_pump" [Finite 5]; ThreadStart "activate_pump" [Finite 2];
     GpioOutput 18 true] = Some true.
Proof.
  exact (proj1 (pin_writes_take_turns true true first_drives _ eq_refl)).
Defined.

(* ------------------------------------------------------------------ *)
(** ** More on [cc.py]: models, checks and sprays *)

(** X15. [load_plant_model] loads a plant's model at most once: after a
    first call, a second call gives the same answer and leaves the world
    untouched, whatever [load_model] would do by then.  In particular a
    model that failed to load is cached as missing and never tried again. *)
Theorem load_plant_model_caches load_model load_model' plant w r w1 :
  PlantSprayer.load_plant_model load_model plant w = (r, w1) ->
  PlantSprayer.load_plant_model load_model' plant w1 = (r, w1).
Proof.
  unfold PlantSprayer.load_plant_model.
  destruct (PlantSprayer.PLANT_MODELS !! plant) as [[path classes]|].
  2: { intros H; injection H as <- <-. reflexivity. }
  unfold bind, gets, PlantSprayer.set_models_cache, modify, ret, raise; cbn.
  destruct (PlantSprayer.models_cache w !! plant) as [m|] eqn:Hc; cbn.
  - rewrite Hc. intros H; injection H as <- <-. cbn. rewrite Hc. cbn. rewrite Hc.
    reflexivity.
  - rewrite lookup_insert_eq. intros H; injection H as <- <-. cbn.
    rewrite lookup_insert_eq. cbn. rewrite lookup_insert_eq. reflexivity.
Qed.

(** The first load fails; the second call, with a loader that would
    succeed, still answers "no model". *)
Lemma load_plant_model_caches_witness :
  fst (PlantSprayer.load_plant_model (wheat_loader [0.1; 0.9]%Q) "rice"
         (snd (PlantSprayer.load_plant_model failing_loader "rice" plant_world)))
  = Returns (None, ["Healthy"; "Brown Spot"; "Leaf Blast"]).
Proof.
  rewrite (load_plant_model_caches failing_loader (wheat_loader [0.1; 0.9]%Q) "rice"
             plant_world (Returns (None, ["Healthy"; "Brown Spot"; "Leaf Blast"]))
             (snd (PlantSprayer.load_plant_model failing_loader "rice" plant_world))).
  - reflexivity.
  - vm_compute; reflexivity.
Defined.

(** X16. Without a model the pump is always allowed: for a plant that is
    not in [PLANT_MODELS], or whose model is cached as missing, or cannot
    be loaded, [/check] on any frame answers the mock result with severity
    "Medium", stores it, and the next [/spray] starts the pump. *)
Theorem no_model_means_spray load_model plant frame w :
  PlantSprayer.current_frame w = Some frame ->
  PlantSprayer.no_plant (Some plant) = false ->
  (PlantSprayer.PLANT_MODELS !! plant = None \/
   PlantSprayer.models_cache w !! plant = Some None \/
   (PlantSprayer.models_cache w !! plant = None /\
    forall path, exists e, load_model path = Err e)) ->
  exists w',
    PlantSprayer.check load_model (Some plant) w
      = (Returns (PlantSprayer.CheckJson
                    (PlantSprayer.Sentence "Mock: Possible infection detected")
                    "Medium"), w') /\
    stored_severity w' = Some "Medium" /\
    fst (PlantSprayer.spray w') = Returns (PlantSprayer.MessageJson "Pump activated!").
Proof.
  intros Hf Hp Hcause.
  assert (Hl : exists classes w1,
             PlantSprayer.load_plant_model load_model plant w
             = (Returns (None, classes), w1)).
  { unfold PlantSprayer.load_plant_model.
    destruct (PlantSprayer.PLANT_MODELS !! plant) as [[path classes]|] eqn:Hpm.
    - destruct Hcause as [Hc|[Hc|[Hc Hload]]]; [discriminate | |].
      + unfold bind, gets, ret; cbn. rewrite Hc. cbn. rewrite Hc.
        do 2 eexists; reflexivity.
      + destruct (Hload path) as [e He].
        unfold bind, gets, PlantSprayer.set_models_cache, modify, ret; cbn.
        rewrite Hc, He. cbn. rewrite lookup_insert_eq.
        do 2 eexists; reflexivity.
    - do 2 eexists; reflexivity. }
  destruct Hl as (classes & w1 & Hl).
  unfold PlantSprayer.check, bind, gets. rewrite Hf, Hp.
  unfold PlantSprayer.analyze_frame, bind. rewrite Hl. cbn.
  eexists. split; [reflexivity|]. split; reflexivity.
Qed.

Lemma no_model_means_spray_witness :
  exists w',
    PlantSprayer.check (wheat_loader [0.9; 0.1]%Q) (Some "tomato") plant_world
      = (Returns (PlantSprayer.CheckJson
                    (PlantSprayer.Sentence "Mock: Possible infection detected")
                    "Medium"), w') /\
    stored_severity w' = Some "Medium" /\
    fst (PlantSprayer.spray w') = Returns (PlantSprayer.MessageJson "Pump activated!").
Proof.
  apply (no_model_means_spray (wheat_loader [0.9; 0.1]%Q) "tomato" blank_frame plant_world).
  - reflexivity.
  - reflexivity.
  - left. vm_compute; reflexivity.
Defined.

(** X17. A "Healthy" arg-max never leads to a spray: whatever the
    confidence, [/check] reports severity "None", and the [/spray] that
    follows answers "Spray not needed." without starting a thread. *)
Theorem healthy_check_means_no_spray load_model plant w confidence severity w' :
  PlantSprayer.check load_model plant w
    = (Returns (PlantSprayer.CheckJson
                  (PlantSprayer.Labelled "Healthy" confidence) severity), w') ->
  severity = "None" /\
  PlantSprayer.spray w' = (Returns (PlantSprayer.MessageJson "Spray not needed."), w').
Proof.
  unfold PlantSprayer.check, bind, gets. intros H.
  destruct plant as [p|]; [|discriminate].
  destruct (PlantSprayer.current_frame w) as [f|]; [|discriminate].
  destruct (PlantSprayer.no_plant (Some p)); [discriminate|].
  destruct (PlantSprayer.analyze_frame load_model f p w) as [[[t sv]|e|] w1] eqn:Ha;
    cbn in H; try discriminate.
  injection H as -> -> <-.
  apply analyze_frame_severity in Ha. subst severity.
  split; [reflexivity|]. reflexivity.
Qed.

Lemma healthy_check_means_no_spray_witness :
  "None" = "None" /\
  PlantSprayer.spray
    (snd (PlantSprayer.check (wheat_loader [0.99; 0.01]%Q) (Some "wheat") plant_world))
  = (Returns (PlantSprayer.MessageJson "Spray not needed."),
     snd (PlantSprayer.check (wheat_loader [0.99; 0.01]%Q) (Some "wheat") plant_world)).
Proof.
  apply (healthy_check_means_no_spray (wheat_loader [0.99; 0.01]%Q) (Some "wheat")
           plant_world 0.99%Q "None").
  vm_compute; reflexivity.
Defined.

(** X18. Spraying does not use up the finding: [/spray] never changes the
    stored analysis result, so once a check has stored "Medium" or "High",
    every one of any number of [/spray] requests in a row starts another
    pump thread, without a new check in between. *)
Theorem one_check_many_sprays (n : nat) (w : PlantSprayer.world) (severity : string) :
  stored_severity w = Some severity ->
  severity = "Medium" \/ severity = "High" ->
  fst (spray_times n w)
    = repeat (Returns (PlantSprayer.MessageJson "Pump activated!")) n /\
  PlantSprayer.out (snd (spray_times n w))
    = (PlantSprayer.out w ++ repeat (ThreadStart "trigger_pump" []) n)%list /\
  stored_severity (snd (spray_times n w)) = Some severity.
Proof.
  revert w. induction n as [|n IH]; intros w Hs Hsev.
  - cbn [spray_times repeat fst snd]. rewrite app_nil_r. repeat split. exact Hs.
  - assert (Hspray : PlantSprayer.spray w
                     = (Returns (PlantSprayer.MessageJson "Pump activated!"),
                        with_event w (ThreadStart "trigger_pump" []))).
    { unfold stored_severity in Hs. unfold PlantSprayer.spray, bind, gets.
      destruct (PlantSprayer.analysis_result w) as [[t sv]|]; [|discriminate].
      injection Hs as ->. destruct Hsev as [-> | ->]; reflexivity. }
    cbn [spray_times]. rewrite Hspray.
    destruct (IH (with_event w (ThreadStart "trigger_pump" [])) Hs Hsev)
      as (Hr & Ho & Hk).
    destruct (spray_times n (with_event w (ThreadStart "trigger_pump" [])))
      as [rs w2].
    cbn [fst snd repeat with_event PlantSprayer.out] in *.
    rewrite Hr, Ho, Hk. rewrite <- app_assoc. repeat split.
Qed.

Lemma one_check_many_sprays_witness :
  fst (spray_times 3 after_high)
    = repeat (Returns (PlantSprayer.MessageJson "Pump activated!")) 3 /\
  PlantSprayer.out (snd (spray_times 3 after_high))
    = (PlantSprayer.out after_high ++ repeat (ThreadStart "trigger_pump" []) 3)%list /\
  stored_severity (snd (spray_times 3 after_high)) = Some "High".
Proof.
  apply (one_check_many_sprays 3 after_high "High").
  - reflexivity.
  - right; reflexivity.
Defined.

Lemma load_plant_model_frame load_model plant w :
  let w' := snd (PlantSprayer.load_plant_model load_model plant w) in
  PlantSprayer.current_frame w' = PlantSprayer.current_frame w /\
  PlantSprayer.analysis_result w' = PlantSprayer.analysis_result w /\
  PlantSprayer.gpio w' = PlantSprayer.gpio w /\
  PlantSprayer.out w' = PlantSprayer.out w.
Proof.
  destruct w as [cf ar mc g o].
  unfold PlantSprayer.load_plant_model.
  destruct (PlantSprayer.PLANT_MODELS !! plant) as [[path classes]|];
    [|repeat split].
  unfold bind, gets, PlantSprayer.set_models_cache, modify, ret, raise.
  cbn -[insert lookup].
  destruct (mc !! plant) as [m|] eqn:Hc; cbn -[insert lookup].
  - rewrite Hc. repeat split.
  - rewrite lookup_insert_eq. repeat split.
Qed.

(** X19. [/check] only looks, too: however it ends, it leaves the frame
    and the pins alone and starts no thread; all it can add to the trace
    is the call of the model, and all it can change besides are the model
    cache and the stored result. *)
Theorem check_only_looks load_model plant w :
  let w' := snd (PlantSprayer.check load_model plant w) in
  PlantSprayer.current_frame w' = PlantSprayer.current_frame w /\
  PlantSprayer.gpio w' = PlantSprayer.gpio w /\
  (PlantSprayer.out w' = PlantSprayer.out w \/
   PlantSprayer.out w' = (PlantSprayer.out w ++ [Called "predict"])%list).
Proof.
  unfold PlantSprayer.check, bind, gets.
  destruct plant as [p|]; [|repeat split; left; reflexivity].
  destruct (PlantSprayer.current_frame w) as [f|] eqn:Hf;
    [|repeat split; [exact Hf | left; reflexivity]].
  destruct (PlantSprayer.no_plant (Some p));
    [repeat split; [exact Hf | left; reflexivity]|].
  unfold PlantSprayer.analyze_frame, bind.
  pose proof (load_plant_model_frame load_model p w) as Hl. cbv zeta in Hl.
  destruct (PlantSprayer.load_plant_model load_model p w) as [[[m classes]|e|] w1];
    cbn [fst snd] in *; destruct Hl as (Hcf & _ & Hg & Ho);
    try (repeat split; [congruence | congruence | left; congruence]).
  destruct w1 as [cf1 ar1 mc1 g1 o1]. cbn [PlantSprayer.current_frame
    PlantSprayer.gpio PlantSprayer.out] in *.
  destruct m as [model|].
  - unfold PlantSprayer.emit, PlantSprayer.set_analysis_result, modify, lift, ret, raise.
    cbn -[insert lookup].
    destruct (PlantSprayer.predict_first model f) as [preds|e]; cbn -[insert lookup];
      [|repeat split; [congruence | congruence | right; congruence]].
    destruct (argmax preds) as [idx|e]; cbn -[insert lookup];
      [|repeat split; [congruence | congruence | right; congruence]].
    destruct (classes !! idx) as [lbl|]; cbn -[insert lookup];
      repeat split; first [congruence | right; congruence].
  - unfold PlantSprayer.set_analysis_result, modify, ret. cbn -[insert lookup].
    repeat split; first [congruence | left; congruence].
Qed.
